(** * pywr recorders: aggregation and lifecycle of simulation recorders

    A shallow embedding of [pywr/recorders/_recorders.pyx] (and of the
    attribute layout of its [.pxd]) together with the properties of the
    recorders that the design document of the module states.

    Conventions of the embedding.
    - A C [double] is a primitive binary64 [float]; arithmetic, comparisons
      and NaN are those of IEEE 754.
    - A C [int] is a [Z]; where an overflow is conceivable the wrap-around
      is written out ([wrap_int]).
    - A Python exception is a constructor of [exn]; a method that may raise
      returns a [result].
    - A typed memoryview [double[:]] is a [list float]; a [double[:, :]] is
      an [ndarray2], the list of its rows together with its second extent.
    - An object attribute that the simulation engine mutates between calls
      (the current timestep, the flow of a node) is a field that the engine
      model overwrites before the call. *)

From Stdlib Require Import ZArith Lia String Ascii Bool Floats.
From stdpp Require Import base tactics option list.

Local Open Scope Z_scope.

(** ** Exceptions and fallible computations *)

Inductive exn : Type :=
| ValueError
| KeyError
| TypeError
| IndexError
| ZeroDivisionError
| AssertionError
| NotImplementedError.

Inductive result (A : Type) : Type :=
| Ok (a : A)
| Raise (e : exn).

Arguments Ok {A} a.
Arguments Raise {A} e.

Definition bind {A B : Type} (c : result A) (k : A -> result B) : result B :=
  match c with
  | Ok a => k a
  | Raise e => Raise e
  end.

Notation "x <- c ;; k" := (bind c (fun x => k))
  (at level 100, c at next level, right associativity).
Notation "c ;;; k" := (bind c (fun _ => k))
  (at level 100, k at level 200, right associativity).


(** Loops that stop at the first exception. The body is fixed outside the
    recursion, so that a method may iterate over child objects. *)
Section loops.
Context {X S : Type}.

(** [for i in range(start, start + count): s = body(i, s)]. *)
Fixpoint for_loop (body : nat -> S -> result S) (start count : nat) (s : S)
    {struct count} : result S :=
  match count with
  | O => Ok s
  | Datatypes.S count' =>
      s' <- body start s ;; for_loop body (Datatypes.S start) count' s'
  end.

Definition for_range (n : nat) (body : nat -> S -> result S) (s : S) : result S :=
  for_loop body 0%nat n s.

Section each.
Variable body : X -> S -> result S.

(** [for x in xs: s = body(x, s)]. *)
Fixpoint for_each (xs : list X) (s : S) : result S :=
  match xs with
  | [] => Ok s
  | x :: xs' => s' <- body x s ;; for_each xs' s'
  end.
End each.

Section enumerate.
Variable body : nat -> X -> S -> result S.

(** [for i, x in enumerate(xs)]. *)
Fixpoint for_enumerate_from (i : nat) (xs : list X) (s : S) : result S :=
  match xs with
  | [] => Ok s
  | x :: xs' => s' <- body i x s ;; for_enumerate_from (Datatypes.S i) xs' s'
  end.

Definition for_enumerate (xs : list X) (s : S) : result S :=
  for_enumerate_from 0%nat xs s.
End enumerate.
End loops.

(** ** C numbers *)

Definition wrap_int (z : Z) : Z :=
  (z + 2147483648) mod 4294967296 - 2147483648.

(** Conversion of a C integer to [double]. *)
Definition float_of_Z (z : Z) : float :=
  match z with
  | Z0 => 0%float
  | Zpos _ => of_uint63 (Uint63.of_Z z)
  | Zneg p => (- of_uint63 (Uint63.of_Z (Zpos p)))%float
  end.

(** Division of C doubles as Cython compiles it with its default
    [cdivision=False]: a zero divisor raises [ZeroDivisionError]. *)
Definition cy_div (x y : float) : result float :=
  if (y =? 0)%float then Raise ZeroDivisionError else Ok (x / y)%float.

(** ** Indexing of typed memoryviews (bounds checked, negative indices wrap) *)

Definition py_index (i : Z) (len : nat) : result nat :=
  if (0 <=? i) && (i <? Z.of_nat len) then Ok (Z.to_nat i)
  else if (i <? 0) && (0 <=? i + Z.of_nat len) then Ok (Z.to_nat (i + Z.of_nat len))
  else Raise IndexError.

Definition vget {A : Type} (v : list A) (i : Z) : result A :=
  n <- py_index i (length v) ;;
  match v !! n with
  | Some x => Ok x
  | None => Raise IndexError
  end.

Definition vset {A : Type} (v : list A) (i : Z) (x : A) : result (list A) :=
  n <- py_index i (length v) ;; Ok (<[n := x]> v).

(** The stop bound of a slice [0:n] of a sequence of length [len]. *)
Definition slice_stop (n : Z) (len : nat) : nat :=
  if n <? 0 then Z.to_nat (Z.max 0 (n + Z.of_nat len))
  else Nat.min (Z.to_nat n) len.

Record ndarray2 : Type := mk_ndarray2 {
  shape1 : nat;
  rows : list (list float)
}.

Definition shape0 (m : ndarray2) : nat := length (rows m).

Definition np_full (r c : nat) (x : float) : ndarray2 :=
  mk_ndarray2 c (replicate r (replicate c x)).

Definition np_zeros (r c : nat) : ndarray2 := np_full r c 0%float.

Definition mget (m : ndarray2) (i j : Z) : result float :=
  row <- vget (rows m) i ;; vget row j.

Definition mset (m : ndarray2) (i j : Z) (x : float) : result ndarray2 :=
  row <- vget (rows m) i ;;
  row' <- vset row j x ;;
  rows' <- vset (rows m) i row' ;;
  Ok (mk_ndarray2 (shape1 m) rows').

(** [m[i, :] = v] between memoryviews: the extents must agree, except that a
    source of extent one is broadcast. *)
Definition mset_row (m : ndarray2) (i : Z) (v : list float) : result ndarray2 :=
  n <- py_index i (shape0 m) ;;
  if Nat.eqb (length v) (shape1 m) then
    Ok (mk_ndarray2 (shape1 m) (<[n := v]> (rows m)))
  else
    match v with
    | [x] => Ok (mk_ndarray2 (shape1 m) (<[n := replicate (shape1 m) x]> (rows m)))
    | _ => Raise ValueError
    end.

(** [m[:, :] = x]. *)
Definition mfill (m : ndarray2) (x : float) : ndarray2 :=
  np_full (shape0 m) (shape1 m) x.

(** [m[0:n, :]] and [m[:, 0:n]]. *)
Definition slice_rows (m : ndarray2) (n : Z) : ndarray2 :=
  mk_ndarray2 (shape1 m) (take (slice_stop n (shape0 m)) (rows m)).

Definition slice_cols (m : ndarray2) (n : Z) : ndarray2 :=
  let k := slice_stop n (shape1 m) in
  mk_ndarray2 k (map (take k) (rows m)).

(** [m[:, j]] as a vector. *)
Definition column (m : ndarray2) (j : nat) : list float :=
  map (fun row => default nan (row !! j)) (rows m).

(** ** The numpy reductions the module calls

    numpy is an external library. Its reductions are modelled as left folds
    that start from the first element (the identity is only used for an
    empty input); [np.max] and [np.min] propagate NaN and have no identity;
    [np.mean] of nothing is [0/0]. numpy adds the entries of a long
    contiguous vector in pairs rather than from left to right, so that its
    sum of eight entries or more may differ from the fold in the last bits;
    nothing below depends on the order of a sum. *)

Definition np_reduce (op : float -> float -> float) (identity : float)
    (v : list float) : float :=
  match v with
  | [] => identity
  | x :: v' => fold_left op v' x
  end.

Definition np_sum (v : list float) : float := np_reduce add 0%float v.

Definition np_product (v : list float) : float := np_reduce mul 1%float v.

Definition np_maximum (a b : float) : float :=
  if (b <=? a)%float || is_nan a then a else b.

Definition np_minimum (a b : float) : float :=
  if (a <=? b)%float || is_nan a then a else b.

Definition np_max (v : list float) : result float :=
  match v with
  | [] => Raise ValueError
  | x :: v' => Ok (fold_left np_maximum v' x)
  end.

Definition np_min (v : list float) : result float :=
  match v with
  | [] => Raise ValueError
  | x :: v' => Ok (fold_left np_minimum v' x)
  end.

Definition np_mean (v : list float) : float :=
  (np_sum v / float_of_Z (Z.of_nat (length v)))%float.

Fixpoint insert_sorted (x : float) (l : list float) : list float :=
  match l with
  | [] => [x]
  | y :: l' => if (x <=? y)%float then x :: l else y :: insert_sorted x l'
  end.

Definition np_sort (v : list float) : list float := foldr insert_sorted [] v.

Definition np_median (v : list float) : float :=
  let n := length v in
  if existsb is_nan v then nan
  else
    let s := np_sort v in
    match n with
    | O => nan
    | _ =>
        if Nat.even n then
          ((default nan (s !! (n / 2 - 1)%nat) + default nan (s !! (n / 2)%nat)) / 2)%float
        else default nan (s !! (n / 2)%nat)
    end.

(** [np.isnan] and the selection [a[~np.isnan(a)]]. *)
Definition np_isnan (x : float) : bool := is_nan x.

Definition drop_nan (v : list float) : list float :=
  filter (fun x => negb (np_isnan x) = true) v.

(** A numpy array as a Python object: the number of dimensions is only known
    at run time. *)
Inductive ndarray : Type :=
| Array1 (v : list float)
| Array2 (m : ndarray2).

(** A boolean mask applied to a 2-D array selects into a flat 1-D array
    (row-major order). *)
Definition mask_select_2d (keep : float -> bool) (m : ndarray2) : ndarray :=
  Array1 (filter (fun x => keep x = true) (concat (rows m))).

(** Coercion of an object to a [double[:, :]] memoryview: anything but a 2-D
    buffer is refused ("Buffer has wrong number of dimensions"). *)
Definition as_memview_2d (a : ndarray) : result ndarray2 :=
  match a with
  | Array2 m => Ok m
  | Array1 _ => Raise ValueError
  end.

(** Reduction of a 2-D array along an axis: [axis=0] reduces every column,
    [axis=1] every row. *)
Definition normalize_axis (axis : Z) : result bool :=
  if (axis =? 0) || (axis =? -2) then Ok false
  else if (axis =? 1) || (axis =? -1) then Ok true
  else Raise ValueError.

Definition lanes (m : ndarray2) (along_rows : bool) : list (list float) :=
  if along_rows then rows m
  else map (column m) (seq 0 (shape1 m)).

Definition np_reduce_axis (f : list float -> float) (m : ndarray2) (axis : Z)
    : result (list float) :=
  a <- normalize_axis axis ;; Ok (map f (lanes m a)).

Fixpoint sequence {A : Type} (l : list (result A)) : result (list A) :=
  match l with
  | [] => Ok []
  | c :: l' => x <- c ;; xs <- sequence l' ;; Ok (x :: xs)
  end.

Definition np_reduce_axis_partial (f : list float -> result float) (m : ndarray2)
    (axis : Z) : result (list float) :=
  a <- normalize_axis axis ;; sequence (map f (lanes m a)).

(** ** Aggregator *)

Inductive AggFuncs : Type :=
| SUM | MIN | MAX | MEAN | MEDIAN | PRODUCT | CUSTOM.

Definition ascii_lower (c : ascii) : ascii :=
  let n := nat_of_ascii c in
  if (65 <=? n)%nat && (n <=? 90)%nat then ascii_of_nat (n + 32) else c.

Fixpoint lower (s : string) : string :=
  match s with
  | EmptyString => EmptyString
  | String c s' => String (ascii_lower c) (lower s')
  end.

Definition _agg_func_lookup (key : string) : result AggFuncs :=
  if String.eqb key "sum" then Ok SUM
  else if String.eqb key "min" then Ok MIN
  else if String.eqb key "max" then Ok MAX
  else if String.eqb key "mean" then Ok MEAN
  else if String.eqb key "median" then Ok MEDIAN
  else if String.eqb key "product" then Ok PRODUCT
  else if String.eqb key "custom" then Ok CUSTOM
  else Raise KeyError.

(** A user-supplied Python callable standing for a reduction: called on a
    1-D array, or on a 2-D array (or a list of vectors) and an axis. *)
Record PyCallable : Type := {
  call_1d : list float -> result float;
  call_axis : list (list float) -> Z -> result (list float)
}.

(** What a caller may pass as an aggregation function. *)
Inductive PyObject : Type :=
| PyNone
| PyStr (s : string)
| PyFunc (f : PyCallable)
| PyInt (z : Z).

Record Aggregator : Type := {
  _user_func : option PyCallable;
  _func : AggFuncs
}.

Module AggregatorImpl.

(** The setter of the [func] property. *)
Definition set_func (func : PyObject) : result Aggregator :=
  match func with
  | PyStr s => f <- _agg_func_lookup (lower s) ;; Ok {| _user_func := None; _func := f |}
  | PyFunc f => Ok {| _user_func := Some f; _func := CUSTOM |}
  | _ => Raise ValueError
  end.

Definition __init__ (func : PyObject) : result Aggregator := set_func func.

Definition call_user_1d (self : Aggregator) (v : list float) : result float :=
  match _user_func self with
  | Some f => call_1d f v
  | None => Raise TypeError
  end.

Definition call_user_2d (self : Aggregator) (m : ndarray2) (axis : Z)
    : result (list float) :=
  match _user_func self with
  | Some f => call_axis f (rows m) axis
  | None => Raise TypeError
  end.

Definition aggregate_1d (self : Aggregator) (data : list float) (ignore_nan : bool)
    : result float :=
  let values := if ignore_nan then drop_nan data else data in
  match _func self with
  | PRODUCT => Ok (np_product values)
  | SUM => Ok (np_sum values)
  | MAX => np_max values
  | MIN => np_min values
  | MEAN => Ok (np_mean values)
  | MEDIAN => Ok (np_median values)
  | CUSTOM => call_user_1d self values
  end.

Definition aggregate_2d (self : Aggregator) (data : ndarray2) (axis : Z)
    (ignore_nan : bool) : result (list float) :=
  values <- (if ignore_nan
             then as_memview_2d (mask_select_2d (fun x => negb (np_isnan x)) data)
             else Ok data) ;;
  match _func self with
  | PRODUCT => np_reduce_axis np_product values axis
  | SUM => np_reduce_axis np_sum values axis
  | MAX => np_reduce_axis_partial np_max values axis
  | MIN => np_reduce_axis_partial np_min values axis
  | MEAN => np_reduce_axis np_mean values axis
  | MEDIAN => np_reduce_axis np_median values axis
  | CUSTOM => call_user_2d self values axis
  end.

End AggregatorImpl.

(** ** The simulation model and its entities, as far as recorders read them

    The engine, the nodes and the parameters live outside the recorder
    module. A record below is the part of such an object that a recorder
    reads, as it stands when a recorder method is called. *)

Record Timestep : Type := {
  index : Z;
  year : Z;
  month : Z;
  days : Z
}.

Record ScenarioIndex : Type := {
  global_id : Z;
  _indices : list Z
}.

Module Scenario.
Record t : Type := {
  size : Z;
  (* [model.scenarios.get_scenario_index(scenario)] *)
  scenario_index : Z
}.
End Scenario.

Record Model : Type := {
  (* [model.scenarios.combinations] *)
  combinations : list ScenarioIndex;
  (* [len(model.timestepper)] *)
  n_timesteps : nat;
  (* [model.timestepper.delta.days] *)
  delta_days : Z;
  (* [model.timestepper.current] *)
  current : Timestep
}.

Definition set_current (model : Model) (ts : Timestep) : Model :=
  {| combinations := combinations model;
     n_timesteps := n_timesteps model;
     delta_days := delta_days model;
     current := ts |}.

Definition ncomb (model : Model) : nat := length (combinations model).

Record AbstractNode : Type := {
  _flow : list float;
  get_max_flow : ScenarioIndex -> float
}.

Record AbstractStorage : Type := {
  _volume : list float;
  _current_pc : list float;
  get_level : ScenarioIndex -> float;
  get_area : ScenarioIndex -> float
}.

(** The class [Parameter] of pywr ([Parameter] is a reserved word here). *)
Record PywrParameter : Type := {
  get_value : ScenarioIndex -> float;
  get_all_values : list float
}.

Record IndexParameter : Type := {
  get_index : ScenarioIndex -> Z;
  get_all_indices : list Z
}.

(** [np.empty]: an array whose cells hold whatever was in memory; [junk]
    stands for that content. *)
Definition np_empty (junk : nat -> nat -> float) (r c : nat) : ndarray2 :=
  mk_ndarray2 c (map (fun i => map (junk i) (seq 0 c)) (seq 0 r)).

(** ** Recorder *)

Inductive ObjDirection : Type := NONE | MAXIMISE | MINIMISE.

Definition _obj_direction_lookup (key : string) : result ObjDirection :=
  if String.eqb key "maximize" then Ok MAXIMISE
  else if String.eqb key "maximise" then Ok MAXIMISE
  else if String.eqb key "max" then Ok MAXIMISE
  else if String.eqb key "minimise" then Ok MINIMISE
  else if String.eqb key "minimize" then Ok MINIMISE
  else if String.eqb key "min" then Ok MINIMISE
  else Raise KeyError.

(** The keyword arguments of the recorder constructors that the module
    itself inspects; [None] is an absent keyword. *)
Record kwargs : Type := {
  kw_agg_func : option PyObject;
  kw_recorder_agg_func : option PyObject;
  kw_temporal_agg_func : option PyObject;
  kw_ignore_nan : option bool;
  kw_is_objective : option string;
  kw_is_constraint : option bool;
  kw_epsilon : option float
}.

Definition no_kwargs : kwargs :=
  {| kw_agg_func := None; kw_recorder_agg_func := None;
     kw_temporal_agg_func := None; kw_ignore_nan := None;
     kw_is_objective := None; kw_is_constraint := None; kw_epsilon := None |}.

Record Recorder : Type := {
  _is_objective : ObjDirection;
  is_constraint : bool;
  epsilon : float;
  ignore_nan : bool;
  _scenario_aggregator : Aggregator
}.

Module RecorderImpl.

Definition __init__ (kw : kwargs) : result Recorder :=
  direction <- match kw_is_objective kw with
               | None => Ok NONE
               | Some value => _obj_direction_lookup value
               end ;;
  aggregator <- AggregatorImpl.__init__ (default (PyStr "mean") (kw_agg_func kw)) ;;
  Ok {| _is_objective := direction;
        is_constraint := default false (kw_is_constraint kw);
        epsilon := default 1%float (kw_epsilon kw);
        ignore_nan := default false (kw_ignore_nan kw);
        _scenario_aggregator := aggregator |}.

(** [Recorder.values]: abstract. *)
Definition values (self : Recorder) : result (list float) :=
  Raise NotImplementedError.

(** [Recorder.aggregated_value], given the [values] method that the class
    of [self] resolves to. No class of the module overrides it. *)
Definition aggregated_value {T : Type} (values_of : T -> result (list float))
    (super_of : T -> Recorder) (self : T) : result float :=
  values <- values_of self ;;
  AggregatorImpl.aggregate_1d (_scenario_aggregator (super_of self)) values false.

End RecorderImpl.

(** ** Typed bindings *)

Module NodeRecorder.
Record t : Type := { super : Recorder; _node : AbstractNode }.

Definition __init__ (node : AbstractNode) (kw : kwargs) : result t :=
  base <- RecorderImpl.__init__ kw ;; Ok {| super := base; _node := node |}.

Definition values (self : t) : result (list float) := Ok (_flow (_node self)).

(** The engine changes the state of the node the recorder refers to. *)
Definition with_node (self : t) (node : AbstractNode) : t :=
  {| super := super self; _node := node |}.
End NodeRecorder.

Module StorageRecorder.
Record t : Type := { super : Recorder; _node : AbstractStorage }.

Definition __init__ (node : AbstractStorage) (kw : kwargs) : result t :=
  base <- RecorderImpl.__init__ kw ;; Ok {| super := base; _node := node |}.

Definition values (self : t) : result (list float) := Ok (_volume (_node self)).
End StorageRecorder.

Module ParameterRecorder.
Record t : Type := { super : Recorder; _param : PywrParameter }.

Definition __init__ (param : PywrParameter) (kw : kwargs) : result t :=
  base <- RecorderImpl.__init__ kw ;; Ok {| super := base; _param := param |}.

(** Inherited from [Recorder]. *)
Definition values (self : t) : result (list float) := RecorderImpl.values (super self).

Definition with_param (self : t) (param : PywrParameter) : t :=
  {| super := super self; _param := param |}.
End ParameterRecorder.

Module IndexParameterRecorder.
Record t : Type := { super : Recorder; _param : IndexParameter }.

Definition __init__ (param : IndexParameter) (kw : kwargs) : result t :=
  base <- RecorderImpl.__init__ kw ;; Ok {| super := base; _param := param |}.

(** Inherited from [Recorder]. *)
Definition values (self : t) : result (list float) := RecorderImpl.values (super self).

Definition with_param (self : t) (param : IndexParameter) : t :=
  {| super := super self; _param := param |}.
End IndexParameterRecorder.

(** ** AggregatedRecorder

    The class is parametric in the type [R] of its child recorders; the
    knot is tied in [AnyRecorder] below. *)

Module AggregatedRecorder.

Record t (R : Type) : Type := {
  super : Recorder;
  recorder_agg_func : option PyCallable;
  _recorder_agg_func : AggFuncs;
  recorders : list R
}.
Arguments super {R} _.
Arguments recorder_agg_func {R} _.
Arguments _recorder_agg_func {R} _.
Arguments recorders {R} _.

Definition __init__ {R : Type} (recorders : list R) (kw : kwargs) : result (t R) :=
  (* agg_func = kwargs.pop('recorder_agg_func', kwargs.get('agg_func')) *)
  let agg_func :=
    match kw_recorder_agg_func kw with
    | Some f => f
    | None => default PyNone (kw_agg_func kw)
    end in
  code <- match agg_func with
          | PyStr s => f <- _agg_func_lookup (lower s) ;; Ok (None, f)
          | PyFunc f => Ok (Some f, CUSTOM)
          | _ => Raise ValueError
          end ;;
  base <- RecorderImpl.__init__ kw ;;
  Ok {| super := base;
        recorder_agg_func := fst code;
        _recorder_agg_func := snd code;
        recorders := recorders |}.

Section values.
Context {R : Type} (values_of : R -> result (list float)).

(** The two nested loops shared by the built-in branches:
    [for recorder in self.recorders: value2 = recorder.values();
     for i in range(n): value[i] = update(value[i], value2[i])]. *)
Definition combine (update : float -> float -> float) (n : nat)
    (recorders : list R) (value : list float) : result (list float) :=
  for_each
    (fun recorder value =>
       value2 <- values_of recorder ;;
       for_range n
         (fun i value =>
            y <- vget value2 (Z.of_nat i) ;;
            x <- vget value (Z.of_nat i) ;;
            vset value (Z.of_nat i) (update x y))
         value)
    recorders value.

Definition values (model : Model) (self : t R) : result (list float) :=
  if Nat.eqb (length (recorders self)) 0 then Raise AssertionError
  else
    let n := ncomb model in
    match _recorder_agg_func self with
    | PRODUCT =>
        combine (fun x y => x * y)%float n (recorders self) (replicate n 1%float)
    | SUM =>
        combine (fun x y => x + y)%float n (recorders self) (replicate n 0%float)
    | MAX =>
        combine (fun x y => if (x <? y)%float then y else x) n (recorders self)
          (replicate n neg_infinity)
    | MIN =>
        combine (fun x y => if (y <? x)%float then y else x) n (recorders self)
          (replicate n infinity)
    | MEAN =>
        value <- combine (fun x y => x + y)%float n (recorders self)
                   (replicate n 0%float) ;;
        (* [value[i] /= len(self.recorders)]: in place, the division of C *)
        for_range n
          (fun i value =>
             x <- vget value (Z.of_nat i) ;;
             vset value (Z.of_nat i)
               (x / float_of_Z (Z.of_nat (length (recorders self))))%float)
          value
    | MEDIAN | CUSTOM =>
        stacked <- sequence (map values_of (recorders self)) ;;
        match recorder_agg_func self with
        | Some f => call_axis f stacked 0
        | None => Raise TypeError
        end
    end.
End values.

End AggregatedRecorder.

(** ** Time-series recorders *)

Module NumpyArrayNodeRecorder.
Record t : Type := {
  super : NodeRecorder.t;
  _temporal_aggregator : Aggregator;
  _data : ndarray2
}.

Definition with_data (self : t) (data : ndarray2) : t :=
  {| super := super self;
     _temporal_aggregator := _temporal_aggregator self;
     _data := data |}.

Definition with_node (self : t) (node : AbstractNode) : t :=
  {| super := NodeRecorder.with_node (super self) node;
     _temporal_aggregator := _temporal_aggregator self;
     _data := _data self |}.

Definition recorder (self : t) : Recorder := NodeRecorder.super (super self).

Definition setup (model : Model) (self : t) : result t :=
  Ok (with_data self (np_zeros (n_timesteps model) (ncomb model))).

Definition reset (self : t) : result t :=
  Ok (with_data self (mfill (_data self) 0%float)).

Definition after (model : Model) (self : t) : result t :=
  let ts := current model in
  data <- for_range (shape1 (_data self))
            (fun i data =>
               x <- vget (_flow (NodeRecorder._node (super self))) (Z.of_nat i) ;;
               mset data (index ts) (Z.of_nat i) x)
            (_data self) ;;
  Ok (with_data self data).

Definition values (self : t) : result (list float) :=
  AggregatorImpl.aggregate_2d (_temporal_aggregator self) (_data self) 0
    (ignore_nan (recorder self)).
End NumpyArrayNodeRecorder.

(** ** Duration-curve recorders

    [np.percentile(data, percentiles, axis=0)] is an argument of the methods
    that call it. *)

Definition percentile_fn : Type := ndarray2 -> list float -> result ndarray2.

Module FlowDurationCurveRecorder.
Record t : Type := {
  super : NumpyArrayNodeRecorder.t;
  _percentiles : list float;
  _fdc : ndarray2
}.

Definition with_fdc (self : t) (fdc : ndarray2) : t :=
  {| super := super self; _percentiles := _percentiles self; _fdc := fdc |}.

Definition with_super (self : t) (s : NumpyArrayNodeRecorder.t) : t :=
  {| super := s; _percentiles := _percentiles self; _fdc := _fdc self |}.

Definition recorder (self : t) : Recorder :=
  NumpyArrayNodeRecorder.recorder (super self).

Definition finish (np_percentile : percentile_fn) (self : t) : result t :=
  fdc <- np_percentile (NumpyArrayNodeRecorder._data (super self)) (_percentiles self) ;;
  Ok (with_fdc self fdc).

Definition values (self : t) : result (list float) :=
  AggregatorImpl.aggregate_2d
    (NumpyArrayNodeRecorder._temporal_aggregator (super self)) (_fdc self) 0
    (ignore_nan (recorder self)).
End FlowDurationCurveRecorder.

Module SeasonalFlowDurationCurveRecorder.
Record t : Type := {
  super : FlowDurationCurveRecorder.t;
  _months : list Z
}.

Definition is_season (self : t) (x : Timestep) : bool :=
  existsb (Z.eqb (month x)) (_months self).

(** [datetime_index] is the list of the timesteps of the run, one per row
    of the buffer. *)
Definition finish (np_percentile : percentile_fn) (datetime_index : list Timestep)
    (self : t) : result t :=
  let data := NumpyArrayNodeRecorder._data (FlowDurationCurveRecorder.super (super self)) in
  let mask := map (is_season self) datetime_index in
  if negb (Nat.eqb (length mask) (shape0 data)) then Raise IndexError
  else
    let selected :=
      map snd (filter (fun p => fst p = true) (zip mask (rows data))) in
    fdc <- np_percentile (mk_ndarray2 (shape1 data) selected)
             (FlowDurationCurveRecorder._percentiles (super self)) ;;
    Ok {| super := FlowDurationCurveRecorder.with_fdc (super self) fdc;
          _months := _months self |}.

(** Inherited from [FlowDurationCurveRecorder]. *)
Definition values (self : t) : result (list float) :=
  FlowDurationCurveRecorder.values (super self).
End SeasonalFlowDurationCurveRecorder.

(** Python's [max(a, b, c)] on C doubles: the first argument is kept unless
    a later one is strictly greater. *)
Definition py_max3 (a b c : float) : float :=
  let r := if (a <? b)%float then b else a in
  if (r <? c)%float then c else r.

Module FlowDurationCurveDeviationRecorder.
Record t : Type := {
  super : FlowDurationCurveRecorder.t;
  _lower_target_fdc : ndarray2;
  _upper_target_fdc : ndarray2;
  _fdc_deviations : ndarray2;
  scenario : option Scenario.t
}.

Definition with_super (self : t) (s : FlowDurationCurveRecorder.t) : t :=
  {| super := s;
     _lower_target_fdc := _lower_target_fdc self;
     _upper_target_fdc := _upper_target_fdc self;
     _fdc_deviations := _fdc_deviations self;
     scenario := scenario self |}.

Definition with_deviations (self : t) (d : ndarray2) : t :=
  {| super := super self;
     _lower_target_fdc := _lower_target_fdc self;
     _upper_target_fdc := _upper_target_fdc self;
     _fdc_deviations := d;
     scenario := scenario self |}.

Definition recorder (self : t) : Recorder :=
  FlowDurationCurveRecorder.recorder (super self).

(** [np.array(target, dtype=np.float64)], then [target[:, np.newaxis]] when
    it has fewer than two dimensions. *)
Definition as_target (a : ndarray) : ndarray2 :=
  match a with
  | Array1 v => mk_ndarray2 1 (map (fun x => [x]) v)
  | Array2 m => m
  end.

Definition __init__ (base : FlowDurationCurveRecorder.t)
    (lower_target_fdc upper_target_fdc : ndarray) (scenario : option Scenario.t)
    : result t :=
  let lower_target := as_target lower_target_fdc in
  let upper_target := as_target upper_target_fdc in
  let n := length (FlowDurationCurveRecorder._percentiles base) in
  if negb (Nat.eqb n (shape0 lower_target)) then Raise ValueError
  else if negb (Nat.eqb n (shape0 upper_target)) then Raise ValueError
  else Ok {| super := base;
             _lower_target_fdc := lower_target;
             _upper_target_fdc := upper_target;
             _fdc_deviations := mk_ndarray2 0 [];
             scenario := scenario |}.

Definition setup (model : Model) (self : t) : result t :=
  base <- NumpyArrayNodeRecorder.setup model (FlowDurationCurveRecorder.super (super self)) ;;
  let self := with_super self (FlowDurationCurveRecorder.with_super (super self) base) in
  let nl := Z.of_nat (shape1 (_lower_target_fdc self)) in
  let nu := Z.of_nat (shape1 (_upper_target_fdc self)) in
  match scenario self with
  | Some sc =>
      if negb (nl =? Scenario.size sc) then Raise ValueError
      else if negb (nu =? Scenario.size sc) then Raise ValueError
      else Ok self
  | None =>
      if (1 <? nl) && negb (nl =? Z.of_nat (ncomb model)) then Raise ValueError
      else if (1 <? nu) && negb (nu =? Z.of_nat (ncomb model)) then Raise ValueError
      else Ok self
  end.

(** The body of the [try] block for one cell, before the assignment. *)
Definition deviation_try (fdc : ndarray2) (utrgt_fdc ltrgt_fdc : list float)
    (k i : Z) : result float :=
  a <- mget fdc k i ;;
  u <- vget utrgt_fdc k ;;
  u' <- vget utrgt_fdc k ;;
  udev <- cy_div (a - u) u' ;;
  l <- vget ltrgt_fdc k ;;
  a' <- mget fdc k i ;;
  l' <- vget ltrgt_fdc k ;;
  ldev <- cy_div (l - a') l' ;;
  Ok (py_max3 udev ldev 0%float).

(** [try: ... except ZeroDivisionError: self._fdc_deviations[k, i] = np.nan]. *)
Definition deviation_cell (fdc : ndarray2) (utrgt_fdc ltrgt_fdc : list float)
    (k i : Z) (deviations : ndarray2) : result ndarray2 :=
  match deviation_try fdc utrgt_fdc ltrgt_fdc k i with
  | Ok d => mset deviations k i d
  | Raise ZeroDivisionError => mset deviations k i nan
  | Raise e => Raise e
  end.

(** [target[:, j]]: the index is bounds checked. *)
Definition target_column (target : ndarray2) (j : Z) : result (list float) :=
  n <- py_index j (shape1 target) ;; Ok (column target n).

(** The body of the loop over the scenario combinations: the columns of the
    targets are chosen, then every percentile of the combination is scored. *)
Definition scenario_deviations (self : t) (i : nat) (scenario_index : ScenarioIndex)
    (deviations : ndarray2) : result ndarray2 :=
  let fdc := FlowDurationCurveRecorder._fdc (super self) in
  j <- match scenario self with
       | Some sc => vget (_indices scenario_index) (Scenario.scenario_index sc)
       | None => Ok (global_id scenario_index)
       end ;;
  let jl := if Nat.eqb (shape1 (_lower_target_fdc self)) 1 then 0 else j in
  let ju := if Nat.eqb (shape1 (_upper_target_fdc self)) 1 then 0 else j in
  ltrgt_fdc <- target_column (_lower_target_fdc self) jl ;;
  utrgt_fdc <- target_column (_upper_target_fdc self) ju ;;
  for_range (length ltrgt_fdc)
    (fun k deviations =>
       deviation_cell fdc utrgt_fdc ltrgt_fdc (Z.of_nat k) (Z.of_nat i) deviations)
    deviations.

Definition finish (np_percentile : percentile_fn) (junk : nat -> nat -> float)
    (model : Model) (self : t) : result t :=
  base <- FlowDurationCurveRecorder.finish np_percentile (super self) ;;
  let self := with_super self base in
  let empty := np_empty junk (shape0 (_lower_target_fdc self)) (ncomb model) in
  deviations <- for_enumerate (scenario_deviations self) (combinations model) empty ;;
  Ok (with_deviations self deviations).

Definition values (self : t) : result (list float) :=
  AggregatorImpl.aggregate_2d
    (NumpyArrayNodeRecorder._temporal_aggregator
       (FlowDurationCurveRecorder.super (super self)))
    (_fdc_deviations self) 0 (ignore_nan (recorder self)).
End FlowDurationCurveDeviationRecorder.

Module NumpyArrayAbstractStorageRecorder.
Record t : Type := {
  super : StorageRecorder.t;
  _temporal_aggregator : Aggregator;
  _data : ndarray2
}.

Definition with_data (self : t) (data : ndarray2) : t :=
  {| super := super self;
     _temporal_aggregator := _temporal_aggregator self;
     _data := data |}.

Definition recorder (self : t) : Recorder := StorageRecorder.super (super self).

Definition setup (model : Model) (self : t) : result t :=
  Ok (with_data self (np_zeros (n_timesteps model) (ncomb model))).

Definition reset (self : t) : result t :=
  Ok (with_data self (mfill (_data self) 0%float)).

Definition after (model : Model) (self : t) : result t :=
  Raise NotImplementedError.

Definition values (self : t) : result (list float) :=
  AggregatorImpl.aggregate_2d (_temporal_aggregator self) (_data self) 0
    (ignore_nan (recorder self)).
End NumpyArrayAbstractStorageRecorder.

Module NumpyArrayStorageRecorder.
Record t : Type := {
  super : NumpyArrayAbstractStorageRecorder.t;
  proportional : bool
}.

Definition after (model : Model) (self : t) : result t :=
  let ts := current model in
  let base := super self in
  let node := StorageRecorder._node (NumpyArrayAbstractStorageRecorder.super base) in
  data <- for_range (shape1 (NumpyArrayAbstractStorageRecorder._data base))
            (fun i data =>
               x <- (if proportional self
                     then vget (_current_pc node) (Z.of_nat i)
                     else vget (_volume node) (Z.of_nat i)) ;;
               mset data (index ts) (Z.of_nat i) x)
            (NumpyArrayAbstractStorageRecorder._data base) ;;
  Ok {| super := NumpyArrayAbstractStorageRecorder.with_data base data;
        proportional := proportional self |}.

(** Inherited from [NumpyArrayAbstractStorageRecorder]. *)
Definition values (self : t) : result (list float) :=
  NumpyArrayAbstractStorageRecorder.values (super self).
End NumpyArrayStorageRecorder.

Module StorageDurationCurveRecorder.
Record t : Type := {
  super : NumpyArrayStorageRecorder.t;
  _percentiles : list float;
  _sdc : ndarray2
}.

Definition base (self : t) : NumpyArrayAbstractStorageRecorder.t :=
  NumpyArrayStorageRecorder.super (super self).

Definition finish (np_percentile : percentile_fn) (self : t) : result t :=
  sdc <- np_percentile (NumpyArrayAbstractStorageRecorder._data (base self))
           (_percentiles self) ;;
  Ok {| super := super self; _percentiles := _percentiles self; _sdc := sdc |}.

Definition values (self : t) : result (list float) :=
  AggregatorImpl.aggregate_2d
    (NumpyArrayAbstractStorageRecorder._temporal_aggregator (base self))
    (_sdc self) 0
    (ignore_nan (NumpyArrayAbstractStorageRecorder.recorder (base self))).
End StorageDurationCurveRecorder.

(** [NumpyArrayLevelRecorder] and [NumpyArrayAreaRecorder] add no attribute
    to [NumpyArrayAbstractStorageRecorder]; they differ in the accessor that
    [after] calls. *)
Module NumpyArrayLevelRecorder.
Definition t : Type := NumpyArrayAbstractStorageRecorder.t.

Definition after (model : Model) (self : t) : result t :=
  let ts := current model in
  let node := StorageRecorder._node (NumpyArrayAbstractStorageRecorder.super self) in
  data <- for_enumerate
            (fun i scenario_index data =>
               mset data (index ts) (Z.of_nat i) (get_level node scenario_index))
            (combinations model) (NumpyArrayAbstractStorageRecorder._data self) ;;
  Ok (NumpyArrayAbstractStorageRecorder.with_data self data).

Definition values (self : t) : result (list float) :=
  NumpyArrayAbstractStorageRecorder.values self.
End NumpyArrayLevelRecorder.

Module NumpyArrayAreaRecorder.
Definition t : Type := NumpyArrayAbstractStorageRecorder.t.

Definition after (model : Model) (self : t) : result t :=
  let ts := current model in
  let node := StorageRecorder._node (NumpyArrayAbstractStorageRecorder.super self) in
  data <- for_enumerate
            (fun i scenario_index data =>
               mset data (index ts) (Z.of_nat i) (get_area node scenario_index))
            (combinations model) (NumpyArrayAbstractStorageRecorder._data self) ;;
  Ok (NumpyArrayAbstractStorageRecorder.with_data self data).

Definition values (self : t) : result (list float) :=
  NumpyArrayAbstractStorageRecorder.values self.
End NumpyArrayAreaRecorder.

Module NumpyArrayParameterRecorder.
Record t : Type := {
  super : ParameterRecorder.t;
  _temporal_aggregator : Aggregator;
  _data : ndarray2
}.

Definition with_data (self : t) (data : ndarray2) : t :=
  {| super := super self;
     _temporal_aggregator := _temporal_aggregator self;
     _data := data |}.

Definition setup (model : Model) (self : t) : result t :=
  Ok (with_data self (np_zeros (n_timesteps model) (ncomb model))).

Definition reset (self : t) : result t :=
  Ok (with_data self (mfill (_data self) 0%float)).

Definition after (model : Model) (self : t) : result t :=
  data <- mset_row (_data self) (index (current model))
            (get_all_values (ParameterRecorder._param (super self))) ;;
  Ok (with_data self data).

Definition values (self : t) : result (list float) :=
  AggregatorImpl.aggregate_2d (_temporal_aggregator self) (_data self) 0
    (ignore_nan (ParameterRecorder.super (super self))).
End NumpyArrayParameterRecorder.

Module NumpyArrayIndexParameterRecorder.
(** [_data] is an [int[:, :]] buffer here. *)
Record t : Type := {
  super : IndexParameterRecorder.t;
  _temporal_aggregator : Aggregator;
  _data_shape1 : nat;
  _data : list (list Z)
}.

Definition with_data (self : t) (c : nat) (data : list (list Z)) : t :=
  {| super := super self;
     _temporal_aggregator := _temporal_aggregator self;
     _data_shape1 := c;
     _data := data |}.

Definition __init__ (param : IndexParameter) (kw : kwargs) : result t :=
  let temporal_agg_func := default (PyStr "mean") (kw_temporal_agg_func kw) in
  base <- IndexParameterRecorder.__init__ param kw ;;
  aggregator <- AggregatorImpl.__init__ temporal_agg_func ;;
  Ok {| super := base;
        _temporal_aggregator := aggregator;
        _data_shape1 := 0;
        _data := [] |}.

Definition setup (model : Model) (self : t) : result t :=
  Ok (with_data self (ncomb model)
        (replicate (n_timesteps model) (replicate (ncomb model) 0))).

Definition reset (self : t) : result t :=
  Ok (with_data self (_data_shape1 self)
        (replicate (length (_data self)) (replicate (_data_shape1 self) 0))).

Definition after (model : Model) (self : t) : result t :=
  let v := get_all_indices (IndexParameterRecorder._param (super self)) in
  n <- py_index (index (current model)) (length (_data self)) ;;
  if Nat.eqb (length v) (_data_shape1 self) then
    Ok (with_data self (_data_shape1 self) (<[n := v]> (_data self)))
  else
    match v with
    | [x] => Ok (with_data self (_data_shape1 self)
                   (<[n := replicate (_data_shape1 self) x]> (_data self)))
    | _ => Raise ValueError
    end.

(** The class defines no [values]: the method resolves to
    [IndexParameterRecorder], which inherits it from [Recorder]. *)
Definition values (self : t) : result (list float) :=
  IndexParameterRecorder.values (super self).
End NumpyArrayIndexParameterRecorder.

(** ** Rolling-window recorders *)

Module RollingWindowParameterRecorder.
Record t : Type := {
  super : ParameterRecorder.t;
  _temporal_aggregator : Aggregator;
  window : Z;
  position : Z;
  _memory : ndarray2;
  _data : ndarray2
}.

Definition with_param (self : t) (param : PywrParameter) : t :=
  {| super := ParameterRecorder.with_param (super self) param;
     _temporal_aggregator := _temporal_aggregator self;
     window := window self;
     position := position self;
     _memory := _memory self;
     _data := _data self |}.

Definition setup (junk : nat -> nat -> float) (model : Model) (self : t) : result t :=
  let ncomb := ncomb model in
  let nts := n_timesteps model in
  Ok {| super := super self;
        _temporal_aggregator := _temporal_aggregator self;
        window := window self;
        position := 0;
        _memory := np_empty junk nts ncomb;
        _data := np_zeros nts ncomb |}.

Definition reset (self : t) : result t :=
  Ok {| super := super self;
        _temporal_aggregator := _temporal_aggregator self;
        window := window self;
        position := 0;
        _memory := _memory self;
        _data := mfill (_data self) 0%float |}.

Definition after (model : Model) (self : t) : result t :=
  let timestep := current model in
  memory <- for_enumerate
              (fun i scenario_index memory =>
                 mset memory (position self) (Z.of_nat i)
                   (get_value (ParameterRecorder._param (super self)) scenario_index))
              (combinations model) (_memory self) ;;
  let n := if index timestep <? window self then index timestep + 1 else window self in
  value <- AggregatorImpl.aggregate_2d (_temporal_aggregator self)
             (slice_rows memory n) 0 false ;;
  data <- mset_row (_data self) (index timestep) value ;;
  let position := position self + 1 in
  let position := if window self <=? position then 0 else position in
  Ok {| super := super self;
        _temporal_aggregator := _temporal_aggregator self;
        window := window self;
        position := position;
        _memory := memory;
        _data := data |}.

(** The class defines no [finish]. *)
Definition finish (model : Model) (self : t) : result t := Ok self.

(** The [data] property. *)
Definition data (self : t) : ndarray2 := _data self.

(** The class defines no [values]: inherited from [ParameterRecorder]. *)
Definition values (self : t) : result (list float) :=
  ParameterRecorder.values (super self).
End RollingWindowParameterRecorder.

Module RollingMeanFlowNodeRecorder.
Record t : Type := {
  super : NodeRecorder.t;
  position : Z;
  timesteps : Z;
  days : Z;
  _memory : ndarray2;
  _data : ndarray2
}.

Definition with_node (self : t) (node : AbstractNode) : t :=
  {| super := NodeRecorder.with_node (super self) node;
     position := position self;
     timesteps := timesteps self;
     days := days self;
     _memory := _memory self;
     _data := _data self |}.

(** [timesteps] and [days] are optional; an absent one and a zero are both
    false. An attribute that is not yet set is an empty array. *)
Definition __init__ (node : AbstractNode) (timesteps days : option Z) (kw : kwargs)
    : result t :=
  base <- NodeRecorder.__init__ node kw ;;
  let truthy (x : option Z) := match x with Some z => negb (z =? 0) | None => false end in
  if negb (truthy timesteps) && negb (truthy days) then Raise ValueError
  else
    Ok {| super := base;
          position := 0;
          timesteps := if truthy timesteps then default 0 timesteps else 0;
          days := if truthy days then default 0 days else 0;
          _memory := mk_ndarray2 0 [];
          _data := mk_ndarray2 0 [] |}.

Definition setup (junk : nat -> nat -> float) (model : Model) (self : t) : result t :=
  let data := np_empty junk (n_timesteps model) (ncomb model) in
  timesteps <- (if negb (days self =? 0) then
                  if delta_days model =? 0 then Raise ZeroDivisionError
                  else Ok (days self / delta_days model)
                else Ok (timesteps self)) ;;
  if timesteps =? 0 then Raise ValueError
  else if timesteps <? 0 then Raise ValueError
  else
    Ok {| super := super self;
          position := 0;
          timesteps := timesteps;
          days := days self;
          _memory := np_zeros (ncomb model) (Z.to_nat timesteps);
          _data := data |}.

(** The class defines no [reset]; the one it inherits touches none of the
    attributes above. *)
Definition reset (self : t) : result t := Ok self.

Definition after (model : Model) (self : t) : result t :=
  memory <- for_range (shape0 (_memory self))
              (fun i memory =>
                 x <- vget (_flow (NodeRecorder._node (super self))) (Z.of_nat i) ;;
                 mset memory (Z.of_nat i) (position self) x)
              (_memory self) ;;
  let timestep := current model in
  let n := if index timestep <? timesteps self then index timestep + 1
           else timesteps self in
  mean_flow <- np_reduce_axis np_mean (slice_cols memory n) 1 ;;
  data <- mset_row (_data self) (index timestep) mean_flow ;;
  let position := position self + 1 in
  let position := if timesteps self <=? position then 0 else position in
  Ok {| super := super self;
        position := position;
        timesteps := timesteps self;
        days := days self;
        _memory := memory;
        _data := data |}.

(** The class defines no [finish] either. *)
Definition finish (model : Model) (self : t) : result t := Ok self.

Definition data (self : t) : ndarray2 := _data self.

(** The class defines no [values]: inherited from [NodeRecorder]. *)
Definition values (self : t) : result (list float) := NodeRecorder.values (super self).
End RollingMeanFlowNodeRecorder.

(** ** Constant-value recorders *)

Module BaseConstantNodeRecorder.
Record t : Type := {
  super : NodeRecorder.t;
  _values : list float
}.

Definition with_values (self : t) (v : list float) : t :=
  {| super := super self; _values := v |}.

Definition with_node (self : t) (node : AbstractNode) : t :=
  {| super := NodeRecorder.with_node (super self) node; _values := _values self |}.

Definition setup (model : Model) (self : t) : result t :=
  Ok (with_values self (replicate (ncomb model) 0%float)).

Definition reset (self : t) : result t :=
  Ok (with_values self (replicate (length (_values self)) 0%float)).

Definition after (model : Model) (self : t) : result t :=
  Raise NotImplementedError.

Definition values (self : t) : result (list float) := Ok (_values self).

(** [self._values[i] op= x]. *)
Definition update (i : Z) (f : float -> result float) (v : list float)
    : result (list float) :=
  x <- vget v i ;; y <- f x ;; vset v i y.

(** The [finish] shared, textually, by the recorders of a mean:
    [nt = self.model.timestepper.current.index;
     for i in range(self._values.shape[0]): self._values[i] /= nt].
    The in-place division of a cell of a [double[:]] view is compiled to the
    division of C, without the test for a zero divisor that Cython puts
    around a division expression: a zero [nt] gives NaN or an infinity. *)
Definition divide_by_index (model : Model) (v : list float) : result (list float) :=
  let nt := index (current model) in
  for_range (length v)
    (fun i v => update (Z.of_nat i) (fun x => Ok (x / float_of_Z nt)%float) v)
    v.
End BaseConstantNodeRecorder.

Module TotalDeficitNodeRecorder.
Definition t : Type := BaseConstantNodeRecorder.t.

Definition after (model : Model) (self : t) : result t :=
  let days := days (current model) in
  let node := NodeRecorder._node (BaseConstantNodeRecorder.super self) in
  v <- for_each
         (fun scenario_index v =>
            let max_flow := get_max_flow node scenario_index in
            flow <- vget (_flow node) (global_id scenario_index) ;;
            BaseConstantNodeRecorder.update (global_id scenario_index)
              (fun x => Ok (x + (max_flow - flow) * float_of_Z days)%float) v)
         (combinations model) (BaseConstantNodeRecorder._values self) ;;
  Ok (BaseConstantNodeRecorder.with_values self v).

Definition values (self : t) : result (list float) :=
  BaseConstantNodeRecorder.values self.
End TotalDeficitNodeRecorder.

Module TotalFlowNodeRecorder.
Record t : Type := {
  super : BaseConstantNodeRecorder.t;
  factor : float
}.

Definition after (model : Model) (self : t) : result t :=
  let days := days (current model) in
  let node := NodeRecorder._node (BaseConstantNodeRecorder.super (super self)) in
  v <- for_each
         (fun scenario_index v =>
            let i := global_id scenario_index in
            flow <- vget (_flow node) i ;;
            BaseConstantNodeRecorder.update i
              (fun x => Ok (x + flow * factor self * float_of_Z days)%float) v)
         (combinations model) (BaseConstantNodeRecorder._values (super self)) ;;
  Ok {| super := BaseConstantNodeRecorder.with_values (super self) v;
        factor := factor self |}.

Definition values (self : t) : result (list float) :=
  BaseConstantNodeRecorder.values (super self).
End TotalFlowNodeRecorder.

Module MeanFlowNodeRecorder.
Record t : Type := {
  super : BaseConstantNodeRecorder.t;
  factor : float
}.

Definition with_super (self : t) (s : BaseConstantNodeRecorder.t) : t :=
  {| super := s; factor := factor self |}.

Definition with_node (self : t) (node : AbstractNode) : t :=
  with_super self (BaseConstantNodeRecorder.with_node (super self) node).

Definition setup (model : Model) (self : t) : result t :=
  s <- BaseConstantNodeRecorder.setup model (super self) ;; Ok (with_super self s).

Definition reset (self : t) : result t :=
  s <- BaseConstantNodeRecorder.reset (super self) ;; Ok (with_super self s).

Definition after (model : Model) (self : t) : result t :=
  let node := NodeRecorder._node (BaseConstantNodeRecorder.super (super self)) in
  v <- for_each
         (fun scenario_index v =>
            let i := global_id scenario_index in
            flow <- vget (_flow node) i ;;
            BaseConstantNodeRecorder.update i
              (fun x => Ok (x + flow * factor self)%float) v)
         (combinations model) (BaseConstantNodeRecorder._values (super self)) ;;
  Ok (with_super self (BaseConstantNodeRecorder.with_values (super self) v)).

Definition finish (model : Model) (self : t) : result t :=
  v <- BaseConstantNodeRecorder.divide_by_index model
         (BaseConstantNodeRecorder._values (super self)) ;;
  Ok (with_super self (BaseConstantNodeRecorder.with_values (super self) v)).

Definition values (self : t) : result (list float) :=
  BaseConstantNodeRecorder.values (super self).
End MeanFlowNodeRecorder.

(** The literal [1e-6] of the source, as the binary64 value nearest to it. *)
Definition deficit_tolerance : float := 0x1.0c6f7a0b5ed8dp-20%float.

Module DeficitFrequencyNodeRecorder.
Definition t : Type := BaseConstantNodeRecorder.t.

Definition setup (model : Model) (self : t) : result t :=
  BaseConstantNodeRecorder.setup model self.

Definition reset (self : t) : result t := BaseConstantNodeRecorder.reset self.

Definition after (model : Model) (self : t) : result t :=
  let node := NodeRecorder._node (BaseConstantNodeRecorder.super self) in
  v <- for_each
         (fun scenario_index v =>
            let max_flow := get_max_flow node scenario_index in
            flow <- vget (_flow node) (global_id scenario_index) ;;
            if (deficit_tolerance <? abs (flow - max_flow))%float then
              BaseConstantNodeRecorder.update (global_id scenario_index)
                (fun x => Ok (x + 1)%float) v
            else Ok v)
         (combinations model) (BaseConstantNodeRecorder._values self) ;;
  Ok (BaseConstantNodeRecorder.with_values self v).

Definition finish (model : Model) (self : t) : result t :=
  v <- BaseConstantNodeRecorder.divide_by_index model
         (BaseConstantNodeRecorder._values self) ;;
  Ok (BaseConstantNodeRecorder.with_values self v).

Definition values (self : t) : result (list float) :=
  BaseConstantNodeRecorder.values self.
End DeficitFrequencyNodeRecorder.

Module BaseConstantStorageRecorder.
Record t : Type := {
  super : StorageRecorder.t;
  _values : list float
}.

Definition with_values (self : t) (v : list float) : t :=
  {| super := super self; _values := v |}.

Definition setup (model : Model) (self : t) : result t :=
  Ok (with_values self (replicate (ncomb model) 0%float)).

Definition reset (self : t) : result t :=
  Ok (with_values self (replicate (length (_values self)) 0%float)).

Definition values (self : t) : result (list float) := Ok (_values self).
End BaseConstantStorageRecorder.

Module MinimumVolumeStorageRecorder.
Definition t : Type := BaseConstantStorageRecorder.t.

Definition reset (self : t) : result t :=
  Ok (BaseConstantStorageRecorder.with_values self
        (replicate (length (BaseConstantStorageRecorder._values self)) infinity)).

Definition after (model : Model) (self : t) : result t :=
  let node := StorageRecorder._node (BaseConstantStorageRecorder.super self) in
  v <- for_range (length (BaseConstantStorageRecorder._values self))
         (fun i v =>
            volume <- vget (_volume node) (Z.of_nat i) ;;
            x <- vget v (Z.of_nat i) ;;
            m <- np_min [volume; x] ;;
            vset v (Z.of_nat i) m)
         (BaseConstantStorageRecorder._values self) ;;
  Ok (BaseConstantStorageRecorder.with_values self v).

Definition values (self : t) : result (list float) :=
  BaseConstantStorageRecorder.values self.
End MinimumVolumeStorageRecorder.

Module MinimumThresholdVolumeStorageRecorder.
Record t : Type := {
  super : BaseConstantStorageRecorder.t;
  threshold : float
}.

Definition after (model : Model) (self : t) : result t :=
  let node := StorageRecorder._node (BaseConstantStorageRecorder.super (super self)) in
  v <- for_range (length (BaseConstantStorageRecorder._values (super self)))
         (fun i v =>
            volume <- vget (_volume node) (Z.of_nat i) ;;
            if (volume <=? threshold self)%float then vset v (Z.of_nat i) 1%float
            else Ok v)
         (BaseConstantStorageRecorder._values (super self)) ;;
  Ok {| super := BaseConstantStorageRecorder.with_values (super self) v;
        threshold := threshold self |}.

Definition values (self : t) : result (list float) :=
  BaseConstantStorageRecorder.values (super self).
End MinimumThresholdVolumeStorageRecorder.

Module AnnualCountIndexParameterRecorder.
Record t : Type := {
  super : IndexParameterRecorder.t;
  threshold : Z;
  _count : list Z;
  _current_year : Z;
  _current_max : list Z
}.

Definition with_param (self : t) (param : IndexParameter) : t :=
  {| super := IndexParameterRecorder.with_param (super self) param;
     threshold := threshold self;
     _count := _count self;
     _current_year := _current_year self;
     _current_max := _current_max self |}.

Definition setup (model : Model) (self : t) : result t :=
  Ok {| super := super self;
        threshold := threshold self;
        _count := replicate (ncomb model) 0;
        _current_year := _current_year self;
        _current_max := replicate (ncomb model) 0 |}.

Definition reset (self : t) : result t :=
  Ok {| super := super self;
        threshold := threshold self;
        _count := replicate (length (_count self)) 0;
        _current_year := -1;
        _current_max := replicate (length (_current_max self)) 0 |}.

(** [for i in range(ncomb):
       if self._current_max[i] >= self.threshold: self._count[i] += 1]. *)
Definition update_count (ncomb : nat) (threshold : Z) (current_max count : list Z)
    : result (list Z) :=
  for_range ncomb
    (fun i count =>
       m <- vget current_max (Z.of_nat i) ;;
       if threshold <=? m then
         c <- vget count (Z.of_nat i) ;; vset count (Z.of_nat i) (wrap_int (c + 1))
       else Ok count)
    count.

Definition after (model : Model) (self : t) : result t :=
  let ts := current model in
  let ncomb := ncomb model in
  state <- (if negb (year ts =? _current_year self) then
              count <- (if negb (_current_year self =? -1) then
                          update_count ncomb (threshold self) (_current_max self)
                            (_count self)
                        else Ok (_count self)) ;;
              Ok (count, replicate (length (_current_max self)) 0, year ts)
            else Ok (_count self, _current_max self, _current_year self)) ;;
  let '(count, current_max, current_year) := state in
  current_max <-
    for_each
      (fun scenario_index current_max =>
         let value := get_index (IndexParameterRecorder._param (super self))
                        scenario_index in
         m <- vget current_max (global_id scenario_index) ;;
         if m <? value then vset current_max (global_id scenario_index) value
         else Ok current_max)
      (combinations model) current_max ;;
  Ok {| super := super self;
        threshold := threshold self;
        _count := count;
        _current_year := current_year;
        _current_max := current_max |}.

Definition finish (model : Model) (self : t) : result t :=
  count <- update_count (ncomb model) (threshold self) (_current_max self)
             (_count self) ;;
  Ok {| super := super self;
        threshold := threshold self;
        _count := count;
        _current_year := _current_year self;
        _current_max := _current_max self |}.

(** [np.asarray(self._count).astype(np.float64)]. *)
Definition values (self : t) : result (list float) :=
  Ok (map float_of_Z (_count self)).
End AnnualCountIndexParameterRecorder.

Module BaseConstantParameterRecorder.
Record t : Type := {
  super : ParameterRecorder.t;
  _values : list float
}.

Definition with_values (self : t) (v : list float) : t :=
  {| super := super self; _values := v |}.

Definition setup (model : Model) (self : t) : result t :=
  Ok (with_values self (replicate (ncomb model) 0%float)).

Definition reset (self : t) : result t :=
  Ok (with_values self (replicate (length (_values self)) 0%float)).

Definition values (self : t) : result (list float) := Ok (_values self).
End BaseConstantParameterRecorder.

Module TotalParameterRecorder.
Record t : Type := {
  super : BaseConstantParameterRecorder.t;
  factor : float;
  integrate : bool
}.

Definition after (model : Model) (self : t) : result t :=
  let factor' :=
    if integrate self then (factor self * float_of_Z (days (current model)))%float
    else factor self in
  let values :=
    get_all_values (ParameterRecorder._param (BaseConstantParameterRecorder.super (super self))) in
  v <- for_each
         (fun scenario_index v =>
            let i := global_id scenario_index in
            y <- vget values i ;;
            BaseConstantNodeRecorder.update i (fun x => Ok (x + y * factor')%float) v)
         (combinations model) (BaseConstantParameterRecorder._values (super self)) ;;
  Ok {| super := BaseConstantParameterRecorder.with_values (super self) v;
        factor := factor self;
        integrate := integrate self |}.

Definition values (self : t) : result (list float) :=
  BaseConstantParameterRecorder.values (super self).
End TotalParameterRecorder.

Module MeanParameterRecorder.
Record t : Type := {
  super : BaseConstantParameterRecorder.t;
  factor : float
}.

Definition after (model : Model) (self : t) : result t :=
  let values :=
    get_all_values (ParameterRecorder._param (BaseConstantParameterRecorder.super (super self))) in
  v <- for_each
         (fun scenario_index v =>
            let i := global_id scenario_index in
            y <- vget values i ;;
            BaseConstantNodeRecorder.update i (fun x => Ok (x + y * factor self)%float) v)
         (combinations model) (BaseConstantParameterRecorder._values (super self)) ;;
  Ok {| super := BaseConstantParameterRecorder.with_values (super self) v;
        factor := factor self |}.

Definition finish (model : Model) (self : t) : result t :=
  v <- BaseConstantNodeRecorder.divide_by_index model
         (BaseConstantParameterRecorder._values (super self)) ;;
  Ok {| super := BaseConstantParameterRecorder.with_values (super self) v;
        factor := factor self |}.

Definition values (self : t) : result (list float) :=
  BaseConstantParameterRecorder.values (super self).
End MeanParameterRecorder.

(** ** Any recorder of the module

    One constructor per class; [values] is the method each class resolves
    to, and [aggregated_value] is the single definition of [Recorder]. *)

#[warnings="-register-all"]
Inductive AnyRecorder : Type :=
| IsRecorder (r : Recorder)
| IsAggregatedRecorder (r : AggregatedRecorder.t AnyRecorder)
| IsNodeRecorder (r : NodeRecorder.t)
| IsStorageRecorder (r : StorageRecorder.t)
| IsParameterRecorder (r : ParameterRecorder.t)
| IsIndexParameterRecorder (r : IndexParameterRecorder.t)
| IsNumpyArrayNodeRecorder (r : NumpyArrayNodeRecorder.t)
| IsFlowDurationCurveRecorder (r : FlowDurationCurveRecorder.t)
| IsSeasonalFlowDurationCurveRecorder (r : SeasonalFlowDurationCurveRecorder.t)
| IsFlowDurationCurveDeviationRecorder (r : FlowDurationCurveDeviationRecorder.t)
| IsNumpyArrayAbstractStorageRecorder (r : NumpyArrayAbstractStorageRecorder.t)
| IsNumpyArrayStorageRecorder (r : NumpyArrayStorageRecorder.t)
| IsStorageDurationCurveRecorder (r : StorageDurationCurveRecorder.t)
| IsNumpyArrayLevelRecorder (r : NumpyArrayLevelRecorder.t)
| IsNumpyArrayAreaRecorder (r : NumpyArrayAreaRecorder.t)
| IsNumpyArrayParameterRecorder (r : NumpyArrayParameterRecorder.t)
| IsNumpyArrayIndexParameterRecorder (r : NumpyArrayIndexParameterRecorder.t)
| IsRollingWindowParameterRecorder (r : RollingWindowParameterRecorder.t)
| IsRollingMeanFlowNodeRecorder (r : RollingMeanFlowNodeRecorder.t)
| IsBaseConstantNodeRecorder (r : BaseConstantNodeRecorder.t)
| IsTotalDeficitNodeRecorder (r : TotalDeficitNodeRecorder.t)
| IsTotalFlowNodeRecorder (r : TotalFlowNodeRecorder.t)
| IsMeanFlowNodeRecorder (r : MeanFlowNodeRecorder.t)
| IsDeficitFrequencyNodeRecorder (r : DeficitFrequencyNodeRecorder.t)
| IsBaseConstantStorageRecorder (r : BaseConstantStorageRecorder.t)
| IsMinimumVolumeStorageRecorder (r : MinimumVolumeStorageRecorder.t)
| IsMinimumThresholdVolumeStorageRecorder (r : MinimumThresholdVolumeStorageRecorder.t)
| IsAnnualCountIndexParameterRecorder (r : AnnualCountIndexParameterRecorder.t)
| IsBaseConstantParameterRecorder (r : BaseConstantParameterRecorder.t)
| IsTotalParameterRecorder (r : TotalParameterRecorder.t)
| IsMeanParameterRecorder (r : MeanParameterRecorder.t).

(** The [Recorder] part of an object. *)
Definition recorder_of (self : AnyRecorder) : Recorder :=
  match self with
  | IsRecorder r => r
  | IsAggregatedRecorder r => AggregatedRecorder.super r
  | IsNodeRecorder r => NodeRecorder.super r
  | IsStorageRecorder r => StorageRecorder.super r
  | IsParameterRecorder r => ParameterRecorder.super r
  | IsIndexParameterRecorder r => IndexParameterRecorder.super r
  | IsNumpyArrayNodeRecorder r => NumpyArrayNodeRecorder.recorder r
  | IsFlowDurationCurveRecorder r => FlowDurationCurveRecorder.recorder r
  | IsSeasonalFlowDurationCurveRecorder r =>
      FlowDurationCurveRecorder.recorder (SeasonalFlowDurationCurveRecorder.super r)
  | IsFlowDurationCurveDeviationRecorder r => FlowDurationCurveDeviationRecorder.recorder r
  | IsNumpyArrayAbstractStorageRecorder r
  | IsNumpyArrayLevelRecorder r
  | IsNumpyArrayAreaRecorder r => NumpyArrayAbstractStorageRecorder.recorder r
  | IsNumpyArrayStorageRecorder r =>
      NumpyArrayAbstractStorageRecorder.recorder (NumpyArrayStorageRecorder.super r)
  | IsStorageDurationCurveRecorder r =>
      NumpyArrayAbstractStorageRecorder.recorder (StorageDurationCurveRecorder.base r)
  | IsNumpyArrayParameterRecorder r =>
      ParameterRecorder.super (NumpyArrayParameterRecorder.super r)
  | IsNumpyArrayIndexParameterRecorder r =>
      IndexParameterRecorder.super (NumpyArrayIndexParameterRecorder.super r)
  | IsRollingWindowParameterRecorder r =>
      ParameterRecorder.super (RollingWindowParameterRecorder.super r)
  | IsRollingMeanFlowNodeRecorder r =>
      NodeRecorder.super (RollingMeanFlowNodeRecorder.super r)
  | IsBaseConstantNodeRecorder r
  | IsTotalDeficitNodeRecorder r
  | IsDeficitFrequencyNodeRecorder r =>
      NodeRecorder.super (BaseConstantNodeRecorder.super r)
  | IsTotalFlowNodeRecorder r =>
      NodeRecorder.super (BaseConstantNodeRecorder.super (TotalFlowNodeRecorder.super r))
  | IsMeanFlowNodeRecorder r =>
      NodeRecorder.super (BaseConstantNodeRecorder.super (MeanFlowNodeRecorder.super r))
  | IsBaseConstantStorageRecorder r
  | IsMinimumVolumeStorageRecorder r =>
      StorageRecorder.super (BaseConstantStorageRecorder.super r)
  | IsMinimumThresholdVolumeStorageRecorder r =>
      StorageRecorder.super
        (BaseConstantStorageRecorder.super (MinimumThresholdVolumeStorageRecorder.super r))
  | IsAnnualCountIndexParameterRecorder r =>
      IndexParameterRecorder.super (AnnualCountIndexParameterRecorder.super r)
  | IsBaseConstantParameterRecorder r =>
      ParameterRecorder.super (BaseConstantParameterRecorder.super r)
  | IsTotalParameterRecorder r =>
      ParameterRecorder.super
        (BaseConstantParameterRecorder.super (TotalParameterRecorder.super r))
  | IsMeanParameterRecorder r =>
      ParameterRecorder.super
        (BaseConstantParameterRecorder.super (MeanParameterRecorder.super r))
  end.

Fixpoint values (model : Model) (self : AnyRecorder) {struct self}
    : result (list float) :=
  match self with
  | IsRecorder r => RecorderImpl.values r
  | IsAggregatedRecorder r => AggregatedRecorder.values (values model) model r
  | IsNodeRecorder r => NodeRecorder.values r
  | IsStorageRecorder r => StorageRecorder.values r
  | IsParameterRecorder r => ParameterRecorder.values r
  | IsIndexParameterRecorder r => IndexParameterRecorder.values r
  | IsNumpyArrayNodeRecorder r => NumpyArrayNodeRecorder.values r
  | IsFlowDurationCurveRecorder r => FlowDurationCurveRecorder.values r
  | IsSeasonalFlowDurationCurveRecorder r => SeasonalFlowDurationCurveRecorder.values r
  | IsFlowDurationCurveDeviationRecorder r => FlowDurationCurveDeviationRecorder.values r
  | IsNumpyArrayAbstractStorageRecorder r => NumpyArrayAbstractStorageRecorder.values r
  | IsNumpyArrayStorageRecorder r => NumpyArrayStorageRecorder.values r
  | IsStorageDurationCurveRecorder r => StorageDurationCurveRecorder.values r
  | IsNumpyArrayLevelRecorder r => NumpyArrayLevelRecorder.values r
  | IsNumpyArrayAreaRecorder r => NumpyArrayAreaRecorder.values r
  | IsNumpyArrayParameterRecorder r => NumpyArrayParameterRecorder.values r
  | IsNumpyArrayIndexParameterRecorder r => NumpyArrayIndexParameterRecorder.values r
  | IsRollingWindowParameterRecorder r => RollingWindowParameterRecorder.values r
  | IsRollingMeanFlowNodeRecorder r => RollingMeanFlowNodeRecorder.values r
  | IsBaseConstantNodeRecorder r => BaseConstantNodeRecorder.values r
  | IsTotalDeficitNodeRecorder r => TotalDeficitNodeRecorder.values r
  | IsTotalFlowNodeRecorder r => TotalFlowNodeRecorder.values r
  | IsMeanFlowNodeRecorder r => MeanFlowNodeRecorder.values r
  | IsDeficitFrequencyNodeRecorder r => DeficitFrequencyNodeRecorder.values r
  | IsBaseConstantStorageRecorder r => BaseConstantStorageRecorder.values r
  | IsMinimumVolumeStorageRecorder r => MinimumVolumeStorageRecorder.values r
  | IsMinimumThresholdVolumeStorageRecorder r =>
      MinimumThresholdVolumeStorageRecorder.values r
  | IsAnnualCountIndexParameterRecorder r => AnnualCountIndexParameterRecorder.values r
  | IsBaseConstantParameterRecorder r => BaseConstantParameterRecorder.values r
  | IsTotalParameterRecorder r => TotalParameterRecorder.values r
  | IsMeanParameterRecorder r => MeanParameterRecorder.values r
  end.

Definition aggregated_value (model : Model) (self : AnyRecorder) : result float :=
  RecorderImpl.aggregated_value (values model) recorder_of self.

(** ** The simulation engine

    Modelled from the spec: the engine that drives the lifecycle is not part
    of the recorder module. It calls [setup()] once, [reset()] before each
    run, [after()] once per timestep in timestep order, and [finish()] once
    after the last timestep. During the [k]-th call of [after()] (counting
    from zero) the current timestep has index [k], the row of the buffers
    that the call fills. When [finish()] is called the timestepper has
    stepped through the whole run, and the index it reports is the elapsed
    timestep count. Before each [after()] the engine has brought the bound
    entity to its state for that timestep. *)

Record Tick (E : Type) : Type := {
  tick_year : Z;
  tick_month : Z;
  tick_days : Z;
  tick_entity : E
}.
Arguments tick_year {E} _.
Arguments tick_month {E} _.
Arguments tick_days {E} _.
Arguments tick_entity {E} _.

Definition timestep_of {E : Type} (k : nat) (tick : Tick E) : Timestep :=
  {| index := Z.of_nat k;
     year := tick_year tick;
     month := tick_month tick;
     days := tick_days tick |}.

(** The model as [finish()] sees it after [n] timesteps. *)
Definition end_of_run (model : Model) (n : nat) : Model :=
  set_current model
    {| index := Z.of_nat n;
       year := year (current model);
       month := month (current model);
       days := days (current model) |}.

Section engine.
Context {T E : Type}.
Variable with_entity : T -> E -> T.
Variable after : Model -> T -> result T.

Fixpoint step_from (model : Model) (k : nat) (ticks : list (Tick E)) (self : T)
    : result T :=
  match ticks with
  | [] => Ok self
  | tick :: ticks' =>
      self' <- after (set_current model (timestep_of k tick))
                 (with_entity self (tick_entity tick)) ;;
      step_from model (Datatypes.S k) ticks' self'
  end.

(** One run: [reset()], the timesteps, [finish()]. *)
Definition run (reset : T -> result T) (finish : Model -> T -> result T)
    (model : Model) (ticks : list (Tick E)) (self : T) : result T :=
  self <- reset self ;;
  self <- step_from model 0%nat ticks self ;;
  finish (end_of_run model (length ticks)) self.
End engine.

(** ** Predicates on specification-level floats, used in the proofs *)



(** ** Closed forms used in the statements *)

(** Entry [i] of the fold of the vectors [vs], entry by entry. *)
Definition fold_entry (update : float -> float -> float) (init : float)
    (vs : list (list float)) (i : nat) : float :=
  fold_left update (map (fun v => default nan (v !! i)) vs) init.

Definition elementwise (update : float -> float -> float) (init : float) (n : nat)
    (vs : list (list float)) : list float :=
  map (fold_entry update init vs) (seq 0 n).

(** The scenario combinations of a model are numbered in order: the
    [global_id] of a combination is its position in the list. *)
Definition wf_combinations (model : Model) : Prop :=
  forall (i : nat) (sc : ScenarioIndex),
    combinations model !! i = Some sc -> global_id sc = Z.of_nat i.

(** What scenario [i] of a [MeanFlowNodeRecorder] has accumulated over the
    timesteps [ticks]. *)
Definition mean_flow_total (factor : float) (ticks : list (Tick AbstractNode))
    (i : nat) : float :=
  fold_left
    (fun acc tick =>
       (acc + default nan (_flow (tick_entity tick) !! i) * factor)%float)
    ticks 0%float.

(** One timestep of a [DeficitFrequencyNodeRecorder] for scenario [i]. *)
Definition deficit_step (model : Model) (node : AbstractNode) (i : nat) (x : float)
    : float :=
  match combinations model !! i with
  | Some sc =>
      if (deficit_tolerance
          <? abs (default nan (_flow node !! i) - get_max_flow node sc))%float
      then (x + 1)%float else x
  | None => x
  end.

(** The number of timesteps of [ticks] at which scenario [i] of a
    [DeficitFrequencyNodeRecorder] saw a deficit. *)
Definition deficit_count (model : Model) (ticks : list (Tick AbstractNode))
    (i : nat) : float :=
  fold_left (fun acc tick => deficit_step model (tick_entity tick) i acc) ticks 0%float.

(** A run cut into calendar years: each block is a year and its timesteps;
    the year of a block differs from the year before it, is not the marker
    [-1] of "no year yet", and has at least one timestep. *)
Definition year_block : Type := (Z * list (Tick IndexParameter))%type.

Fixpoint years_change (previous : Z) (blocks : list year_block) : Prop :=
  match blocks with
  | [] => True
  | (y, ticks) :: blocks' =>
      y <> previous /\ y <> -1 /\ ticks <> [] /\ years_change y blocks'
  end.

Definition in_year (y : Z) (tick : Tick IndexParameter) : Tick IndexParameter :=
  {| tick_year := y;
     tick_month := tick_month tick;
     tick_days := tick_days tick;
     tick_entity := tick_entity tick |}.

Definition block_ticks (block : year_block) : list (Tick IndexParameter) :=
  map (in_year (fst block)) (snd block).

Definition calendar (blocks : list year_block) : list (Tick IndexParameter) :=
  concat (map block_ticks blocks).

(** The index of scenario [i] at a timestep, and the maximum that the
    recorder tracks for it over the timesteps of a year, starting from zero. *)
Definition index_at (model : Model) (i : nat) (param : IndexParameter) : Z :=
  match combinations model !! i with
  | Some sc => get_index param sc
  | None => 0
  end.

Definition year_max (model : Model) (i : nat) (ticks : list (Tick IndexParameter)) : Z :=
  fold_left (fun m tick => Z.max m (index_at model i (tick_entity tick))) ticks 0.

(** The number of years whose tracked maximum reaches the threshold. *)
Definition years_reaching (model : Model) (threshold : Z) (i : nat)
    (blocks : list year_block) : nat :=
  length (filter (fun block => threshold <= year_max model i (snd block)) blocks).

(** The counters of an annual count recorder, scenario by scenario. *)
Definition annual_state (model : Model) (self : AnnualCountIndexParameterRecorder.t)
    (count current_max : nat -> Z) (y : Z) : Prop :=
  AnnualCountIndexParameterRecorder._count self = map count (seq 0 (ncomb model))
  /\ AnnualCountIndexParameterRecorder._current_max self
     = map current_max (seq 0 (ncomb model))
  /\ AnnualCountIndexParameterRecorder._current_year self = y.

(** What the year in progress will add to the count when it is closed. *)
Definition pending_year (threshold y m : Z) : Z :=
  if y =? -1 then 0 else if threshold <=? m then 1 else 0.

(** ** Circular buffers *)

(** The timestep whose sample the slot [j] of a circular buffer of [w] slots
    holds once timestep [t] has been written: the latest timestep up to [t]
    that is congruent to [j]. *)
Definition slot_time (w t j : nat) : nat := (t - (t - j) mod w)%nat.

(** The number of slots that hold a sample at timestep [t]. *)
Definition window_length (w t : nat) : nat := Nat.min (t + 1) w.

(** The samples in the buffer at timestep [t], in slot order. *)
Definition window_at {A : Type} (d : A) (w t : nat) (samples : list A) : list A :=
  map (fun j => default d (samples !! slot_time w t j)) (seq 0 (window_length w t)).


(** A matrix of [r] rows of [c] entries each. *)
Definition well_shaped (m : ndarray2) (r c : nat) : Prop :=
  shape1 m = c /\ length (rows m) = r /\ Forall (fun row => length row = c) (rows m).

(** An aggregator that reduces the columns of every non-empty matrix to one
    entry per column. The built-in reductions do; a custom callable has to. *)
Definition aggregates_columns (agg : Aggregator) : Prop :=
  forall (m : ndarray2) (r c : nat),
    (0 < r)%nat -> well_shaped m r c ->
    exists v, AggregatorImpl.aggregate_2d agg m 0 false = Ok v /\ length v = c.

(** ** Invariants of the rolling-window recorders *)

(** The sample of a timestep: the value of the parameter in each scenario. *)
Definition parameter_sample (model : Model) (tick : Tick PywrParameter) : list float :=
  map (get_value (tick_entity tick)) (combinations model).

(** A [RollingWindowParameterRecorder] of window [w] after the first [t]
    timesteps of a run whose samples are [samples]. *)
Definition rolling_window_invariant (model : Model) (agg : Aggregator) (w : nat)
    (samples : list (list float)) (t : nat) (self : RollingWindowParameterRecorder.t)
    : Prop :=
  RollingWindowParameterRecorder.window self = Z.of_nat w
  /\ RollingWindowParameterRecorder._temporal_aggregator self = agg
  /\ RollingWindowParameterRecorder.position self = Z.of_nat (t mod w)
  /\ well_shaped (RollingWindowParameterRecorder._memory self)
       (n_timesteps model) (ncomb model)
  /\ well_shaped (RollingWindowParameterRecorder._data self)
       (n_timesteps model) (ncomb model)
  /\ (forall j, (1 <= t)%nat -> (j < window_length w (t - 1))%nat ->
        rows (RollingWindowParameterRecorder._memory self) !! j
        = Some (default [] (samples !! slot_time w (t - 1) j)))
  /\ (forall s, (s < t)%nat ->
        exists v,
          rows (RollingWindowParameterRecorder._data self) !! s = Some v
          /\ AggregatorImpl.aggregate_2d agg
               (mk_ndarray2 (ncomb model) (window_at [] w s samples)) 0 false = Ok v)
  /\ (forall s, (t <= s < n_timesteps model)%nat ->
        rows (RollingWindowParameterRecorder._data self) !! s
        = Some (replicate (ncomb model) 0%float)).

(** A recorder that has been set up, in any state that a run leaves. *)
Definition rolling_window_prepared (model : Model) (agg : Aggregator) (w : nat)
    (self : RollingWindowParameterRecorder.t) : Prop :=
  RollingWindowParameterRecorder.window self = Z.of_nat w
  /\ RollingWindowParameterRecorder._temporal_aggregator self = agg
  /\ well_shaped (RollingWindowParameterRecorder._memory self)
       (n_timesteps model) (ncomb model)
  /\ well_shaped (RollingWindowParameterRecorder._data self)
       (n_timesteps model) (ncomb model).


(** ** The deviation from target duration curves *)


(** The cell [m[k, i]], when it exists. *)
Definition mcell (m : ndarray2) (k i : nat) : option float :=
  match rows m !! k with
  | Some row => row !! i
  | None => None
  end.

(** The deviation of one cell in closed form: not a number when a target is
    zero, else the larger of the two relative deviations and zero. *)
Definition deviation (actual lower upper : float) : float :=
  if (upper =? 0)%float || (lower =? 0)%float then nan
  else py_max3 ((actual - upper) / upper) ((lower - actual) / lower) 0%float.

(** The column of a target that the recorder reads for a scenario
    combination: the only one when the target is broadcast, else the one of
    the scenario (its index in [scenario] when one is given, its global
    identifier otherwise). *)
Definition chosen_column (scenario : option Scenario.t) (target : ndarray2)
    (sc : ScenarioIndex) : option nat :=
  match (j <- match scenario with
              | Some s => vget (_indices sc) (Scenario.scenario_index s)
              | None => Ok (global_id sc)
              end ;;
         py_index (if Nat.eqb (shape1 target) 1 then 0 else j) (shape1 target)) with
  | Ok n => Some n
  | Raise _ => None
  end.

(** The deviation of the cell of percentile [k] in combination [i] of the
    curves [fdc], the targets read in the columns [jl] and [ju]. *)
Definition cell_deviation (fdc lower upper : ndarray2) (jl ju k i : nat) : float :=
  deviation (default nan (mcell fdc k i)) (default nan (mcell lower k jl))
    (default nan (mcell upper k ju)).

(** The matrix of deviations has its shape and its columns before [c] hold
    the deviations of their combinations. *)
Definition filled_to (scenario : option Scenario.t) (fdc lower upper : ndarray2)
    (nperc : nat) (combos : list ScenarioIndex) (c : nat) (deviations : ndarray2) : Prop :=
  well_shaped deviations nperc (length combos) /\
  forall i sc jl ju k, (i < c)%nat -> (k < nperc)%nat ->
    combos !! i = Some sc ->
    chosen_column scenario lower sc = Some jl ->
    chosen_column scenario upper sc = Some ju ->
    mcell deviations k i = Some (cell_deviation fdc lower upper jl ju k i).

(** ** Example objects *)

Definition example_recorder (agg : AggFuncs) (ignore : bool) : Recorder :=
  {| _is_objective := NONE; is_constraint := false; epsilon := 1%float;
     ignore_nan := ignore;
     _scenario_aggregator := {| _user_func := None; _func := agg |} |}.

Definition idle_node : AbstractNode :=
  {| _flow := [0; 0]%float; get_max_flow := fun _ => 0%float |}.

(** A recorder whose [values()] is the given vector. *)
Definition constant_recorder (ignore : bool) (v : list float) : AnyRecorder :=
  IsBaseConstantNodeRecorder
    {| BaseConstantNodeRecorder.super :=
         {| NodeRecorder.super := example_recorder MEAN ignore;
            NodeRecorder._node := idle_node |};
       BaseConstantNodeRecorder._values := v |}.

Definition nan_recorder_example : AnyRecorder := constant_recorder true [1; nan]%float.

Definition two_scenarios : Model :=
  {| combinations := [ {| global_id := 0; _indices := [0] |};
                       {| global_id := 1; _indices := [1] |} ];
     n_timesteps := 3;
     delta_days := 1;
     current := {| index := 0; year := 2000; month := 1; days := 1 |} |}.

Definition example_children : list AnyRecorder :=
  [constant_recorder false [1; 2]%float; constant_recorder false [3; 4]%float].

Definition example_aggregated (f : AggFuncs) : AggregatedRecorder.t AnyRecorder :=
  {| AggregatedRecorder.super := example_recorder MEAN false;
     AggregatedRecorder.recorder_agg_func := None;
     AggregatedRecorder._recorder_agg_func := f;
     AggregatedRecorder.recorders := example_children |}.

Definition node_tick (flow : list float) (max_flow : float) : Tick AbstractNode :=
  {| tick_year := 2000; tick_month := 1; tick_days := 1;
     tick_entity := {| _flow := flow; get_max_flow := fun _ => max_flow |} |}.

Definition example_node_ticks : list (Tick AbstractNode) :=
  [node_tick [1; 5]%float 5%float; node_tick [3; 5]%float 5%float].

Definition example_constant_node_recorder : BaseConstantNodeRecorder.t :=
  {| BaseConstantNodeRecorder.super :=
       {| NodeRecorder.super := example_recorder MEAN false;
          NodeRecorder._node := idle_node |};
     BaseConstantNodeRecorder._values := [] |}.

Definition example_mean_flow_recorder : MeanFlowNodeRecorder.t :=
  {| MeanFlowNodeRecorder.super := example_constant_node_recorder;
     MeanFlowNodeRecorder.factor := 1%float |}.

Definition one_scenario : Model :=
  {| combinations := [ {| global_id := 0; _indices := [0] |} ];
     n_timesteps := 5;
     delta_days := 1;
     current := {| index := 0; year := 2000; month := 1; days := 1 |} |}.

Definition index_tick (i : Z) : Tick IndexParameter :=
  {| tick_year := 0; tick_month := 1; tick_days := 1;
     tick_entity := {| get_index := fun _ => i; get_all_indices := [i] |} |}.

(** Three years whose maxima are 1, 3 and 2. *)
Definition example_years : list year_block :=
  [ (2000, [index_tick 0; index_tick 1]);
    (2001, [index_tick 3; index_tick 1]);
    (2002, [index_tick 2]) ].

Definition example_annual_count (threshold : Z) : AnnualCountIndexParameterRecorder.t :=
  {| AnnualCountIndexParameterRecorder.super :=
       {| IndexParameterRecorder.super := example_recorder MEAN false;
          IndexParameterRecorder._param :=
            {| get_index := fun _ => 0; get_all_indices := [0] |} |};
     AnnualCountIndexParameterRecorder.threshold := threshold;
     AnnualCountIndexParameterRecorder._count := [];
     AnnualCountIndexParameterRecorder._current_year := 0;
     AnnualCountIndexParameterRecorder._current_max := [] |}.

Definition single_scenario (nts : nat) : Model :=
  {| combinations := [ {| global_id := 0; _indices := [0] |} ];
     n_timesteps := nts;
     delta_days := 1;
     current := {| index := 0; year := 2000; month := 1; days := 1 |} |}.

Definition parameter_tick (x : float) : Tick PywrParameter :=
  {| tick_year := 2000; tick_month := 1; tick_days := 1;
     tick_entity := {| get_value := fun _ => x; get_all_values := [x] |} |}.

Definition flow_tick (x : float) : Tick AbstractNode :=
  {| tick_year := 2000; tick_month := 1; tick_days := 1;
     tick_entity := {| _flow := [x]; get_max_flow := fun _ => x |} |}.

(** A rolling window of size [window] with the mean aggregator. *)
Definition example_rolling_window (window : Z) : RollingWindowParameterRecorder.t :=
  {| RollingWindowParameterRecorder.super :=
       {| ParameterRecorder.super := example_recorder MEAN false;
          ParameterRecorder._param :=
            {| get_value := fun _ => 0%float; get_all_values := [0%float] |} |};
     RollingWindowParameterRecorder._temporal_aggregator :=
       {| _user_func := None; _func := MEAN |};
     RollingWindowParameterRecorder.window := window;
     RollingWindowParameterRecorder.position := 0;
     RollingWindowParameterRecorder._memory := mk_ndarray2 0 [];
     RollingWindowParameterRecorder._data := mk_ndarray2 0 [] |}.

Definition example_rolling_mean (timesteps : Z) : RollingMeanFlowNodeRecorder.t :=
  {| RollingMeanFlowNodeRecorder.super :=
       {| NodeRecorder.super := example_recorder MEAN false;
          NodeRecorder._node := idle_node |};
     RollingMeanFlowNodeRecorder.position := 0;
     RollingMeanFlowNodeRecorder.timesteps := timesteps;
     RollingMeanFlowNodeRecorder.days := 0;
     RollingMeanFlowNodeRecorder._memory := mk_ndarray2 0 [];
     RollingMeanFlowNodeRecorder._data := mk_ndarray2 0 [] |}.

Definition one_to_five : list float := [1; 2; 3; 4; 5]%float.

Definition no_junk : nat -> nat -> float := fun _ _ => 0%float.


(** Four scenario combinations without a named scenario. *)
Definition four_scenarios : Model :=
  {| combinations := [ {| global_id := 0; _indices := [0] |};
                       {| global_id := 1; _indices := [1] |};
                       {| global_id := 2; _indices := [2] |};
                       {| global_id := 3; _indices := [3] |} ];
     n_timesteps := 1;
     delta_days := 1;
     current := {| index := 0; year := 2000; month := 1; days := 1 |} |}.

(** A deviation recorder for one percentile: the lower target 8 is shared by
    all combinations, the upper target is 12 but for the last combination,
    where it is zero. *)
Definition example_deviation_recorder : FlowDurationCurveDeviationRecorder.t :=
  {| FlowDurationCurveDeviationRecorder.super :=
       {| FlowDurationCurveRecorder.super :=
            {| NumpyArrayNodeRecorder.super :=
                 {| NodeRecorder.super := example_recorder SUM false;
                    NodeRecorder._node := idle_node |};
               NumpyArrayNodeRecorder._temporal_aggregator :=
                 {| _user_func := None; _func := SUM |};
               NumpyArrayNodeRecorder._data := mk_ndarray2 4 [[10; 15; 5; 10]]%float |};
          FlowDurationCurveRecorder._percentiles := [50]%float;
          FlowDurationCurveRecorder._fdc := mk_ndarray2 0 [] |};
     FlowDurationCurveDeviationRecorder._lower_target_fdc := mk_ndarray2 1 [[8]]%float;
     FlowDurationCurveDeviationRecorder._upper_target_fdc :=
       mk_ndarray2 4 [[12; 12; 12; 0]]%float;
     FlowDurationCurveDeviationRecorder._fdc_deviations := mk_ndarray2 0 [];
     FlowDurationCurveDeviationRecorder.scenario := None |}.

(** The percentiles of a single row of data are that row. *)
Definition single_row_percentile : percentile_fn :=
  fun data _ => Ok data.


(** * Further definitions

    Methods of the module that the development above did not need, and the
    functions that state what the recorders hold after a run. *)

(** ** The [is_objective] property of [Recorder] *)

Module IsObjective.

(** The setter: [None] clears the direction, a string is looked up as it is
    written. *)
Definition set (value : option string) (self : Recorder) : result Recorder :=
  direction <- match value with
               | None => Ok NONE
               | Some value => _obj_direction_lookup value
               end ;;
  Ok {| _is_objective := direction;
        is_constraint := is_constraint self;
        epsilon := epsilon self;
        ignore_nan := ignore_nan self;
        _scenario_aggregator := _scenario_aggregator self |}.

(** The getter. Its last branch, for a code that is none of the three,
    cannot be reached with the enumeration. *)
Definition get (self : Recorder) : option string :=
  match _is_objective self with
  | NONE => None
  | MAXIMISE => Some "maximise"%string
  | MINIMISE => Some "minimise"%string
  end.

End IsObjective.

(** ** Recorders whose [values()] reduce a buffer over time *)

(** The classes whose [values()] is
    [self._temporal_aggregator.aggregate_2d(buffer, axis=0,
    ignore_nan=self.ignore_nan)], their own or an inherited one. *)
Definition reduces_over_time (self : AnyRecorder) : bool :=
  match self with
  | IsNumpyArrayNodeRecorder _
  | IsFlowDurationCurveRecorder _
  | IsSeasonalFlowDurationCurveRecorder _
  | IsFlowDurationCurveDeviationRecorder _
  | IsNumpyArrayAbstractStorageRecorder _
  | IsNumpyArrayStorageRecorder _
  | IsStorageDurationCurveRecorder _
  | IsNumpyArrayLevelRecorder _
  | IsNumpyArrayAreaRecorder _
  | IsNumpyArrayParameterRecorder _ => true
  | _ => false
  end.

(** ** Example objects *)

(** Two children with NaN entries: the second scenario has nothing else. *)
Definition nan_children : list AnyRecorder :=
  [constant_recorder false [1; nan]%float; constant_recorder false [nan; nan]%float].

Definition example_extremum (f : AggFuncs) : AggregatedRecorder.t AnyRecorder :=
  {| AggregatedRecorder.super := example_recorder MEAN false;
     AggregatedRecorder.recorder_agg_func := None;
     AggregatedRecorder._recorder_agg_func := f;
     AggregatedRecorder.recorders := nan_children |}.

(** A time-series recorder of a node, with a buffer of one row. *)
Definition example_array_recorder (ignore : bool) : NumpyArrayNodeRecorder.t :=
  {| NumpyArrayNodeRecorder.super :=
       {| NodeRecorder.super := example_recorder MEAN ignore;
          NodeRecorder._node := idle_node |};
     NumpyArrayNodeRecorder._temporal_aggregator :=
       {| _user_func := None; _func := MEAN |};
     NumpyArrayNodeRecorder._data := mk_ndarray2 2 [[1; 2]]%float |}.

(** ** What the recorders hold after a run *)

(** The rows of a time-series buffer of [nts] rows and [c] columns after a
    run over [samples]: one row per timestep, zeros below. *)
Definition recorded_rows (samples : list (list float)) (nts c : nat) : list (list float) :=
  samples ++ replicate (nts - length samples) (replicate c 0%float).

(** The flows of a node over the timesteps of a run. *)
Definition flows_of (ticks : list (Tick AbstractNode)) : list (list float) :=
  map (fun tick => _flow (tick_entity tick)) ticks.

(** The classes without a [finish] of their own inherit one that does
    nothing. *)
Definition no_finish {T : Type} (model : Model) (self : T) : result T := Ok self.

(** ** Inherited methods, written for the record of the class

    A class that defines no [setup] or [reset] runs the one of its base
    class on its own object. [with_node] and [with_param] put the bound
    entity in its state at a timestep. *)

Module TotalFlowLifecycle.
Definition with_super (self : TotalFlowNodeRecorder.t) (s : BaseConstantNodeRecorder.t)
    : TotalFlowNodeRecorder.t :=
  {| TotalFlowNodeRecorder.super := s;
     TotalFlowNodeRecorder.factor := TotalFlowNodeRecorder.factor self |}.

Definition with_node (self : TotalFlowNodeRecorder.t) (node : AbstractNode)
    : TotalFlowNodeRecorder.t :=
  with_super self (BaseConstantNodeRecorder.with_node (TotalFlowNodeRecorder.super self) node).

Definition setup (model : Model) (self : TotalFlowNodeRecorder.t)
    : result TotalFlowNodeRecorder.t :=
  s <- BaseConstantNodeRecorder.setup model (TotalFlowNodeRecorder.super self) ;;
  Ok (with_super self s).

Definition reset (self : TotalFlowNodeRecorder.t) : result TotalFlowNodeRecorder.t :=
  s <- BaseConstantNodeRecorder.reset (TotalFlowNodeRecorder.super self) ;;
  Ok (with_super self s).
End TotalFlowLifecycle.

Module StorageLifecycle.
Definition with_node (self : BaseConstantStorageRecorder.t) (node : AbstractStorage)
    : BaseConstantStorageRecorder.t :=
  {| BaseConstantStorageRecorder.super :=
       {| StorageRecorder.super :=
            StorageRecorder.super (BaseConstantStorageRecorder.super self);
          StorageRecorder._node := node |};
     BaseConstantStorageRecorder._values := BaseConstantStorageRecorder._values self |}.
End StorageLifecycle.

Module ThresholdLifecycle.
Definition with_super (self : MinimumThresholdVolumeStorageRecorder.t)
    (s : BaseConstantStorageRecorder.t) : MinimumThresholdVolumeStorageRecorder.t :=
  {| MinimumThresholdVolumeStorageRecorder.super := s;
     MinimumThresholdVolumeStorageRecorder.threshold :=
       MinimumThresholdVolumeStorageRecorder.threshold self |}.

Definition with_node (self : MinimumThresholdVolumeStorageRecorder.t)
    (node : AbstractStorage) : MinimumThresholdVolumeStorageRecorder.t :=
  with_super self
    (StorageLifecycle.with_node (MinimumThresholdVolumeStorageRecorder.super self) node).

Definition setup (model : Model) (self : MinimumThresholdVolumeStorageRecorder.t)
    : result MinimumThresholdVolumeStorageRecorder.t :=
  s <- BaseConstantStorageRecorder.setup model
         (MinimumThresholdVolumeStorageRecorder.super self) ;;
  Ok (with_super self s).

(** The class writes its own [reset], with the text of the inherited one. *)
Definition reset (self : MinimumThresholdVolumeStorageRecorder.t)
    : result MinimumThresholdVolumeStorageRecorder.t :=
  s <- BaseConstantStorageRecorder.reset
         (MinimumThresholdVolumeStorageRecorder.super self) ;;
  Ok (with_super self s).
End ThresholdLifecycle.

Module ParameterLifecycle.
Definition with_param (self : BaseConstantParameterRecorder.t) (param : PywrParameter)
    : BaseConstantParameterRecorder.t :=
  {| BaseConstantParameterRecorder.super :=
       ParameterRecorder.with_param (BaseConstantParameterRecorder.super self) param;
     BaseConstantParameterRecorder._values := BaseConstantParameterRecorder._values self |}.
End ParameterLifecycle.

Module TotalParameterLifecycle.
Definition with_super (self : TotalParameterRecorder.t)
    (s : BaseConstantParameterRecorder.t) : TotalParameterRecorder.t :=
  {| TotalParameterRecorder.super := s;
     TotalParameterRecorder.factor := TotalParameterRecorder.factor self;
     TotalParameterRecorder.integrate := TotalParameterRecorder.integrate self |}.

Definition with_param (self : TotalParameterRecorder.t) (param : PywrParameter)
    : TotalParameterRecorder.t :=
  with_super self (ParameterLifecycle.with_param (TotalParameterRecorder.super self) param).

Definition setup (model : Model) (self : TotalParameterRecorder.t)
    : result TotalParameterRecorder.t :=
  s <- BaseConstantParameterRecorder.setup model (TotalParameterRecorder.super self) ;;
  Ok (with_super self s).

Definition reset (self : TotalParameterRecorder.t) : result TotalParameterRecorder.t :=
  s <- BaseConstantParameterRecorder.reset (TotalParameterRecorder.super self) ;;
  Ok (with_super self s).
End TotalParameterLifecycle.

Module MeanParameterLifecycle.
Definition with_super (self : MeanParameterRecorder.t)
    (s : BaseConstantParameterRecorder.t) : MeanParameterRecorder.t :=
  {| MeanParameterRecorder.super := s;
     MeanParameterRecorder.factor := MeanParameterRecorder.factor self |}.

Definition with_param (self : MeanParameterRecorder.t) (param : PywrParameter)
    : MeanParameterRecorder.t :=
  with_super self (ParameterLifecycle.with_param (MeanParameterRecorder.super self) param).

Definition setup (model : Model) (self : MeanParameterRecorder.t)
    : result MeanParameterRecorder.t :=
  s <- BaseConstantParameterRecorder.setup model (MeanParameterRecorder.super self) ;;
  Ok (with_super self s).

Definition reset (self : MeanParameterRecorder.t) : result MeanParameterRecorder.t :=
  s <- BaseConstantParameterRecorder.reset (MeanParameterRecorder.super self) ;;
  Ok (with_super self s).
End MeanParameterLifecycle.

(** ** One timestep of an accumulating recorder, for scenario [i] *)

Definition total_flow_step (factor : float) (tick : Tick AbstractNode) (i : nat)
    (x : float) : float :=
  (x + default nan (_flow (tick_entity tick) !! i) * factor
       * float_of_Z (tick_days tick))%float.

Definition total_deficit_step (model : Model) (tick : Tick AbstractNode) (i : nat)
    (x : float) : float :=
  match combinations model !! i with
  | Some sc =>
      (x + (get_max_flow (tick_entity tick) sc
            - default nan (_flow (tick_entity tick) !! i))
           * float_of_Z (tick_days tick))%float
  | None => x
  end.

Definition parameter_step (factor : float) (tick : Tick PywrParameter) (i : nat)
    (x : float) : float :=
  (x + default nan (get_all_values (tick_entity tick) !! i) * factor)%float.

(** The volume of scenario [i] at a timestep. *)
Definition volume_at (i : nat) (tick : Tick AbstractStorage) : float :=
  default nan (_volume (tick_entity tick) !! i).

(** The fold of [step] over the timesteps, scenario by scenario. *)
Definition accumulated {E : Type} (step : Tick E -> nat -> float -> float)
    (init : float) (ticks : list (Tick E)) (n : nat) : list float :=
  map (fun i => fold_left (fun acc tick => step tick i acc) ticks init) (seq 0 n).

Definition example_total_flow : TotalFlowNodeRecorder.t :=
  {| TotalFlowNodeRecorder.super := example_constant_node_recorder;
     TotalFlowNodeRecorder.factor := 1%float |}.

(** The minimum that scenario [i] of a [MinimumVolumeStorageRecorder] holds
    after the timesteps [ticks]. *)
Definition minimum_volume (i : nat) (ticks : list (Tick AbstractStorage)) : float :=
  fold_left (fun acc tick => np_minimum (volume_at i tick) acc) ticks infinity.

(** Whether the volume of scenario [i] was at or below [threshold] at one of
    the timesteps. *)
Definition reached_threshold (threshold : float) (i : nat)
    (ticks : list (Tick AbstractStorage)) : bool :=
  existsb (fun tick => (volume_at i tick <=? threshold)%float) ticks.

Definition storage_tick (volume : list float) : Tick AbstractStorage :=
  {| tick_year := 2000; tick_month := 1; tick_days := 1;
     tick_entity := {| _volume := volume; _current_pc := volume;
                       get_level := fun _ => 0%float; get_area := fun _ => 0%float |} |}.

Definition example_storage_ticks : list (Tick AbstractStorage) :=
  [storage_tick [5; 9]%float; storage_tick [3; 8]%float; storage_tick [4; 7]%float].

Definition example_storage_recorder : BaseConstantStorageRecorder.t :=
  {| BaseConstantStorageRecorder.super :=
       {| StorageRecorder.super := example_recorder MEAN false;
          StorageRecorder._node := tick_entity (storage_tick [0; 0]%float) |};
     BaseConstantStorageRecorder._values := [] |}.

Definition example_threshold_recorder (threshold : float)
    : MinimumThresholdVolumeStorageRecorder.t :=
  {| MinimumThresholdVolumeStorageRecorder.super := example_storage_recorder;
     MinimumThresholdVolumeStorageRecorder.threshold := threshold |}.

Definition example_parameter_recorder : BaseConstantParameterRecorder.t :=
  {| BaseConstantParameterRecorder.super :=
       {| ParameterRecorder.super := example_recorder MEAN false;
          ParameterRecorder._param :=
            {| get_value := fun _ => 0%float; get_all_values := [0%float] |} |};
     BaseConstantParameterRecorder._values := [] |}.

(** A rolling mean whose window is given in days. *)
Definition example_rolling_days (days : Z) : RollingMeanFlowNodeRecorder.t :=
  {| RollingMeanFlowNodeRecorder.super :=
       {| NodeRecorder.super := example_recorder MEAN false;
          NodeRecorder._node := idle_node |};
     RollingMeanFlowNodeRecorder.position := 0;
     RollingMeanFlowNodeRecorder.timesteps := 0;
     RollingMeanFlowNodeRecorder.days := days;
     RollingMeanFlowNodeRecorder._memory := mk_ndarray2 0 [];
     RollingMeanFlowNodeRecorder._data := mk_ndarray2 0 [] |}.

(** ** The targets of a deviation recorder *)

(** What [finish()] needs of the model to find the column of a scenario
    combination: without a scenario, combinations numbered in order; with
    one, a sub-index of that scenario within its size in each combination. *)
Definition scenario_columns (model : Model) (scenario : option Scenario.t) : Prop :=
  match scenario with
  | None => wf_combinations model
  | Some s =>
      forall sc, sc ∈ combinations model ->
        exists j, vget (_indices sc) (Scenario.scenario_index s) = Ok j
                  /\ 0 <= j < Scenario.size s
  end.

(** A time series of a storage node, with a buffer of one row. *)
Definition example_storage_series (proportional : bool) : NumpyArrayStorageRecorder.t :=
  {| NumpyArrayStorageRecorder.super :=
       {| NumpyArrayAbstractStorageRecorder.super :=
            {| StorageRecorder.super := example_recorder MEAN false;
               StorageRecorder._node :=
                 {| _volume := [5; 9]%float; _current_pc := [0.5; 0.75]%float;
                    get_level := fun _ => 0%float; get_area := fun _ => 0%float |} |};
          NumpyArrayAbstractStorageRecorder._temporal_aggregator :=
            {| _user_func := None; _func := MEAN |};
          NumpyArrayAbstractStorageRecorder._data := mk_ndarray2 2 [[0; 0]]%float |};
     NumpyArrayStorageRecorder.proportional := proportional |}.

(** * Properties *)

(** ** Fallible computations, indexing and loops *)

Lemma bind_ok {A B : Type} (c : result A) (k : A -> result B) (a : A) :
  c = Ok a -> bind c k = k a.
Proof. intros ->. reflexivity. Qed.

Lemma bind_inv {A B : Type} (c : result A) (k : A -> result B) (b : B) :
  bind c k = Ok b -> exists a, c = Ok a /\ k a = Ok b.
Proof. destruct c as [a|e]; simpl; [eauto | discriminate]. Qed.

Lemma py_index_nat (i len : nat) :
  (i < len)%nat -> py_index (Z.of_nat i) len = Ok i.
Proof.
  intros Hi. unfold py_index.
  replace (0 <=? Z.of_nat i) with true by (symmetry; apply Z.leb_le; lia).
  replace (Z.of_nat i <? Z.of_nat len) with true by (symmetry; apply Z.ltb_lt; lia).
  simpl. now rewrite Nat2Z.id.
Qed.

Lemma py_index_nat_out (i len : nat) :
  (len <= i)%nat -> py_index (Z.of_nat i) len = Raise IndexError.
Proof.
  intros Hi. unfold py_index.
  replace (Z.of_nat i <? Z.of_nat len) with false by (symmetry; apply Z.ltb_ge; lia).
  replace (Z.of_nat i <? 0) with false by (symmetry; apply Z.ltb_ge; lia).
  now rewrite andb_false_r.
Qed.

Lemma vget_nat {A : Type} (v : list A) (i : nat) (x : A) :
  v !! i = Some x -> vget v (Z.of_nat i) = Ok x.
Proof.
  intros Hx. unfold vget.
  rewrite py_index_nat by (eapply lookup_lt_Some; eassumption).
  simpl. now rewrite Hx.
Qed.

Lemma vget_nat_inv {A : Type} (v : list A) (i : nat) (x : A) :
  vget v (Z.of_nat i) = Ok x -> v !! i = Some x.
Proof.
  unfold vget. destruct (Nat.lt_ge_cases i (length v)) as [Hi|Hi].
  - rewrite py_index_nat by assumption. simpl.
    destruct (v !! i); [congruence | discriminate].
  - rewrite py_index_nat_out by assumption. discriminate.
Qed.

Lemma vset_nat {A : Type} (v : list A) (i : nat) (x : A) :
  (i < length v)%nat -> vset v (Z.of_nat i) x = Ok (<[i := x]> v).
Proof. intros Hi. unfold vset. now rewrite py_index_nat. Qed.

Lemma for_loop_snoc {S : Type} (body : nat -> S -> result S) (start count : nat) (s : S) :
  for_loop body start (Datatypes.S count) s
  = (s' <- for_loop body start count s ;; body (start + count)%nat s').
Proof.
  revert start s. induction count as [|count IH]; intros start s.
  - simpl. rewrite Nat.add_0_r. now destruct (body start s).
  - cbn [for_loop]. destruct (body start s) as [s1|e]; simpl; [|reflexivity].
    specialize (IH (Datatypes.S start) s1). cbn [for_loop] in IH. rewrite IH.
    now replace (Datatypes.S start + count)%nat with (start + Datatypes.S count)%nat by lia.
Qed.

Lemma for_loop_ext {S : Type} (body body' : nat -> S -> result S) (start count : nat) (s : S) :
  (forall i s, (start <= i < start + count)%nat -> body i s = body' i s) ->
  for_loop body start count s = for_loop body' start count s.
Proof.
  revert start s. induction count as [|count IH]; intros start s Hext; [reflexivity|].
  cbn [for_loop]. rewrite Hext by lia.
  destruct (body' start s) as [s'|e]; simpl; [|reflexivity].
  apply IH. intros i s0 Hi. apply Hext. lia.
Qed.

Lemma for_each_as_loop {X S : Type} (body : X -> S -> result S) (xs : list X) (k : nat) (s : S) :
  for_each body xs s
  = for_loop (fun i s => match xs !! (i - k)%nat with Some x => body x s | None => Ok s end)
      k (length xs) s.
Proof.
  revert k s. induction xs as [|x xs IH]; intros k s; [reflexivity|].
  cbn [for_each length for_loop]. rewrite Nat.sub_diag. cbn [lookup list_lookup].
  destruct (body x s) as [s'|e]; simpl; [|reflexivity].
  rewrite (IH (Datatypes.S k) s'). apply for_loop_ext.
  intros i s0 Hi. replace (i - k)%nat with (Datatypes.S (i - Datatypes.S k)) by lia.
  reflexivity.
Qed.

Lemma for_enumerate_as_loop {X S : Type} (body : nat -> X -> S -> result S) (xs : list X) (s : S) :
  for_enumerate body xs s
  = for_range (length xs)
      (fun i s => match xs !! i with Some x => body i x s | None => Ok s end) s.
Proof.
  unfold for_enumerate, for_range.
  enough (H : forall k s,
             for_enumerate_from body k xs s
             = for_loop (fun i s => match xs !! (i - k)%nat with
                                    | Some x => body i x s | None => Ok s end)
                 k (length xs) s).
  { rewrite H. apply for_loop_ext. intros i s0 _. now rewrite Nat.sub_0_r. }
  induction xs as [|x xs IH]; intros k s0; [reflexivity|].
  cbn [for_enumerate_from length for_loop]. rewrite Nat.sub_diag. cbn [lookup list_lookup].
  destruct (body k x s0) as [s'|e]; simpl; [|reflexivity].
  rewrite (IH (Datatypes.S k) s'). apply for_loop_ext.
  intros i s1 Hi. replace (i - k)%nat with (Datatypes.S (i - Datatypes.S k)) by lia.
  reflexivity.
Qed.

(** A loop over the indices of a vector that rewrites the entry of its own
    index. *)
Lemma for_range_vector {A : Type} (body : nat -> list A -> result (list A))
    (g : nat -> A -> A) (n : nat) (v : list A) :
  (n <= length v)%nat ->
  (forall i w x, (i < n)%nat -> length w = length v -> v !! i = Some x -> w !! i = Some x ->
                 body i w = Ok (<[i := g i x]> w)) ->
  for_range n body v = Ok (imap g (take n v) ++ drop n v).
Proof.
  unfold for_range. intros Hn Hbody. induction n as [|n IH].
  - simpl. now rewrite drop_0.
  - rewrite for_loop_snoc. rewrite IH; [| lia | intros; apply Hbody; auto; lia]. simpl.
    destruct (lookup_lt_is_Some_2 v n ltac:(lia)) as [x Hx].
    assert (Hlen : length (imap g (take n v)) = n).
    { rewrite length_imap, length_take. lia. }
    rewrite (Hbody n _ x); try lia; try assumption.
    + f_equal. rewrite (take_S_r v n x Hx), imap_app, <- app_assoc.
      rewrite length_take, Nat.min_l by lia. simpl. rewrite Nat.add_0_r.
      rewrite (drop_S v x n Hx).
      replace n with (length (imap g (take n v)) + 0)%nat at 1 by lia.
      now rewrite insert_app_r.
    + rewrite length_app, Hlen, length_drop. lia.
    + rewrite lookup_app_r by lia. rewrite Hlen, Nat.sub_diag, lookup_drop.
      now rewrite Nat.add_0_r.
Qed.

Lemma for_range_vector_full {A : Type} (body : nat -> list A -> result (list A))
    (g : nat -> A -> A) (v : list A) :
  (forall i w x, length w = length v -> v !! i = Some x -> w !! i = Some x ->
                 body i w = Ok (<[i := g i x]> w)) ->
  for_range (length v) body v = Ok (imap g v).
Proof.
  intros Hbody. rewrite (for_range_vector body g) by (intros; eauto).
  now rewrite take_ge, drop_ge, app_nil_r by lia.
Qed.

(** ** Facts of binary64 arithmetic

    Derived from the specification of the primitive operations. *)

Lemma SFcompare_refl (s : spec_float) :
  s <> S754_nan -> SFcompare s s = Some Eq.
Proof.
  destruct s as [b| b | |b m e]; intros H; try congruence; simpl.
  - reflexivity.
  - now destruct b.
  - rewrite Z.compare_refl, Pos.compare_cont_refl. now destruct b.
Qed.

Lemma is_nan_Prim2SF (x : float) : is_nan x = true -> Prim2SF x = S754_nan.
Proof.
  unfold is_nan. rewrite FloatAxioms.eqb_spec. unfold SFeqb. intros H.
  destruct (Prim2SF x) eqn:E; try reflexivity;
    rewrite SFcompare_refl in H by congruence; discriminate.
Qed.

Lemma is_nan_eq (x : float) : is_nan x = true -> x = nan.
Proof.
  intros H. apply Prim2SF_inj. rewrite (is_nan_Prim2SF x H). reflexivity.
Qed.

Lemma add_nan_l (y : float) : (nan + y)%float = nan.
Proof. apply Prim2SF_inj. rewrite FloatAxioms.add_spec. reflexivity. Qed.

Lemma add_nan_r (x : float) : (x + nan)%float = nan.
Proof.
  apply Prim2SF_inj. rewrite FloatAxioms.add_spec.
  change (Prim2SF nan) with S754_nan. unfold SF64add, SFadd.
  now destruct (Prim2SF x) as [[]|[]| |[]].
Qed.

Lemma div_nan_l (y : float) : (nan / y)%float = nan.
Proof. apply Prim2SF_inj. rewrite FloatAxioms.div_spec. reflexivity. Qed.

Lemma digits2_pos_lower (p : positive) :
  2 ^ (Zpos (digits2_pos p) - 1) <= Zpos p.
Proof.
  induction p as [p IH|p IH|]; cbn [digits2_pos].
  - rewrite Pos2Z.inj_succ. replace (Z.succ (Z.pos (digits2_pos p)) - 1) with (Z.succ (Z.pos (digits2_pos p) - 1)) by lia.
    rewrite Z.pow_succ_r by lia. lia.
  - rewrite Pos2Z.inj_succ. replace (Z.succ (Z.pos (digits2_pos p)) - 1) with (Z.succ (Z.pos (digits2_pos p) - 1)) by lia.
    rewrite Z.pow_succ_r by lia. lia.
  - simpl. lia.
Qed.

Lemma digits2_pos_small (p : positive) :
  Zpos p < 2 ^ 53 -> Zpos (digits2_pos p) <= 53.
Proof.
  intros Hp. pose proof (digits2_pos_lower p) as Hl.
  destruct (Z.le_gt_cases (Zpos (digits2_pos p)) 53) as [|Hd]; [assumption|exfalso].
  assert (2 ^ 53 <= 2 ^ (Z.pos (digits2_pos p) - 1)) by (apply Z.pow_le_mono_r; lia).
  lia.
Qed.

Lemma digits2_pos_iter_xO (p k : positive) :
  Zpos (digits2_pos (Pos.iter xO p k)) = Zpos (digits2_pos p) + Zpos k.
Proof.
  induction k as [|k IH] using Pos.peano_ind.
  - simpl. lia.
  - rewrite Pos.iter_succ. cbn [digits2_pos]. lia.
Qed.

Lemma binary_round_small (p : positive) :
  Zpos (digits2_pos p) <= 53 ->
  exists m e, binary_round prec emax false p 0 = S754_finite false m e.
Proof.
  intros Hd. unfold binary_round.
  assert (Hf : fexp prec emax (Zpos (digits2_pos p) + 0) = Zpos (digits2_pos p) - 53).
  { unfold fexp, SpecFloat.emin, prec, emax. lia. }
  rewrite Hf. unfold shl_align.
  destruct (Z.pos (digits2_pos p) - 53 - 0) as [|k|k] eqn:Hk; [| lia |].
  - unfold binary_round_aux, shr_fexp. cbn [Zdigits2].
    replace (fexp prec emax (Z.pos (digits2_pos p) + 0) - 0) with 0
      by (unfold fexp, SpecFloat.emin, prec, emax; lia).
    cbn. replace (fexp prec emax (Z.pos (digits2_pos p) + 0) - 0) with 0
      by (unfold fexp, SpecFloat.emin, prec, emax; lia).
    cbn. eauto.
  - unfold binary_round_aux, shr_fexp. cbn [Zdigits2].
    rewrite digits2_pos_iter_xO.
    replace (fexp prec emax (Z.pos (digits2_pos p) + Z.pos k + (Z.pos (digits2_pos p) - 53)) - (Z.pos (digits2_pos p) - 53)) with 0
      by (unfold fexp, SpecFloat.emin, prec, emax; lia).
    cbn [shr shr_record_of_loc shr_m loc_of_shr_record round_nearest_even Zdigits2].
    rewrite digits2_pos_iter_xO.
    replace (fexp prec emax (Z.pos (digits2_pos p) + Z.pos k + (Z.pos (digits2_pos p) - 53)) - (Z.pos (digits2_pos p) - 53)) with 0
      by (unfold fexp, SpecFloat.emin, prec, emax; lia).
    cbn [shr shr_record_of_loc shr_m loc_of_shr_record round_nearest_even Zdigits2].
    replace (Z.pos (digits2_pos p) - 53 <=? emax - prec) with true
      by (symmetry; apply Z.leb_le; unfold prec, emax; lia).
    eauto.
Qed.

Lemma float_of_Z_nonzero (z : Z) :
  0 < z < 2 ^ 53 -> (float_of_Z z =? 0)%float = false.
Proof.
  intros [Hz Hlt]. destruct z as [|p|p]; try lia.
  unfold float_of_Z. rewrite FloatAxioms.eqb_spec, of_uint63_spec.
  assert (Hto : Uint63Axioms.to_Z (Uint63.of_Z (Zpos p)) = Zpos p).
  { rewrite Uint63.of_Z_spec. apply Z.mod_small. split; [lia|].
    eapply Z.lt_trans; [exact Hlt|]. reflexivity. }
  rewrite Hto. cbn [binary_normalize].
  destruct (binary_round_small p (digits2_pos_small p Hlt)) as (m & e & ->).
  reflexivity.
Qed.













(** ** NaN through the reductions *)

Lemma fold_left_add_nan (l : list float) : fold_left add l nan = nan.
Proof.
  induction l as [|y l IH]; simpl; [reflexivity|]. now rewrite add_nan_l.
Qed.

Lemma fold_left_add_has_nan (l : list float) (acc : float) :
  In nan l -> fold_left add l acc = nan.
Proof.
  revert acc. induction l as [|y l IH]; intros acc Hin; simpl in *; [contradiction|].
  destruct Hin as [->|Hin].
  - rewrite add_nan_r. apply fold_left_add_nan.
  - now apply IH.
Qed.

Lemma np_sum_has_nan (v : list float) : In nan v -> np_sum v = nan.
Proof.
  unfold np_sum, np_reduce. destruct v as [|x v]; simpl; [contradiction|].
  intros [->|Hin]; [apply fold_left_add_nan | now apply fold_left_add_has_nan].
Qed.

Lemma np_mean_has_nan (v : list float) : In nan v -> np_mean v = nan.
Proof.
  intros Hin. unfold np_mean. rewrite np_sum_has_nan by assumption. apply div_nan_l.
Qed.

(** ** Loops over vectors *)

Lemma imap_seq_lookup {A : Type} (f : nat -> A) (g : nat -> A -> A) (n : nat) :
  imap g (map f (seq 0 n)) = map (fun i => g i (f i)) (seq 0 n).
Proof.
  apply list_eq. intros i. rewrite list_lookup_imap, !list_lookup_fmap.
  destruct (decide (i < n)%nat) as [Hi|Hi].
  - rewrite lookup_seq_lt by assumption. reflexivity.
  - rewrite lookup_seq_ge by lia. reflexivity.
Qed.

Lemma map_seq_lookup {A : Type} (d : A) (v : list A) :
  map (fun i => default d (v !! i)) (seq 0 (length v)) = v.
Proof.
  apply list_eq. intros i. rewrite list_lookup_fmap.
  destruct (decide (i < length v)%nat) as [Hi|Hi].
  - rewrite lookup_seq_lt by assumption. simpl.
    destruct (lookup_lt_is_Some_2 v i Hi) as [x ->]. reflexivity.
  - rewrite lookup_seq_ge by lia. simpl. symmetry. apply lookup_ge_None. lia.
Qed.

Section combine.
Context {R : Type} (values_of : R -> result (list float)).
Variable update : float -> float -> float.
Variable n : nat.

Lemma combine_step (value value2 : list float) :
  length value = n -> (n <= length value2)%nat ->
  for_range n
    (fun i value =>
       y <- vget value2 (Z.of_nat i) ;;
       x <- vget value (Z.of_nat i) ;;
       vset value (Z.of_nat i) (update x y))
    value
  = Ok (imap (fun i x => update x (default nan (value2 !! i))) value).
Proof.
  intros Hlen Hlen2. subst n.
  apply (for_range_vector_full _ (fun i x => update x (default nan (value2 !! i)))).
  intros i w x Hw Hv Hwi.
  assert (Hi : (i < length value)%nat) by (eapply lookup_lt_Some; eassumption).
  destruct (lookup_lt_is_Some_2 value2 i ltac:(lia)) as [y Hy].
  rewrite (vget_nat value2 i y Hy). simpl.
  rewrite (vget_nat w i x Hwi). simpl.
  rewrite vset_nat by lia. now rewrite Hy.
Qed.

Lemma combine_ok (recorders : list R) (vs : list (list float)) (f : nat -> float) :
  Forall2 (fun child v => values_of child = Ok v /\ length v = n) recorders vs ->
  AggregatedRecorder.combine values_of update n recorders (map f (seq 0 n))
  = Ok (map (fun i => fold_left update (map (fun v => default nan (v !! i)) vs) (f i))
          (seq 0 n)).
Proof.
  intros Hall. revert f. unfold AggregatedRecorder.combine.
  induction Hall as [|child v recorders vs [Hv Hlen] Hall IH]; intros f; [reflexivity|].
  cbn [for_each]. rewrite Hv. cbn [bind].
  rewrite combine_step by (rewrite ?length_map, ?length_seq; lia). cbn [bind].
  rewrite imap_seq_lookup. rewrite IH. reflexivity.
Qed.
End combine.

Lemma replicate_as_map {A : Type} (n : nat) (x : A) :
  replicate n x = map (fun _ => x) (seq 0 n).
Proof.
  apply list_eq. intros i. rewrite list_lookup_fmap.
  destruct (decide (i < n)%nat) as [Hi|Hi].
  - rewrite lookup_replicate_2, lookup_seq_lt by assumption. reflexivity.
  - rewrite lookup_seq_ge by lia. apply lookup_replicate_None. lia.
Qed.

Lemma sequence_ok {X A : Type} (f : X -> result A) (xs : list X) (ys : list A) :
  Forall2 (fun x y => f x = Ok y) xs ys -> sequence (map f xs) = Ok ys.
Proof.
  induction 1 as [|x y xs ys Hxy _ IH]; [reflexivity|].
  simpl. rewrite Hxy. simpl. rewrite IH. reflexivity.
Qed.

Lemma divide_all (v : list float) (d : float) :
  for_range (length v)
    (fun i value =>
       x <- vget value (Z.of_nat i) ;; vset value (Z.of_nat i) (x / d)%float)
    v
  = Ok (map (fun x => x / d)%float v).
Proof.
  rewrite (for_range_vector_full _ (fun _ x => (x / d)%float)).
  - f_equal. apply list_eq. intros i. now rewrite list_lookup_imap, list_lookup_fmap.
  - intros i w x Hw Hv Hwi. rewrite (vget_nat w i x Hwi). simpl.
    apply vset_nat. rewrite Hw. eapply lookup_lt_Some; eassumption.
Qed.

(** ** Recorders of a mean over the run *)

(** A loop over the scenario combinations that rewrites the entry of each. *)
Lemma for_each_combination {A : Type} (model : Model)
    (body : ScenarioIndex -> list A -> result (list A))
    (g : nat -> A -> A) (v : list A) :
  length v = ncomb model ->
  (forall i sc w x, combinations model !! i = Some sc -> length w = length v ->
                    w !! i = Some x -> body sc w = Ok (<[i := g i x]> w)) ->
  for_each body (combinations model) v = Ok (imap g v).
Proof.
  intros Hlen Hbody. rewrite (for_each_as_loop body _ 0%nat).
  fold (ncomb model). rewrite <- Hlen.
  apply (for_range_vector_full _ g).
  intros i w x Hw Hv Hwi. rewrite Nat.sub_0_r.
  assert (Hi : (i < ncomb model)%nat) by (rewrite <- Hlen; eapply lookup_lt_Some; eassumption).
  destruct (lookup_lt_is_Some_2 (combinations model) i Hi) as [sc Hsc].
  rewrite Hsc. eapply Hbody; eassumption.
Qed.

Lemma imap_map_seq {A : Type} (g : nat -> A -> A) (f : nat -> A) (n : nat) :
  imap g (map f (seq 0 n)) = map (fun i => g i (f i)) (seq 0 n).
Proof. apply imap_seq_lookup. Qed.

Section mean_flow.
Variable model : Model.
Hypothesis Hwf : wf_combinations model.

Lemma MeanFlowNodeRecorder_after_values (self : MeanFlowNodeRecorder.t) (ts : Timestep) :
  let base := MeanFlowNodeRecorder.super self in
  let node := NodeRecorder._node (BaseConstantNodeRecorder.super base) in
  length (BaseConstantNodeRecorder._values base) = ncomb model ->
  length (_flow node) = ncomb model ->
  MeanFlowNodeRecorder.after (set_current model ts) self
  = Ok (MeanFlowNodeRecorder.with_super self
          (BaseConstantNodeRecorder.with_values base
             (imap (fun i x => (x + default nan (_flow node !! i)
                                    * MeanFlowNodeRecorder.factor self)%float)
                (BaseConstantNodeRecorder._values base)))).
Proof.
  intros base node Hv Hf. unfold MeanFlowNodeRecorder.after.
  fold base. fold node.
  rewrite (for_each_combination (set_current model ts) _
             (fun i x => (x + default nan (_flow node !! i)
                              * MeanFlowNodeRecorder.factor self)%float)).
  - reflexivity.
  - exact Hv.
  - intros i sc w x Hsc Hw Hwi. rewrite (Hwf i sc Hsc).
    assert (Hi : (i < ncomb model)%nat).
    { rewrite <- Hv, <- Hw. eapply lookup_lt_Some; eassumption. }
    destruct (lookup_lt_is_Some_2 (_flow node) i ltac:(lia)) as [y Hy].
    rewrite (vget_nat _ i y Hy). cbn [bind].
    unfold BaseConstantNodeRecorder.update.
    rewrite (vget_nat w i x Hwi). cbn [bind].
    rewrite vset_nat by lia. now rewrite Hy.
Qed.

Lemma MeanFlowNodeRecorder_steps (ticks : list (Tick AbstractNode)) (k : nat)
    (self : MeanFlowNodeRecorder.t) (f : nat -> float) :
  Forall (fun tick => length (_flow (tick_entity tick)) = ncomb model) ticks ->
  BaseConstantNodeRecorder._values (MeanFlowNodeRecorder.super self)
  = map f (seq 0 (ncomb model)) ->
  exists self',
    step_from MeanFlowNodeRecorder.with_node MeanFlowNodeRecorder.after model k ticks self
    = Ok self'
    /\ MeanFlowNodeRecorder.factor self' = MeanFlowNodeRecorder.factor self
    /\ BaseConstantNodeRecorder._values (MeanFlowNodeRecorder.super self')
       = map (fun i =>
                fold_left
                  (fun acc tick =>
                     (acc + default nan (_flow (tick_entity tick) !! i)
                            * MeanFlowNodeRecorder.factor self)%float)
                  ticks (f i))
           (seq 0 (ncomb model)).
Proof.
  intros Hticks. revert k self f.
  induction Hticks as [|tick ticks Hflow Hticks IH]; intros k self f Hv.
  - exists self. repeat split. exact Hv.
  - cbn [step_from].
    rewrite MeanFlowNodeRecorder_after_values; cbn;
      [| rewrite Hv, length_map, length_seq; reflexivity | exact Hflow].
    rewrite Hv, imap_map_seq.
    match goal with
    | |- exists s, step_from _ _ _ _ _ ?self1 = _ /\ _ =>
        destruct (IH (Datatypes.S k) self1
                    (fun i => (f i + default nan (_flow (tick_entity tick) !! i)
                                     * MeanFlowNodeRecorder.factor self)%float)
                    eq_refl) as (self' & Hrun & Hfac & Hval)
    end.
    exists self'. split; [exact Hrun|]. split; [exact Hfac|]. exact Hval.
Qed.
End mean_flow.

Section deficit_frequency.
Variable model : Model.
Hypothesis Hwf : wf_combinations model.

Lemma DeficitFrequencyNodeRecorder_after_values (self : DeficitFrequencyNodeRecorder.t)
    (ts : Timestep) :
  let node := NodeRecorder._node (BaseConstantNodeRecorder.super self) in
  length (BaseConstantNodeRecorder._values self) = ncomb model ->
  length (_flow node) = ncomb model ->
  DeficitFrequencyNodeRecorder.after (set_current model ts) self
  = Ok (BaseConstantNodeRecorder.with_values self
          (imap (deficit_step model node) (BaseConstantNodeRecorder._values self))).
Proof.
  intros node Hv Hf. unfold DeficitFrequencyNodeRecorder.after. fold node.
  rewrite (for_each_combination (set_current model ts) _ (deficit_step model node)).
  - reflexivity.
  - exact Hv.
  - intros i sc w x Hsc Hw Hwi. rewrite (Hwf i sc Hsc).
    assert (Hi : (i < ncomb model)%nat).
    { rewrite <- Hv, <- Hw. eapply lookup_lt_Some; eassumption. }
    destruct (lookup_lt_is_Some_2 (_flow node) i ltac:(lia)) as [y Hy].
    rewrite (vget_nat _ i y Hy). cbn [bind].
    unfold deficit_step. cbn in Hsc. rewrite Hsc, Hy. cbn [from_option id].
    destruct (deficit_tolerance <? abs (y - get_max_flow node sc))%float.
    + unfold BaseConstantNodeRecorder.update.
      rewrite (vget_nat w i x Hwi). cbn [bind]. apply vset_nat. lia.
    + now rewrite list_insert_id.
Qed.

Lemma DeficitFrequencyNodeRecorder_steps (ticks : list (Tick AbstractNode)) (k : nat)
    (self : DeficitFrequencyNodeRecorder.t) (f : nat -> float) :
  Forall (fun tick => length (_flow (tick_entity tick)) = ncomb model) ticks ->
  BaseConstantNodeRecorder._values self = map f (seq 0 (ncomb model)) ->
  exists self',
    step_from BaseConstantNodeRecorder.with_node DeficitFrequencyNodeRecorder.after
      model k ticks self = Ok self'
    /\ BaseConstantNodeRecorder._values self'
       = map (fun i =>
                fold_left (fun acc tick => deficit_step model (tick_entity tick) i acc)
                  ticks (f i))
           (seq 0 (ncomb model)).
Proof.
  intros Hticks. revert k self f.
  induction Hticks as [|tick ticks Hflow Hticks IH]; intros k self f Hv.
  - exists self. split; [reflexivity | exact Hv].
  - cbn [step_from].
    rewrite DeficitFrequencyNodeRecorder_after_values; cbn;
      [| rewrite Hv, length_map, length_seq; reflexivity | exact Hflow].
    rewrite Hv, imap_map_seq.
    match goal with
    | |- exists s, step_from _ _ _ _ _ ?self1 = _ /\ _ =>
        destruct (IH (Datatypes.S k) self1
                    (fun i => deficit_step model (tick_entity tick) i (f i))
                    eq_refl) as (self' & Hrun & Hval)
    end.
    exists self'. split; [exact Hrun | exact Hval].
Qed.
End deficit_frequency.

Lemma divide_by_index_value (model : Model) (v : list float) :
  BaseConstantNodeRecorder.divide_by_index model v
  = Ok (map (fun x => x / float_of_Z (index (current model)))%float v).
Proof.
  unfold BaseConstantNodeRecorder.divide_by_index.
  rewrite (for_range_vector_full _
             (fun _ x => (x / float_of_Z (index (current model)))%float)).
  - f_equal. apply list_eq. intros i. now rewrite list_lookup_imap, list_lookup_fmap.
  - intros i w x Hw Hv Hwi. unfold BaseConstantNodeRecorder.update.
    rewrite (vget_nat w i x Hwi). cbn [bind]. apply vset_nat.
    rewrite Hw. eapply lookup_lt_Some; eassumption.
Qed.

Lemma divide_by_index_ok (model : Model) (n : nat) (v : list float) :
  (0 < n)%nat -> Z.of_nat n < 2 ^ 31 ->
  BaseConstantNodeRecorder.divide_by_index (end_of_run model n) v
  = Ok (map (fun x => x / float_of_Z (Z.of_nat n))%float v).
Proof. intros _ _. apply divide_by_index_value. Qed.

(** ** The annual count recorder *)

Module AnnualCountFacts.
Module AC := AnnualCountIndexParameterRecorder.
Import AnnualCountIndexParameterRecorder.

Lemma update_count_ok (n : nat) (threshold : Z) (current_max count : list Z) :
length count = n -> length current_max = n ->
update_count n threshold current_max count
= Ok (imap (fun i c => if threshold <=? default 0 (current_max !! i)
                       then wrap_int (c + 1) else c) count).
Proof.
intros Hc Hm. subst n. unfold update_count.
apply (for_range_vector_full _
         (fun i c => if threshold <=? default 0 (current_max !! i)
                     then wrap_int (c + 1) else c)).
intros i w c Hw Hv Hwi.
assert (Hi : (i < length count)%nat) by (eapply lookup_lt_Some; eassumption).
destruct (lookup_lt_is_Some_2 current_max i ltac:(lia)) as [m Hmi].
rewrite (vget_nat _ i m Hmi). cbn [bind]. rewrite Hmi. cbn [from_option id].
destruct (threshold <=? m).
- rewrite (vget_nat w i c Hwi). cbn [bind]. apply vset_nat. lia.
- now rewrite list_insert_id.
Qed.

Section annual.
Variable model : Model.
Hypothesis Hwf : wf_combinations model.

Lemma track_maximum (param : IndexParameter) (current_max : list Z) (ts : Timestep) :
length current_max = ncomb model ->
for_each
  (fun scenario_index current_max =>
     let value := get_index param scenario_index in
     m <- vget current_max (global_id scenario_index) ;;
     if m <? value then vset current_max (global_id scenario_index) value
     else Ok current_max)
  (combinations (set_current model ts)) current_max
= Ok (imap (fun i m => Z.max m (index_at model i param)) current_max).
Proof.
intros Hlen.
apply (for_each_combination (set_current model ts) _
         (fun i m => Z.max m (index_at model i param))); [exact Hlen|].
intros i sc w m Hsc Hw Hwi. cbn in Hsc. rewrite (Hwf i sc Hsc).
rewrite (vget_nat w i m Hwi). cbn [bind].
unfold index_at. rewrite Hsc.
destruct (Z.ltb_spec m (get_index param sc)).
- rewrite Z.max_r by lia. apply vset_nat. eapply lookup_lt_Some; eassumption.
- rewrite Z.max_l by lia. now rewrite list_insert_id.
Qed.

Lemma after_ok (self : AC.t) (ts : Timestep) :
length (_count self) = ncomb model ->
length (_current_max self) = ncomb model ->
let changed := negb (year ts =? _current_year self) in
let param := IndexParameterRecorder._param (AC.super self) in
AC.after (set_current model ts) self
= Ok {| AC.super := AC.super self;
        threshold := threshold self;
        _count :=
          if changed && negb (_current_year self =? -1)
          then imap (fun i c => if threshold self <=? default 0 (_current_max self !! i)
                                then wrap_int (c + 1) else c) (_count self)
          else _count self;
        _current_year := if changed then year ts else _current_year self;
        _current_max :=
          imap (fun i m => Z.max m (index_at model i param))
            (if changed then replicate (ncomb model) 0 else _current_max self) |}.
Proof.
intros Hc Hm changed param. unfold AC.after.
cbn [current set_current]. fold changed. fold param.
change (ncomb (set_current model ts)) with (ncomb model).
destruct changed.
- destruct (negb (_current_year self =? -1)); cbn [andb bind].
  + rewrite update_count_ok by assumption. cbn [bind].
    rewrite Hm. rewrite track_maximum by apply length_replicate. reflexivity.
  + rewrite Hm. rewrite track_maximum by apply length_replicate. reflexivity.
- cbn [andb bind]. rewrite track_maximum by assumption. reflexivity.
Qed.

Lemma lookup_map_seq {A : Type} (f : nat -> A) (n i : nat) :
(i < n)%nat -> map f (seq 0 n) !! i = Some (f i).
Proof. intros Hi. rewrite list_lookup_fmap, lookup_seq_lt by assumption. reflexivity. Qed.

Lemma step_tick (self : AC.t) (count current_max : nat -> Z) (y : Z)
  (ts : Timestep) (param : IndexParameter) :
annual_state model self count current_max y ->
let changed := negb (year ts =? y) in
exists self',
  AC.after (set_current model ts) (AC.with_param self param) = Ok self'
  /\ threshold self' = threshold self
  /\ annual_state model self'
       (fun i => if changed && negb (y =? -1)
                 then (if threshold self <=? current_max i
                       then wrap_int (count i + 1) else count i)
                 else count i)
       (fun i => Z.max (if changed then 0 else current_max i) (index_at model i param))
       (if changed then year ts else y).
Proof.
intros (Hc & Hm & Hy) changed.
eexists. split.
- apply after_ok; cbn; rewrite ?Hc, ?Hm, length_map, length_seq; reflexivity.
- cbn. rewrite Hy. fold changed. split; [reflexivity|]. unfold annual_state. cbn.
  split; [|split; [|reflexivity]].
  + destruct (changed && negb (y =? -1)); [|exact Hc].
    rewrite Hc, Hm, imap_map_seq. apply map_ext_in. intros i Hi.
    apply in_seq in Hi. rewrite lookup_map_seq by lia. reflexivity.
  + destruct changed.
    * rewrite replicate_as_map, imap_map_seq. reflexivity.
    * rewrite Hm, imap_map_seq. reflexivity.
Qed.

Lemma step_from_app {T E : Type} (with_entity : T -> E -> T)
  (after : Model -> T -> result T) (k : nat) (l1 l2 : list (Tick E)) (self : T) :
step_from with_entity after model k (l1 ++ l2) self
= (self1 <- step_from with_entity after model k l1 self ;;
   step_from with_entity after model (k + length l1)%nat l2 self1).
Proof.
revert k self. induction l1 as [|tick l1 IH]; intros k self.
- cbn. now rewrite Nat.add_0_r.
- cbn [app step_from length].
  destruct (after _ _) as [self'|e]; cbn [bind]; [|reflexivity].
  rewrite IH. now replace (Datatypes.S k + length l1)%nat with (k + Datatypes.S (length l1))%nat by lia.
Qed.

(** The timesteps of a year after its first one only raise the maxima. *)
Lemma rest_of_year (y : Z) (ticks : list (Tick IndexParameter)) (k : nat)
  (self : AC.t) (count current_max : nat -> Z) :
annual_state model self count current_max y ->
exists self',
  step_from AC.with_param AC.after model k (map (in_year y) ticks) self = Ok self'
  /\ threshold self' = threshold self
  /\ annual_state model self' count
       (fun i => fold_left (fun m tick => Z.max m (index_at model i (tick_entity tick)))
                   ticks (current_max i))
       y.
Proof.
revert k self current_max. induction ticks as [|tick ticks IH]; intros k self current_max Hst.
- exists self. split; [reflexivity|]. split; [reflexivity|]. exact Hst.
- cbn [map step_from].
  destruct (step_tick self count current_max y (timestep_of k (in_year y tick))
              (tick_entity tick) Hst) as (self1 & Hstep & Hth & Hst1).
  cbn [tick_entity in_year]. rewrite Hstep. cbn [bind].
  cbn [timestep_of year tick_year in_year] in Hst1. rewrite Z.eqb_refl in Hst1.
  cbn [negb andb] in Hst1.
  destruct (IH (Datatypes.S k) self1 _ Hst1) as (self' & Hrun & Hth' & Hst').
  exists self'. split; [exact Hrun|]. split; [congruence|]. exact Hst'.
Qed.

(** A whole year, entered from another one. *)
Lemma whole_year (y' : Z) (ticks : list (Tick IndexParameter)) (k : nat)
  (self : AC.t) (count current_max : nat -> Z) (y : Z) :
annual_state model self count current_max y ->
y' <> y -> ticks <> [] ->
exists self',
  step_from AC.with_param AC.after model k (block_ticks (y', ticks)) self = Ok self'
  /\ threshold self' = threshold self
  /\ annual_state model self'
       (fun i => if negb (y =? -1)
                 then (if threshold self <=? current_max i
                       then wrap_int (count i + 1) else count i)
                 else count i)
       (fun i => year_max model i ticks)
       y'.
Proof.
intros Hst Hy Hne. destruct ticks as [|tick ticks]; [congruence|].
unfold block_ticks. cbn [fst snd map step_from].
destruct (step_tick self count current_max y (timestep_of k (in_year y' tick))
            (tick_entity tick) Hst) as (self1 & Hstep & Hth & Hst1).
cbn [tick_entity in_year]. rewrite Hstep. cbn [bind].
cbn [timestep_of year tick_year in_year] in Hst1.
replace (y' =? y) with false in Hst1 by (symmetry; apply Z.eqb_neq; exact Hy).
cbn [negb andb] in Hst1.
destruct (rest_of_year y' ticks (Datatypes.S k) self1 _ _ Hst1)
  as (self' & Hrun & Hth' & Hst').
exists self'. split; [exact Hrun|]. split; [congruence|]. exact Hst'.
Qed.

Lemma wrap_int_small (z : Z) : -2147483648 <= z < 2147483648 -> wrap_int z = z.
Proof. intros Hz. unfold wrap_int. rewrite Z.mod_small by lia. lia. Qed.

Lemma pending_year_bounds (threshold y m : Z) : 0 <= pending_year threshold y m <= 1.
Proof. unfold pending_year. destruct (y =? -1), (threshold <=? m); lia. Qed.

Lemma years_reaching_cons (threshold : Z) (i : nat) (block : year_block)
  (blocks : list year_block) :
Z.of_nat (years_reaching model threshold i (block :: blocks))
= (if threshold <=? year_max model i (snd block) then 1 else 0)
  + Z.of_nat (years_reaching model threshold i blocks).
Proof.
unfold years_reaching. rewrite filter_cons.
destruct (decide (threshold <= year_max model i (snd block))) as [H|H].
- replace (threshold <=? _) with true by (symmetry; apply Z.leb_le; exact H).
  cbn [length]. rewrite Nat2Z.inj_succ, <- Z.add_1_l. reflexivity.
- replace (threshold <=? _) with false by (symmetry; apply Z.leb_gt; lia). reflexivity.
Qed.

Lemma all_years (blocks : list year_block) :
forall (k : nat) (self : AC.t) (count current_max : nat -> Z) (y : Z),
  annual_state model self count current_max y ->
  years_change y blocks ->
  (forall i, 0 <= count i
             /\ count i + pending_year (threshold self) y (current_max i)
                + Z.of_nat (length blocks) < 2147483648) ->
  exists self' count' current_max' y',
    step_from AC.with_param AC.after model k (calendar blocks) self = Ok self'
    /\ threshold self' = threshold self
    /\ annual_state model self' count' current_max' y'
    /\ (blocks <> [] -> y' <> -1)
    /\ forall i,
         0 <= count' i
         /\ count' i + pending_year (threshold self) y' (current_max' i)
            = count i + pending_year (threshold self) y (current_max i)
              + Z.of_nat (years_reaching model (threshold self) i blocks).
Proof.
induction blocks as [|[y1 ticks] blocks IH]; intros k self count current_max y Hst Hyears Hbound.
- exists self, count, current_max, y. cbn.
  split; [reflexivity|]. split; [reflexivity|]. split; [exact Hst|].
  split; [congruence|]. intros i. destruct (Hbound i). unfold years_reaching. cbn. lia.
- destruct Hyears as (Hy1 & Hmark & Hne & Hyears).
  unfold calendar. cbn [map concat]. rewrite step_from_app.
  destruct (whole_year y1 ticks k self count current_max y Hst Hy1 Hne)
    as (self1 & Hrun1 & Hth1 & Hst1).
  rewrite Hrun1. cbn [bind].
  assert (Hcount1 : forall i,
             (if negb (y =? -1)
              then (if threshold self <=? current_max i
                    then wrap_int (count i + 1) else count i)
              else count i)
             = count i + pending_year (threshold self) y (current_max i)).
  { intros i. destruct (Hbound i) as [H0 Hlt]. unfold pending_year in *.
    destruct (y =? -1); cbn [negb]; [lia|].
    destruct (threshold self <=? current_max i); [|lia].
    apply wrap_int_small. cbn [length] in Hlt. lia. }
  destruct (IH (k + length (block_ticks (y1, ticks)))%nat self1 _ _ y1 Hst1 Hyears)
    as (self' & count' & current_max' & y' & Hrun & Hth & Hst' & Hlast & Hsum).
  { intros i. rewrite Hcount1, Hth1. destruct (Hbound i) as [H0 Hlt].
    pose proof (pending_year_bounds (threshold self) y (current_max i)).
    pose proof (pending_year_bounds (threshold self) y1 (year_max model i ticks)).
    cbn [length] in Hlt. lia. }
  exists self', count', current_max', y'.
  split; [exact Hrun|]. split; [congruence|]. split; [exact Hst'|].
  split.
  + intros _. destruct blocks as [|b bs].
    * cbn in Hrun. inversion Hrun; subst self'.
      destruct Hst' as (_ & _ & Hy'). destruct Hst1 as (_ & _ & Hy1').
      congruence.
    * apply Hlast. discriminate.
  + intros i. destruct (Hsum i) as [H0 Heq]. split; [exact H0|].
    rewrite Hth1 in Heq. rewrite Heq, Hcount1, years_reaching_cons. cbn [snd].
    unfold pending_year at 2.
    replace (y1 =? -1) with false by (symmetry; apply Z.eqb_neq; exact Hmark).
    lia.
Qed.
End annual.

Lemma annual_finish_ok (model : Model) (self : AC.t) (count current_max : nat -> Z) (y : Z) :
annual_state model self count current_max y ->
exists self',
  AC.finish model self = Ok self'
  /\ threshold self' = threshold self
  /\ annual_state model self'
       (fun i => if threshold self <=? current_max i
                 then wrap_int (count i + 1) else count i)
       current_max y.
Proof.
intros (Hc & Hm & Hy). unfold AC.finish.
rewrite update_count_ok by (rewrite ?Hc, ?Hm, length_map, length_seq; reflexivity).
eexists. split; [reflexivity|]. split; [reflexivity|].
unfold annual_state. cbn. split; [|split; assumption].
rewrite Hc, Hm, imap_map_seq. apply map_ext_in. intros i Hi.
apply in_seq in Hi. rewrite lookup_map_seq by lia. reflexivity.
Qed.

End AnnualCountFacts.

Module AC := AnnualCountIndexParameterRecorder.

(** ** Circular buffers *)

Section slots.
Local Open Scope nat_scope.
Variable w : nat.
Hypothesis Hw : 1 <= w.

Lemma slot_time_current (t : nat) : slot_time w t (t mod w) = t.
Proof.
  unfold slot_time.
  assert (H : (t - t mod w) mod w = 0).
  { symmetry. apply (Nat.mod_unique _ _ (t / w)); [lia|].
    pose proof (Nat.div_mod_eq t w). lia. }
  rewrite H. lia.
Qed.


Lemma slot_time_bounds (t j : nat) :
  j < window_length w t -> t + 1 - w <= slot_time w t j <= t.
Proof.
  unfold window_length, slot_time. intros Hj.
  pose proof (Nat.mod_upper_bound (t - j) w ltac:(lia)). lia.
Qed.


Lemma slot_time_other (t j : nat) :
  j < window_length w t -> j <> t mod w ->
  1 <= t /\ j < window_length w (t - 1) /\ slot_time w t j = slot_time w (t - 1) j.
Proof.
  unfold window_length. intros Hj Hne.
  assert (Hjt : j < t).
  { destruct (Nat.eq_dec j t) as [->|]; [|lia].
    exfalso. apply Hne. symmetry. apply Nat.mod_small. lia. }
  split; [lia|]. split; [lia|]. unfold slot_time.
  pose proof (Nat.div_mod_eq (t - j) w) as Hdm.
  pose proof (Nat.mod_upper_bound (t - j) w ltac:(lia)) as Hub.
  assert (Hr : (t - j) mod w <> 0).
  { intros H0. apply Hne. apply (Nat.mod_unique _ _ ((t - j) / w)); lia. }
  assert (Hprev : (t - 1 - j) mod w = (t - j) mod w - 1).
  { symmetry. apply (Nat.mod_unique _ _ ((t - j) / w)); lia. }
  rewrite Hprev. lia.
Qed.

Lemma next_position (t : nat) :
  (if (Z.of_nat w <=? Z.of_nat (t mod w) + 1)%Z then 0%Z else (Z.of_nat (t mod w) + 1)%Z)
  = Z.of_nat ((t + 1) mod w).
Proof.
  pose proof (Nat.div_mod_eq t w) as Hdm.
  pose proof (Nat.mod_upper_bound t w ltac:(lia)) as Hub.
  destruct (Z.leb_spec (Z.of_nat w) (Z.of_nat (t mod w) + 1)) as [H|H].
  - assert (Hz : (t + 1) mod w = 0).
    { symmetry. apply (Nat.mod_unique _ _ (t / w + 1)); lia. }
    now rewrite Hz.
  - assert (Hz : (t + 1) mod w = t mod w + 1).
    { symmetry. apply (Nat.mod_unique _ _ (t / w)); lia. }
    rewrite Hz. lia.
Qed.



End slots.

(** ** Matrices and aggregators *)

Lemma sequence_all_ok {X A : Type} (f : X -> result A) (xs : list X) :
  (forall x, In x xs -> exists y, f x = Ok y) ->
  exists ys, sequence (map f xs) = Ok ys /\ length ys = length xs.
Proof.
  induction xs as [|x xs IH]; intros H.
  - exists []. split; reflexivity.
  - destruct (H x (or_introl eq_refl)) as [y Hy].
    destruct IH as (ys & Hys & Hlen); [intros x' Hx'; apply H; now right|].
    exists (y :: ys). cbn. rewrite Hy. cbn. rewrite Hys. cbn. split; [reflexivity|lia].
Qed.

Lemma builtin_aggregates_columns (agg : Aggregator) :
  _func agg <> CUSTOM -> aggregates_columns agg.
Proof.
  intros Hfunc m r c Hr (Hs & Hlen & Hrows).
  unfold AggregatorImpl.aggregate_2d. cbn [bind].
  assert (Hlanes : length (lanes m false) = c).
  { unfold lanes. now rewrite length_map, length_seq. }
  assert (Hreduce : forall f, exists v, np_reduce_axis f m 0 = Ok v /\ length v = c).
  { intros f. eexists. split; [reflexivity|]. now rewrite length_map. }
  assert (Hpartial : forall f : list float -> result float,
             (forall x l, exists y, f (x :: l) = Ok y) ->
             exists v, np_reduce_axis_partial f m 0 = Ok v /\ length v = c).
  { intros f Hf. unfold np_reduce_axis_partial. cbn [normalize_axis Z.eqb orb bind].
    destruct (sequence_all_ok f (lanes m false)) as (ys & Hys & Hl).
    - intros lane Hin. unfold lanes in Hin. apply in_map_iff in Hin as (j & <- & _).
      unfold column. destruct (rows m) as [|row rows']; [cbn in Hlen; lia|].
      cbn [map]. apply Hf.
    - exists ys. split; [exact Hys|lia]. }
  destruct (_func agg); try congruence; try apply Hreduce.
  - apply Hpartial. intros x l. eexists. reflexivity.
  - apply Hpartial. intros x l. eexists. reflexivity.
Qed.

(** ** Writing into matrices *)

Lemma mset_ok (m : ndarray2) (p j : nat) (row : list float) (x : float) :
  rows m !! p = Some row -> (j < length row)%nat ->
  mset m (Z.of_nat p) (Z.of_nat j) x
  = Ok (mk_ndarray2 (shape1 m) (<[p := <[j := x]> row]> (rows m))).
Proof.
  intros Hrow Hj. unfold mset.
  rewrite (vget_nat _ p row Hrow). cbn [bind].
  rewrite vset_nat by assumption. cbn [bind].
  rewrite vset_nat by (eapply lookup_lt_Some; eassumption). reflexivity.
Qed.

Lemma mset_row_ok (m : ndarray2) (t : nat) (v : list float) :
  (t < shape0 m)%nat -> length v = shape1 m ->
  mset_row m (Z.of_nat t) v = Ok (mk_ndarray2 (shape1 m) (<[t := v]> (rows m))).
Proof.
  intros Ht Hv. unfold mset_row. rewrite py_index_nat by assumption. cbn [bind].
  now rewrite Hv, Nat.eqb_refl.
Qed.

(** Writing the entries of one row in turn replaces the row. *)
Lemma fill_row {X : Type} (f : X -> float) (xs : list X) (m : ndarray2) (p : nat)
    (row : list float) :
  rows m !! p = Some row -> length row = length xs ->
  for_enumerate (fun i x m => mset m (Z.of_nat p) (Z.of_nat i) (f x)) xs m
  = Ok (mk_ndarray2 (shape1 m) (<[p := map f xs]> (rows m))).
Proof.
  intros Hrow Hlen. rewrite for_enumerate_as_loop. unfold for_range.
  assert (Hp : (p < length (rows m))%nat) by (eapply lookup_lt_Some; eassumption).
  enough (H : forall n, (n <= length xs)%nat ->
             for_loop (fun i m => match xs !! i with
                                  | Some x => mset m (Z.of_nat p) (Z.of_nat i) (f x)
                                  | None => Ok m end) 0 n m
             = Ok (mk_ndarray2 (shape1 m)
                     (<[p := map f (take n xs) ++ drop n row]> (rows m)))).
  { rewrite H by lia. rewrite take_ge, drop_ge, app_nil_r by lia. reflexivity. }
  induction n as [|n IH]; intros Hn.
  - cbn. rewrite drop_0, list_insert_id by assumption. now destruct m.
  - rewrite for_loop_snoc, IH by lia. cbn [bind Nat.add].
    destruct (lookup_lt_is_Some_2 xs n ltac:(lia)) as [x Hx]. rewrite Hx.
    rewrite (mset_ok _ p n (map f (take n xs) ++ drop n row)); cbn [rows shape1].
    + f_equal. f_equal. rewrite list_insert_insert_eq. f_equal.
      rewrite (take_S_r xs n x Hx), map_app. cbn [map]. rewrite <- app_assoc. cbn [app].
      destruct (lookup_lt_is_Some_2 row n ltac:(lia)) as [y Hy].
      rewrite (drop_S row y n Hy).
      replace n with (length (map f (take n xs)) + 0)%nat at 1
        by (rewrite length_map, length_take; lia).
      now rewrite insert_app_r.
    + now rewrite list_lookup_insert_eq.
    + rewrite length_app, length_map, length_take, length_drop. lia.
Qed.

(** ** The rolling window over a parameter *)

Module RollingWindowFacts.
Module RW := RollingWindowParameterRecorder.

Lemma well_shaped_insert (m : ndarray2) (r c i : nat) (v : list float) :
well_shaped m r c -> length v = c ->
well_shaped (mk_ndarray2 (shape1 m) (<[i := v]> (rows m))) r c.
Proof.
intros (Hs & Hl & Hrows) Hv. unfold well_shaped. cbn.
split; [exact Hs|]. split; [now rewrite length_insert|].
apply Forall_insert; assumption.
Qed.

Lemma well_shaped_lookup (m : ndarray2) (r c i : nat) :
well_shaped m r c -> (i < r)%nat -> exists row, rows m !! i = Some row /\ length row = c.
Proof.
intros (Hs & Hl & Hrows) Hi.
destruct (lookup_lt_is_Some_2 (rows m) i ltac:(lia)) as [row Hrow].
exists row. split; [exact Hrow|].
rewrite Forall_forall in Hrows. apply Hrows. eapply list_elem_of_lookup_2. eassumption.
Qed.

Section step.
Variable model : Model.
Variable agg : Aggregator.
Variable w : nat.
Hypothesis Hw : (1 <= w)%nat.
Hypothesis Hagg : aggregates_columns agg.
Variable ticks : list (Tick PywrParameter).
Hypothesis Hticks : (length ticks <= n_timesteps model)%nat.

Let samples := map (parameter_sample model) ticks.

Lemma window_well_shaped (t : nat) :
(t < length ticks)%nat ->
well_shaped (mk_ndarray2 (ncomb model) (window_at [] w t samples))
  (window_length w t) (ncomb model).
Proof.
intros Ht. unfold well_shaped, window_at. cbn.
split; [reflexivity|]. split; [now rewrite length_map, length_seq|].
apply Forall_forall. intros row Hin. apply list_elem_of_fmap in Hin as (j & -> & Hj).
apply elem_of_seq in Hj.
assert (Hslot : (slot_time w t j < length samples)%nat).
{ pose proof (slot_time_bounds w Hw t j ltac:(lia)).
  subst samples. rewrite length_map. lia. }
destruct (lookup_lt_is_Some_2 samples _ Hslot) as [sample Hsample].
rewrite Hsample. cbn. subst samples.
rewrite list_lookup_fmap in Hsample.
destruct (ticks !! slot_time w t j); [|discriminate].
cbn in Hsample. inversion Hsample. unfold parameter_sample. now rewrite length_map.
Qed.

Lemma window_step_ok (t : nat) (tick : Tick PywrParameter) (self : RW.t) :
ticks !! t = Some tick ->
rolling_window_invariant model agg w samples t self ->
exists self',
  RW.after (set_current model (timestep_of t tick))
    (RW.with_param self (tick_entity tick)) = Ok self'
  /\ rolling_window_invariant model agg w samples (t + 1) self'.
Proof.
intros Htick (Hwin & Ha & Hpos & Hmem & Hdata & Hslots & Hdone & Hzero).
assert (Ht : (t < length ticks)%nat) by (eapply lookup_lt_Some; eassumption).
assert (Hsample : samples !! t = Some (parameter_sample model tick)).
{ subst samples. now rewrite list_lookup_fmap, Htick. }
pose proof (Nat.mod_upper_bound t w ltac:(lia)) as Hmodw.
assert (Hmodt : (t mod w <= t)%nat) by (apply Nat.Div0.mod_le).
destruct (well_shaped_lookup _ _ _ (t mod w) Hmem ltac:(lia)) as (row & Hrow & Hrowlen).
set (memory' := mk_ndarray2 (shape1 (RW._memory self))
                  (<[(t mod w)%nat := parameter_sample model tick]> (rows (RW._memory self)))).
assert (Hmem' : well_shaped memory' (n_timesteps model) (ncomb model)).
{ apply well_shaped_insert; [exact Hmem|]. unfold parameter_sample.
  now rewrite length_map. }
assert (Hwindow : take (window_length w t) (rows memory') = window_at [] w t samples).
{ apply list_eq. intros j. unfold window_at. rewrite list_lookup_fmap.
  destruct (decide (j < window_length w t)%nat) as [Hj|Hj].
  - rewrite lookup_take_lt, lookup_seq_lt by lia. cbn [fmap option_fmap option_map Nat.add].
    unfold memory'. cbn [rows].
    destruct (decide (j = t mod w)%nat) as [->|Hne].
    + rewrite list_lookup_insert_eq by (destruct Hmem as (_ & -> & _); lia).
      rewrite slot_time_current by assumption. now rewrite Hsample.
    + rewrite list_lookup_insert_ne by congruence.
      destruct (slot_time_other w Hw t j Hj Hne) as (H1 & Hprev & ->).
      apply Hslots; assumption.
  - rewrite lookup_take_ge, lookup_seq_ge by lia. reflexivity. }
destruct (Hagg (mk_ndarray2 (ncomb model) (window_at [] w t samples))
            (window_length w t) (ncomb model)) as (v & Hv & Hvlen).
{ unfold window_length. lia. }
{ now apply window_well_shaped. }
exists {| RW.super := ParameterRecorder.with_param (RW.super self) (tick_entity tick);
          RW._temporal_aggregator := RW._temporal_aggregator self;
          RW.window := RW.window self;
          RW.position := Z.of_nat ((t + 1) mod w);
          RW._memory := memory';
          RW._data := mk_ndarray2 (shape1 (RW._data self))
                        (<[t := v]> (rows (RW._data self))) |}.
split.
- unfold RW.after.
  cbn [RW.with_param RW.super RW._memory RW.position RW._temporal_aggregator
       RW.window RW._data ParameterRecorder.with_param ParameterRecorder._param
       current set_current combinations timestep_of index].
  rewrite Hpos.
  rewrite (fill_row (get_value (tick_entity tick)) (combinations model)
             (RW._memory self) (t mod w)%nat row Hrow) by (rewrite Hrowlen; reflexivity).
  cbn [bind]. fold (parameter_sample model tick). fold memory'.
  rewrite Hwin, Ha.
  assert (Hslice : slice_rows memory'
                     (if Z.of_nat t <? Z.of_nat w then Z.of_nat t + 1 else Z.of_nat w)
                   = mk_ndarray2 (ncomb model) (window_at [] w t samples)).
  { unfold slice_rows. destruct Hmem' as (Hs' & Hl' & _). rewrite Hs'.
    f_equal. rewrite <- Hwindow. f_equal. unfold slice_stop, shape0, window_length.
    rewrite Hl'. destruct (Z.ltb_spec (Z.of_nat t) (Z.of_nat w)).
    - replace (Z.of_nat t + 1 <? 0) with false by (symmetry; apply Z.ltb_ge; lia). lia.
    - replace (Z.of_nat w <? 0) with false by (symmetry; apply Z.ltb_ge; lia). lia. }
  rewrite Hslice, Hv. cbn [bind].
  rewrite mset_row_ok.
  + cbn [bind]. rewrite next_position by assumption. reflexivity.
  + unfold shape0. destruct Hdata as (_ & -> & _). lia.
  + destruct Hdata as (-> & _ & _). exact Hvlen.
- unfold rolling_window_invariant. cbn.
  split; [exact Hwin|]. split; [exact Ha|]. split; [reflexivity|].
  split; [exact Hmem'|].
  split; [apply well_shaped_insert; assumption|].
  split; [|split].
  + intros j _ Hj. replace (t + 1 - 1)%nat with t in * by lia.
    change (rows memory' !! j = Some (default [] (samples !! slot_time w t j))).
    rewrite <- (lookup_take_lt (rows memory') (window_length w t) j) by lia.
    rewrite Hwindow. unfold window_at.
    now rewrite list_lookup_fmap, lookup_seq_lt by lia.
  + intros s Hs. destruct (decide (s = t)) as [->|Hne].
    * exists v. split; [|exact Hv].
      apply list_lookup_insert_eq. destruct Hdata as (_ & -> & _). lia.
    * rewrite list_lookup_insert_ne by congruence. apply Hdone. lia.
  + intros s Hs. rewrite list_lookup_insert_ne by lia. apply Hzero. lia.
Qed.

Lemma window_steps_ok (rest : list (Tick PywrParameter)) :
forall (done : list (Tick PywrParameter)) (self : RW.t),
  ticks = done ++ rest ->
  rolling_window_invariant model agg w samples (length done) self ->
  exists self',
    step_from RW.with_param RW.after model (length done) rest self = Ok self'
    /\ rolling_window_invariant model agg w samples (length ticks) self'.
Proof.
induction rest as [|tick rest IH]; intros done self Hsplit Hinv.
- exists self. split; [reflexivity|].
  rewrite Hsplit, app_nil_r. exact Hinv.
- assert (Htick : ticks !! length done = Some tick).
  { rewrite Hsplit. now rewrite lookup_app_r, Nat.sub_diag by lia. }
  destruct (window_step_ok (length done) tick self Htick Hinv) as (self1 & Hstep & Hinv1).
  cbn [step_from]. rewrite Hstep. cbn [bind].
  destruct (IH (done ++ [tick]) self1) as (self' & Hrun & Hinv').
  + rewrite Hsplit, <- app_assoc. reflexivity.
  + rewrite length_app. cbn [length]. exact Hinv1.
  + rewrite length_app in Hrun. cbn [length] in Hrun.
    replace (length done + 1)%nat with (Datatypes.S (length done)) in Hrun by lia.
    exists self'. split; assumption.
Qed.

Lemma well_shaped_full (r c : nat) (x : float) : well_shaped (np_full r c x) r c.
Proof.
unfold well_shaped, np_full. cbn. split; [reflexivity|].
split; [apply length_replicate|].
apply Forall_forall. intros row Hin. apply elem_of_replicate in Hin as [-> _].
apply length_replicate.
Qed.

Lemma reset_ok (self : RW.t) :
rolling_window_prepared model agg w self ->
exists self', RW.reset self = Ok self'
              /\ rolling_window_invariant model agg w samples 0 self'.
Proof.
intros (Hwin & Ha & Hmem & Hdata). eexists. split; [reflexivity|].
unfold rolling_window_invariant. cbn.
destruct Hdata as (Hs & Hl & _). unfold mfill, shape0. rewrite Hs, Hl.
split; [exact Hwin|]. split; [exact Ha|].
split; [now rewrite Nat.Div0.mod_0_l|]. split; [exact Hmem|].
split; [apply well_shaped_full|].
split; [intros j Hj; lia|]. split; [intros s Hs'; lia|].
intros s Hs'. cbn. apply lookup_replicate_2. lia.
Qed.

Lemma run_ok (self : RW.t) :
rolling_window_prepared model agg w self ->
exists finished,
  run RW.with_param RW.after RW.reset RW.finish model ticks self = Ok finished
  /\ rolling_window_invariant model agg w samples (length ticks) finished.
Proof.
intros Hprep. destruct (reset_ok self Hprep) as (fresh & Hreset & Hinv).
destruct (window_steps_ok ticks [] fresh eq_refl Hinv) as (finished & Hrun & Hfin).
exists finished. split; [|exact Hfin].
unfold run. rewrite Hreset. cbn [bind]. cbn [length] in Hrun. rewrite Hrun.
reflexivity.
Qed.

Lemma invariant_prepared (t : nat) (self : RW.t) :
rolling_window_invariant model agg w samples t self -> rolling_window_prepared model agg w self.
Proof. intros (Hwin & Ha & _ & Hmem & Hdata & _). repeat split; assumption || apply Hmem || apply Hdata. Qed.

(** The buffer of aggregates after a run is a function of the samples. *)
Lemma data_determined (self1 self2 : RW.t) :
rolling_window_invariant model agg w samples (length ticks) self1 ->
rolling_window_invariant model agg w samples (length ticks) self2 ->
RW.data self1 = RW.data self2.
Proof.
intros (_ & _ & _ & _ & (Hs1 & Hl1 & _) & _ & Hdone1 & Hzero1)
       (_ & _ & _ & _ & (Hs2 & Hl2 & _) & _ & Hdone2 & Hzero2).
unfold RW.data. destruct (RW._data self1) as [c1 rows1], (RW._data self2) as [c2 rows2].
cbn in *. subst c1 c2. f_equal. apply list_eq. intros s.
destruct (decide (s < length ticks)%nat) as [Hs|Hs].
- destruct (Hdone1 s Hs) as (v1 & -> & Hv1). destruct (Hdone2 s Hs) as (v2 & -> & Hv2).
  congruence.
- destruct (decide (s < n_timesteps model)%nat) as [Hn|Hn].
  + rewrite Hzero1, Hzero2 by lia. reflexivity.
  + rewrite !lookup_ge_None_2 by lia. reflexivity.
Qed.
End step.

Lemma setup_prepared (junk : nat -> nat -> float) (model : Model) (self : RW.t) (w : nat) :
RW.window self = Z.of_nat w ->
exists ready, RW.setup junk model self = Ok ready
              /\ rolling_window_prepared model (RW._temporal_aggregator self) w ready.
Proof.
intros Hwin. eexists. split; [reflexivity|]. unfold rolling_window_prepared. cbn.
split; [exact Hwin|]. split; [reflexivity|]. split.
- unfold well_shaped, np_empty. cbn. split; [reflexivity|].
  split; [now rewrite length_map, length_seq|].
  apply Forall_forall. intros row Hin. apply list_elem_of_fmap in Hin as (i & -> & _).
  now rewrite length_map, length_seq.
- apply well_shaped_full.
Qed.
End RollingWindowFacts.

(** ** The rolling mean of a flow *)

Module RollingMeanFacts.
Module RM := RollingMeanFlowNodeRecorder.

Lemma for_loop_lift {S S' : Type} (inj : S' -> S) (body : nat -> S -> result S)
  (body' : nat -> S' -> result S') (start count : nat) (s : S') :
(forall i s, body i (inj s) = (r <- body' i s ;; Ok (inj r))) ->
for_loop body start count (inj s) = (r <- for_loop body' start count s ;; Ok (inj r)).
Proof.
intros Hbody. revert start s. induction count as [|count IH]; intros start s.
- reflexivity.
- cbn [for_loop]. rewrite Hbody. destruct (body' start s) as [s1|e]; cbn [bind]; [|reflexivity].
  apply IH.
Qed.



Section step.
Variable model : Model.
Variable w : nat.
Hypothesis Hw : (1 <= w)%nat.
Variable ticks : list (Tick AbstractNode).
Hypothesis Hticks : (length ticks <= n_timesteps model)%nat.
Hypothesis Hflows : Forall (fun tick => length (_flow (tick_entity tick)) = ncomb model) ticks.





End step.

End RollingMeanFacts.

(** ** Replay of the rolling window *)

Module RW := RollingWindowParameterRecorder.
Module RM := RollingMeanFlowNodeRecorder.

(** The sibling of the rolling mean, which resets its cursor, replays
    faithfully: a second run over the same samples leaves the same buffer. *)
Lemma RollingWindowParameterRecorder_replay_stable
    (junk : nat -> nat -> float) (model : Model) (self : RW.t)
    (ticks : list (Tick PywrParameter)) (w : nat) :
  RW.window self = Z.of_nat w -> (1 <= w)%nat ->
  (length ticks <= n_timesteps model)%nat ->
  aggregates_columns (RW._temporal_aggregator self) ->
  exists ready first second,
    RW.setup junk model self = Ok ready
    /\ run RW.with_param RW.after RW.reset RW.finish model ticks ready = Ok first
    /\ run RW.with_param RW.after RW.reset RW.finish model ticks first = Ok second
    /\ RW.data second = RW.data first.
Proof.
  intros Hwin Hw Hlen Hagg.
  destruct (RollingWindowFacts.setup_prepared junk model self w Hwin) as (ready & Hsetup & Hprep).
  destruct (RollingWindowFacts.run_ok model _ w Hw Hagg ticks Hlen ready Hprep)
    as (first & Hrun1 & Hinv1).
  destruct (RollingWindowFacts.run_ok model _ w Hw Hagg ticks Hlen first
              (RollingWindowFacts.invariant_prepared model _ w ticks _ first Hinv1))
    as (second & Hrun2 & Hinv2).
  exists ready, first, second.
  split; [exact Hsetup|]. split; [exact Hrun1|]. split; [exact Hrun2|].
  eapply RollingWindowFacts.data_determined; eassumption.
Qed.

(** ** Order on binary64 numbers *)








(** ** The deviation from target duration curves *)

Module DeviationFacts.
Module Dev := FlowDurationCurveDeviationRecorder.

Lemma mget_ok (m : ndarray2) (k i : nat) (a : float) :
mcell m k i = Some a -> mget m (Z.of_nat k) (Z.of_nat i) = Ok a.
Proof.
unfold mcell, mget. destruct (rows m !! k) as [row|] eqn:Hrow; [|discriminate].
intros Ha. rewrite (vget_nat _ k row Hrow). cbn [bind]. now apply vget_nat.
Qed.

Lemma deviation_cell_ok (fdc : ndarray2) (utrgt ltrgt : list float) (k i : nat)
  (deviations : ndarray2) (a l u : float) :
mcell fdc k i = Some a -> utrgt !! k = Some u -> ltrgt !! k = Some l ->
Dev.deviation_cell fdc utrgt ltrgt (Z.of_nat k) (Z.of_nat i) deviations
= mset deviations (Z.of_nat k) (Z.of_nat i) (deviation a l u).
Proof.
intros Ha Hu Hl. unfold Dev.deviation_cell, Dev.deviation_try, deviation, cy_div.
rewrite (mget_ok fdc k i a Ha), (vget_nat utrgt k u Hu), (vget_nat ltrgt k l Hl).
cbn [bind]. destruct (u =? 0)%float; cbn [bind orb]; [reflexivity|].
destruct (l =? 0)%float; reflexivity.
Qed.

(** Writing one entry of every row, the value depending on the row. *)
Lemma column_fill (f : nat -> float) (body : nat -> ndarray2 -> result ndarray2)
  (i : nat) (m : ndarray2) :
(forall k m', (k < shape0 m)%nat ->
              body k m' = mset m' (Z.of_nat k) (Z.of_nat i) (f k)) ->
Forall (fun row => (i < length row)%nat) (rows m) ->
for_range (shape0 m) body m
= Ok (mk_ndarray2 (shape1 m) (imap (fun k row => <[i := f k]> row) (rows m))).
Proof.
intros Hbody Hrows. unfold for_range.
rewrite (for_loop_ext body (fun k m' => mset m' (Z.of_nat k) (Z.of_nat i) (f k)))
  by (intros k s Hk; apply Hbody; lia).
destruct m as [c rs]. unfold shape0 in *. cbn [rows shape1] in *.
rewrite (RollingMeanFacts.for_loop_lift (mk_ndarray2 c) _
           (fun k rs => row <- vget rs (Z.of_nat k) ;;
                        row' <- vset row (Z.of_nat i) (f k) ;;
                        vset rs (Z.of_nat k) row')).
- fold (for_range (length rs)
          (fun k rs => row <- vget rs (Z.of_nat k) ;;
                       row' <- vset row (Z.of_nat i) (f k) ;;
                       vset rs (Z.of_nat k) row') rs).
  rewrite (for_range_vector_full _ (fun k row => <[i := f k]> row)); [reflexivity|].
  intros k w row Hw Hv Hwk.
  assert (Hk : (k < length rs)%nat) by (eapply lookup_lt_Some; eassumption).
  rewrite (vget_nat w k row Hwk). cbn [bind].
  rewrite Forall_forall in Hrows.
  rewrite vset_nat by (apply Hrows; eapply list_elem_of_lookup_2; eassumption).
  cbn [bind]. apply vset_nat. lia.
- intros k s. unfold mset. cbn [rows shape1].
  destruct (vget s (Z.of_nat k)) as [row|e]; cbn [bind]; [|reflexivity].
  destruct (vset row (Z.of_nat i) (f k)) as [row'|e]; cbn [bind]; [|reflexivity].
  destruct (vset s (Z.of_nat k) row') as [rs'|e]; reflexivity.
Qed.

Lemma mcell_column_fill (f : nat -> float) (m : ndarray2) (i k i' : nat) :
(k < shape0 m)%nat ->
Forall (fun row => (i < length row)%nat) (rows m) ->
mcell (mk_ndarray2 (shape1 m) (imap (fun k row => <[i := f k]> row) (rows m))) k i'
= if decide (i' = i) then Some (f k) else mcell m k i'.
Proof.
intros Hk Hrows. unfold mcell. cbn [rows]. rewrite list_lookup_imap.
destruct (lookup_lt_is_Some_2 (rows m) k Hk) as [row Hrow]. rewrite Hrow. cbn.
rewrite Forall_forall in Hrows.
pose proof (Hrows row (list_elem_of_lookup_2 _ _ _ Hrow)) as Hi.
destruct (decide (i' = i)) as [->|Hne].
- now apply list_lookup_insert_eq.
- now apply list_lookup_insert_ne.
Qed.

Lemma column_lookup (target : ndarray2) (n k : nat) (x : float) :
mcell target k n = Some x -> column target n !! k = Some x.
Proof.
unfold mcell, column. rewrite list_lookup_fmap.
destruct (rows target !! k) as [row|]; [|discriminate]. cbn. now intros ->.
Qed.

Lemma well_shaped_mcell (m : ndarray2) (r c k i : nat) :
well_shaped m r c -> (k < r)%nat -> (i < c)%nat -> exists x, mcell m k i = Some x.
Proof.
intros Hm Hk Hi.
destruct (RollingWindowFacts.well_shaped_lookup m r c k Hm Hk) as (row & Hrow & Hlen).
unfold mcell. rewrite Hrow. apply lookup_lt_is_Some_2. lia.
Qed.

Lemma py_index_bound (z : Z) (len n : nat) : py_index z len = Ok n -> (n < len)%nat.
Proof.
unfold py_index.
destruct ((0 <=? z) && (z <? Z.of_nat len)) eqn:H1.
- intros [= <-]. apply andb_true_iff in H1 as [H0 H1]. lia.
- destruct ((z <? 0) && (0 <=? z + Z.of_nat len)) eqn:H2; [|discriminate].
  intros [= <-]. apply andb_true_iff in H2 as [H0 H2]. lia.
Qed.

Lemma np_empty_well_shaped (junk : nat -> nat -> float) (r c : nat) :
well_shaped (np_empty junk r c) r c.
Proof.
unfold well_shaped, np_empty. cbn. split; [reflexivity|].
split; [now rewrite length_map, length_seq|].
apply Forall_forall. intros row Hin. apply list_elem_of_fmap in Hin as (j & -> & _).
now rewrite length_map, length_seq.
Qed.

Lemma well_shaped_column_fill (f : nat -> float) (m : ndarray2) (r c i : nat) :
well_shaped m r c ->
well_shaped (mk_ndarray2 (shape1 m) (imap (fun k row => <[i := f k]> row) (rows m))) r c.
Proof.
intros (Hs & Hl & Hrows). unfold well_shaped. cbn.
split; [exact Hs|]. split; [now rewrite length_imap|].
apply Forall_forall. intros row Hin. apply list_elem_of_lookup_1 in Hin as [k Hk].
rewrite list_lookup_imap in Hk. destruct (rows m !! k) as [row0|] eqn:Hrow; [|discriminate].
cbn in Hk. injection Hk as <-. rewrite length_insert.
rewrite Forall_forall in Hrows. apply Hrows. eapply list_elem_of_lookup_2. eassumption.
Qed.

Section finish.
Variable self : Dev.t.
Variable nperc : nat.
Variable combos : list ScenarioIndex.
Let scen := Dev.scenario self.
Let fdc := FlowDurationCurveRecorder._fdc (Dev.super self).
Let lower := Dev._lower_target_fdc self.
Let upper := Dev._upper_target_fdc self.
Hypothesis fdc_shape : well_shaped fdc nperc (length combos).
Hypothesis lower_shape : well_shaped lower nperc (shape1 lower).
Hypothesis upper_shape : well_shaped upper nperc (shape1 upper).

Lemma scenario_step (i : nat) (sc : ScenarioIndex) (jl ju : nat) (deviations : ndarray2) :
(i < length combos)%nat ->
chosen_column scen lower sc = Some jl ->
chosen_column scen upper sc = Some ju ->
well_shaped deviations nperc (length combos) ->
Dev.scenario_deviations self i sc deviations
= Ok (mk_ndarray2 (shape1 deviations)
      (imap (fun k row => <[i := cell_deviation fdc lower upper jl ju k i]> row)
         (rows deviations))).
Proof.
intros Hi Hjl Hju Hdev. unfold Dev.scenario_deviations, chosen_column in *.
fold scen fdc lower upper.
destruct (match scen with
        | Some s => vget (_indices sc) (Scenario.scenario_index s)
        | None => Ok (global_id sc)
        end) as [j|e]; cbn [bind] in *; [|discriminate].
unfold Dev.target_column.
destruct (py_index (if Nat.eqb (shape1 lower) 1 then 0 else j) (shape1 lower))
as [nl|e] eqn:Hnl; [|discriminate].
destruct (py_index (if Nat.eqb (shape1 upper) 1 then 0 else j) (shape1 upper))
as [nu|e] eqn:Hnu; [|discriminate].
injection Hjl as ->. injection Hju as ->. cbn [bind].
apply py_index_bound in Hnl, Hnu.
assert (Hlen : length (column lower jl) = shape0 deviations).
{ unfold column, shape0. rewrite length_map.
destruct lower_shape as (_ & -> & _). now destruct Hdev as (_ & -> & _). }
rewrite Hlen. apply column_fill.
- intros k m' Hk.
assert (Hk' : (k < nperc)%nat)
  by (unfold shape0 in Hk; destruct Hdev as (_ & <- & _); exact Hk).
destruct (well_shaped_mcell fdc _ _ k i fdc_shape Hk' Hi) as [a Ha].
destruct (well_shaped_mcell lower _ _ k jl lower_shape Hk' Hnl) as [l Hl].
destruct (well_shaped_mcell upper _ _ k ju upper_shape Hk' Hnu) as [u Hu].
rewrite (deviation_cell_ok fdc _ _ k i m' a l u Ha
           (column_lookup upper ju k u Hu) (column_lookup lower jl k l Hl)).
unfold cell_deviation. now rewrite Ha, Hl, Hu.
- destruct Hdev as (_ & _ & Hrows). eapply Forall_impl; [exact Hrows|].
intros row Hrow. cbn in Hrow. lia.
Qed.

Hypothesis columns_exist :
forall sc, sc ∈ combos ->
is_Some (chosen_column scen lower sc) /\ is_Some (chosen_column scen upper sc).

Lemma scenario_loop (c : nat) (start : ndarray2) :
(c <= length combos)%nat -> well_shaped start nperc (length combos) ->
exists deviations,
for_loop (fun i s => match combos !! i with
                     | Some x => Dev.scenario_deviations self i x s
                     | None => Ok s
                     end) 0 c start = Ok deviations
/\ filled_to scen fdc lower upper nperc combos c deviations.
Proof.
intros Hc Hstart. induction c as [|c IH].
- exists start. split; [reflexivity|]. split; [exact Hstart|]. intros; lia.
- destruct IH as (dev & Hrun & Hshape & Hcells); [lia|].
rewrite for_loop_snoc, Hrun. cbn [bind]. rewrite Nat.add_0_l.
destruct (lookup_lt_is_Some_2 combos c ltac:(lia)) as [sc Hsc]. rewrite Hsc.
destruct (columns_exist sc (list_elem_of_lookup_2 _ _ _ Hsc)) as [[jl Hjl] [ju Hju]].
rewrite (scenario_step c sc jl ju dev ltac:(lia) Hjl Hju Hshape).
eexists. split; [reflexivity|]. split; [now apply well_shaped_column_fill|].
intros i sc' jl' ju' k Hi Hk Hsc' Hjl' Hju'.
rewrite mcell_column_fill.
+ destruct (decide (i = c)) as [->|Hne].
  * rewrite Hsc in Hsc'. injection Hsc' as <-. congruence.
  * apply (Hcells i sc'); try assumption. lia.
+ unfold shape0. destruct Hshape as (_ & -> & _). exact Hk.
+ destruct Hshape as (_ & _ & Hrows). eapply Forall_impl; [exact Hrows|].
  intros row Hrow. cbn in Hrow. lia.
Qed.
End finish.

Lemma deviation_finish_ok (np_percentile : percentile_fn) (junk : nat -> nat -> float)
  (model : Model) (self : Dev.t) (fdc : ndarray2) :
let lower := Dev._lower_target_fdc self in
let upper := Dev._upper_target_fdc self in
let base := Dev.super self in
np_percentile (NumpyArrayNodeRecorder._data (FlowDurationCurveRecorder.super base))
  (FlowDurationCurveRecorder._percentiles base) = Ok fdc ->
well_shaped fdc (shape0 lower) (ncomb model) ->
well_shaped lower (shape0 lower) (shape1 lower) ->
well_shaped upper (shape0 lower) (shape1 upper) ->
(forall sc, sc ∈ combinations model ->
   is_Some (chosen_column (Dev.scenario self) lower sc)
   /\ is_Some (chosen_column (Dev.scenario self) upper sc)) ->
exists finished,
  Dev.finish np_percentile junk model self = Ok finished
  /\ FlowDurationCurveRecorder._fdc (Dev.super finished) = fdc
  /\ filled_to (Dev.scenario self) fdc lower upper (shape0 lower)
       (combinations model) (ncomb model) (Dev._fdc_deviations finished).
Proof.
intros lower upper base Hfdc Hshape Hlower Hupper Hcols.
unfold Dev.finish, FlowDurationCurveRecorder.finish. fold base. rewrite Hfdc. cbn [bind].
rewrite for_enumerate_as_loop. unfold for_range.
set (self' := Dev.with_super self (FlowDurationCurveRecorder.with_fdc base fdc)).
destruct (scenario_loop self' (shape0 lower) (combinations model)
            Hshape Hlower Hupper Hcols (ncomb model)
            (np_empty junk (shape0 lower) (ncomb model)) (le_n _)
            (np_empty_well_shaped _ _ _)) as (dev & Hrun & Hfilled).
unfold ncomb in *. cbn [Dev._lower_target_fdc Dev.with_super self'].
fold lower. rewrite Hrun. cbn [bind].
eexists. split; [reflexivity|]. split; [reflexivity|]. exact Hfilled.
Qed.
End DeviationFacts.

(** ** Names of the deviation recorder *)

Module Dev := FlowDurationCurveDeviationRecorder.

(** ** The claims *)

(** C10. An [AggregatedRecorder] built with neither [agg_func] nor
    [recorder_agg_func] raises [ValueError] in its constructor, although the
    same keywords give the base [Recorder] its default scenario aggregation,
    the mean: the default does not reach the recorder aggregation function. *)
Theorem AggregatedRecorder_init_requires_agg_func :
  forall (R : Type) (recorders : list R) (kw : kwargs),
    kw_recorder_agg_func kw = None ->
    kw_agg_func kw = None ->
    AggregatedRecorder.__init__ recorders kw = Raise ValueError
    /\ (kw_is_objective kw = None ->
        exists base, RecorderImpl.__init__ kw = Ok base
                     /\ _func (_scenario_aggregator base) = MEAN).
Proof.
  intros R recorders kw Hr Ha. split.
  - unfold AggregatedRecorder.__init__. now rewrite Hr, Ha.
  - intros Ho. unfold RecorderImpl.__init__. rewrite Ho, Ha. simpl. eauto.
Qed.

Lemma AggregatedRecorder_init_requires_agg_func_witness :
  kw_recorder_agg_func no_kwargs = None
  /\ kw_agg_func no_kwargs = None
  /\ AggregatedRecorder.__init__ ([] : list AnyRecorder) no_kwargs = Raise ValueError.
Proof.
  split; [reflexivity|]. split; [reflexivity|].
  exact (proj1 (AggregatedRecorder_init_requires_agg_func
                  AnyRecorder [] no_kwargs eq_refl eq_refl)).
Defined.

(** Either keyword, when it names a built-in reduction, is enough. *)
Lemma AggregatedRecorder_init_with_agg_func :
  forall (R : Type) (recorders : list R),
    (exists r, AggregatedRecorder.__init__ recorders
                 {| kw_agg_func := Some (PyStr "sum"); kw_recorder_agg_func := None;
                    kw_temporal_agg_func := None; kw_ignore_nan := None;
                    kw_is_objective := None; kw_is_constraint := None;
                    kw_epsilon := None |} = Ok r
               /\ AggregatedRecorder._recorder_agg_func r = SUM
               /\ _func (_scenario_aggregator (AggregatedRecorder.super r)) = SUM)
    /\ (exists r, AggregatedRecorder.__init__ recorders
                    {| kw_agg_func := None; kw_recorder_agg_func := Some (PyStr "Max");
                       kw_temporal_agg_func := None; kw_ignore_nan := None;
                       kw_is_objective := None; kw_is_constraint := None;
                       kw_epsilon := None |} = Ok r
                  /\ AggregatedRecorder._recorder_agg_func r = MAX
                  /\ _func (_scenario_aggregator (AggregatedRecorder.super r)) = MEAN).
Proof. intros R recorders. split; eexists; repeat split. Qed.

(** C2. On a vector, [ignore_nan] removes the NaN entries before the
    reduction: the mean of [1, NaN, 3] is [2], and NaN without the flag. On a
    matrix the selection of the entries that are not NaN yields a flat array,
    which the two-dimensional buffer of [aggregate_2d] refuses: with
    [ignore_nan] set the method raises for every aggregator, matrix and axis,
    where without the flag it returns one entry per column. *)
Theorem aggregate_ignore_nan_behaviour :
  let mean := {| _user_func := None; _func := MEAN |} in
  (forall agg data,
      AggregatorImpl.aggregate_1d agg data true
      = AggregatorImpl.aggregate_1d agg (drop_nan data) false)
  /\ AggregatorImpl.aggregate_1d mean [1; nan; 3]%float true = Ok 2%float
  /\ AggregatorImpl.aggregate_1d mean [1; nan; 3]%float false = Ok nan
  /\ (forall agg data axis,
         AggregatorImpl.aggregate_2d agg data axis true = Raise ValueError)
  /\ AggregatorImpl.aggregate_2d mean
       (mk_ndarray2 2 [[1; nan]; [3; 4]]%float) 0 true = Raise ValueError
  /\ AggregatorImpl.aggregate_2d mean
       (mk_ndarray2 2 [[1; nan]; [3; 4]]%float) 0 false = Ok [2; nan]%float.
Proof.
  intros mean. repeat split.
Qed.

(** C8. A [NumpyArrayIndexParameterRecorder] has no [values] of its own: in
    every state, and so after any run, [values()] resolves to the abstract
    method of [Recorder] and raises, and so does [aggregated_value()]. *)
Theorem NumpyArrayIndexParameterRecorder_values_not_implemented :
  forall (model : Model) (r : NumpyArrayIndexParameterRecorder.t),
    values model (IsNumpyArrayIndexParameterRecorder r) = Raise NotImplementedError
    /\ aggregated_value model (IsNumpyArrayIndexParameterRecorder r)
       = Raise NotImplementedError.
Proof. intros model r. split; reflexivity. Qed.

(** C9. [aggregated_value()] reduces [values()] with the scenario aggregator
    and never filters NaN, whatever the [ignore_nan] flag of the recorder: a
    NaN among the values makes the sum and the mean NaN. *)
Theorem aggregated_value_never_filters_nan :
  forall (model : Model) (self : AnyRecorder) (v : list float),
    values model self = Ok v ->
    aggregated_value model self
    = AggregatorImpl.aggregate_1d (_scenario_aggregator (recorder_of self)) v false
    /\ ((exists x, In x v /\ np_isnan x = true) ->
        _func (_scenario_aggregator (recorder_of self)) = SUM
        \/ _func (_scenario_aggregator (recorder_of self)) = MEAN ->
        aggregated_value model self = Ok nan).
Proof.
  intros model self v Hv.
  assert (Hagg : aggregated_value model self
                 = AggregatorImpl.aggregate_1d (_scenario_aggregator (recorder_of self)) v false).
  { unfold aggregated_value, RecorderImpl.aggregated_value. now rewrite Hv. }
  split; [exact Hagg|].
  intros (x & Hin & Hnan) Hfunc. rewrite Hagg.
  apply is_nan_eq in Hnan. subst x.
  unfold AggregatorImpl.aggregate_1d.
  destruct Hfunc as [-> | ->].
  - now rewrite np_sum_has_nan.
  - now rewrite np_mean_has_nan.
Qed.

Lemma aggregated_value_never_filters_nan_witness :
  ignore_nan (recorder_of nan_recorder_example) = true
  /\ values two_scenarios nan_recorder_example = Ok [1; nan]%float
  /\ (exists x, In x [1; nan]%float /\ np_isnan x = true)
  /\ aggregated_value two_scenarios nan_recorder_example = Ok nan.
Proof.
  split; [reflexivity|]. split; [reflexivity|].
  assert (Hnan : exists x, In x [1; nan]%float /\ np_isnan x = true).
  { exists nan. split; [right; left; reflexivity | reflexivity]. }
  split; [exact Hnan|].
  exact (proj2 (aggregated_value_never_filters_nan two_scenarios nan_recorder_example
                  [1; nan]%float eq_refl) Hnan (or_intror eq_refl)).
Defined.

(** C7. Over a non-empty list of child recorders, [AggregatedRecorder.values()]
    folds the children's vectors entry by entry, one entry per scenario: the
    sum from zero, the product from one, the maximum from minus infinity, the
    minimum from plus infinity, the mean as the sum divided by the number of
    recorders; any other code hands the stacked vectors and the axis [0] to
    the custom callable. Children producing [1, 2] and [3, 4] give [4, 6] for
    the sum and [2, 3] for the mean. *)
Theorem AggregatedRecorder_values_elementwise :
  (forall (model : Model) (r : AggregatedRecorder.t AnyRecorder) (vs : list (list float)),
    AggregatedRecorder.recorders r <> [] ->
    Z.of_nat (length (AggregatedRecorder.recorders r)) < 2 ^ 53 ->
    Forall2 (fun child v => values model child = Ok v /\ length v = ncomb model)
      (AggregatedRecorder.recorders r) vs ->
    let n := ncomb model in
    values model (IsAggregatedRecorder r)
    = match AggregatedRecorder._recorder_agg_func r with
      | SUM => Ok (elementwise add 0 n vs)
      | PRODUCT => Ok (elementwise mul 1 n vs)
      | MAX => Ok (elementwise (fun x y => if (x <? y)%float then y else x) neg_infinity n vs)
      | MIN => Ok (elementwise (fun x y => if (y <? x)%float then y else x) infinity n vs)
      | MEAN => Ok (map (fun x => x / float_of_Z (Z.of_nat (length vs)))%float
                      (elementwise add 0 n vs))
      | MEDIAN | CUSTOM =>
          match AggregatedRecorder.recorder_agg_func r with
          | Some f => call_axis f vs 0
          | None => Raise TypeError
          end
      end)
  /\ values two_scenarios (IsAggregatedRecorder (example_aggregated SUM))
     = Ok [4; 6]%float
  /\ values two_scenarios (IsAggregatedRecorder (example_aggregated MEAN))
     = Ok [2; 3]%float.
Proof.
  split; [|split; reflexivity].
  intros model r vs Hne Hsmall Hall n.
  cbn [values]. unfold AggregatedRecorder.values.
  destruct (AggregatedRecorder.recorders r) as [|c cs] eqn:Hrs; [congruence|].
  cbn [length Nat.eqb]. rewrite <- Hrs in *. fold n.
  assert (Hlen : length vs = length (AggregatedRecorder.recorders r))
    by (symmetry; eapply Forall2_length; eassumption).
  unfold elementwise, fold_entry.
  destruct (AggregatedRecorder._recorder_agg_func r).
  - rewrite replicate_as_map.
    now apply (combine_ok _ _ _ _ vs (fun _ => 0%float)).
  - rewrite replicate_as_map.
    now apply (combine_ok _ _ _ _ vs (fun _ => infinity)).
  - rewrite replicate_as_map.
    now apply (combine_ok _ _ _ _ vs (fun _ => neg_infinity)).
  - rewrite replicate_as_map.
    rewrite (combine_ok _ _ _ _ vs (fun _ => 0%float)) by assumption. cbn [bind].
    set (sums := map _ (seq 0 n)).
    replace n with (length sums) at 1 by (subst sums; now rewrite length_map, length_seq).
    rewrite divide_all. now rewrite Hlen, Hrs.
  - rewrite (sequence_ok _ _ vs); [reflexivity|].
    eapply Forall2_impl; [eassumption|]. now intros ? ? [? _].
  - rewrite replicate_as_map.
    now apply (combine_ok _ _ _ _ vs (fun _ => 1%float)).
  - rewrite (sequence_ok _ _ vs); [reflexivity|].
    eapply Forall2_impl; [eassumption|]. now intros ? ? [? _].
Qed.

Lemma AggregatedRecorder_values_elementwise_witness :
  AggregatedRecorder.recorders (example_aggregated MAX) <> []
  /\ Z.of_nat (length (AggregatedRecorder.recorders (example_aggregated MAX))) < 2 ^ 53
  /\ Forall2 (fun child v => values two_scenarios child = Ok v
                              /\ length v = ncomb two_scenarios)
       (AggregatedRecorder.recorders (example_aggregated MAX))
       [[1; 2]; [3; 4]]%float
  /\ values two_scenarios (IsAggregatedRecorder (example_aggregated MAX))
     = Ok [3; 4]%float.
Proof.
  assert (H1 : AggregatedRecorder.recorders (example_aggregated MAX) <> [])
    by discriminate.
  assert (H2 : Z.of_nat (length (AggregatedRecorder.recorders (example_aggregated MAX)))
               < 2 ^ 53) by reflexivity.
  assert (H3 : Forall2 (fun child v => values two_scenarios child = Ok v
                                       /\ length v = ncomb two_scenarios)
                 (AggregatedRecorder.recorders (example_aggregated MAX))
                 [[1; 2]; [3; 4]]%float).
  { repeat constructor. }
  split; [exact H1|]. split; [exact H2|]. split; [exact H3|].
  exact (proj1 AggregatedRecorder_values_elementwise
           two_scenarios (example_aggregated MAX) [[1; 2]; [3; 4]]%float H1 H2 H3).
Defined.

(** C6. After a run of [N] timesteps, [finish()] of the mean-flow and of the
    deficit-frequency recorder divides what each scenario has accumulated by
    the timestep count that the timestepper reports, [N]: [values()] is the
    accumulated total of each scenario divided by the number of timesteps. *)
Theorem mean_recorders_divide_by_timestep_count :
  forall (model : Model) (ticks : list (Tick AbstractNode)),
    wf_combinations model ->
    (0 < length ticks)%nat ->
    Z.of_nat (length ticks) < 2 ^ 31 ->
    Forall (fun tick => length (_flow (tick_entity tick)) = ncomb model) ticks ->
    let count := float_of_Z (Z.of_nat (length ticks)) in
    (forall self : MeanFlowNodeRecorder.t,
        exists ready finished,
          MeanFlowNodeRecorder.setup model self = Ok ready
          /\ run MeanFlowNodeRecorder.with_node MeanFlowNodeRecorder.after
               MeanFlowNodeRecorder.reset MeanFlowNodeRecorder.finish
               model ticks ready = Ok finished
          /\ values model (IsMeanFlowNodeRecorder finished)
             = Ok (map (fun i =>
                          mean_flow_total (MeanFlowNodeRecorder.factor self) ticks i / count)%float
                     (seq 0 (ncomb model))))
    /\ (forall self : DeficitFrequencyNodeRecorder.t,
           exists ready finished,
             DeficitFrequencyNodeRecorder.setup model self = Ok ready
             /\ run BaseConstantNodeRecorder.with_node DeficitFrequencyNodeRecorder.after
                  DeficitFrequencyNodeRecorder.reset DeficitFrequencyNodeRecorder.finish
                  model ticks ready = Ok finished
             /\ values model (IsDeficitFrequencyNodeRecorder finished)
                = Ok (map (fun i => deficit_count model ticks i / count)%float
                        (seq 0 (ncomb model)))).
Proof.
  intros model ticks Hwf Hpos Hint Hflows count. split.
  - intros self.
    set (ready := MeanFlowNodeRecorder.with_super self
                    (BaseConstantNodeRecorder.with_values (MeanFlowNodeRecorder.super self)
                       (replicate (ncomb model) 0%float))).
    destruct (MeanFlowNodeRecorder_steps model Hwf ticks 0%nat ready (fun _ => 0%float)
                Hflows (replicate_as_map _ _)) as (after_run & Hrun & Hfac & Hval).
    exists ready. eexists. split; [reflexivity|].
    unfold run.
    assert (Hreset : MeanFlowNodeRecorder.reset ready = Ok ready).
    { unfold MeanFlowNodeRecorder.reset, BaseConstantNodeRecorder.reset. cbn.
      now rewrite length_replicate. }
    rewrite Hreset. cbn [bind]. rewrite Hrun. cbn [bind].
    unfold MeanFlowNodeRecorder.finish.
    rewrite divide_by_index_ok by assumption. cbn [bind].
    split; [reflexivity|]. cbn. rewrite Hval, map_map. reflexivity.
  - intros self.
    set (ready := BaseConstantNodeRecorder.with_values self
                    (replicate (ncomb model) 0%float)).
    destruct (DeficitFrequencyNodeRecorder_steps model Hwf ticks 0%nat ready
                (fun _ => 0%float) Hflows (replicate_as_map _ _))
      as (after_run & Hrun & Hval).
    exists ready. eexists. split; [reflexivity|].
    unfold run.
    assert (Hreset : DeficitFrequencyNodeRecorder.reset ready = Ok ready).
    { unfold DeficitFrequencyNodeRecorder.reset, BaseConstantNodeRecorder.reset. cbn.
      now rewrite length_replicate. }
    rewrite Hreset. cbn [bind]. rewrite Hrun. cbn [bind].
    unfold DeficitFrequencyNodeRecorder.finish.
    rewrite divide_by_index_ok by assumption. cbn [bind].
    split; [reflexivity|]. cbn. rewrite Hval, map_map. reflexivity.
Qed.

Lemma two_scenarios_wf : wf_combinations two_scenarios.
Proof.
  intros i sc. destruct i as [|[|i]]; cbn; intros H; inversion H; reflexivity.
Defined.

Lemma mean_recorders_divide_by_timestep_count_witness :
  wf_combinations two_scenarios
  /\ (0 < length example_node_ticks)%nat
  /\ Z.of_nat (length example_node_ticks) < 2 ^ 31
  /\ Forall (fun tick => length (_flow (tick_entity tick)) = ncomb two_scenarios)
       example_node_ticks
  /\ (exists ready finished,
         MeanFlowNodeRecorder.setup two_scenarios example_mean_flow_recorder = Ok ready
         /\ run MeanFlowNodeRecorder.with_node MeanFlowNodeRecorder.after
              MeanFlowNodeRecorder.reset MeanFlowNodeRecorder.finish
              two_scenarios example_node_ticks ready = Ok finished
         /\ values two_scenarios (IsMeanFlowNodeRecorder finished) = Ok [2; 5]%float)
  /\ (exists ready finished,
         DeficitFrequencyNodeRecorder.setup two_scenarios example_constant_node_recorder
         = Ok ready
         /\ run BaseConstantNodeRecorder.with_node DeficitFrequencyNodeRecorder.after
              DeficitFrequencyNodeRecorder.reset DeficitFrequencyNodeRecorder.finish
              two_scenarios example_node_ticks ready = Ok finished
         /\ values two_scenarios (IsDeficitFrequencyNodeRecorder finished)
            = Ok [1; 0]%float).
Proof.
  assert (H2 : (0 < length example_node_ticks)%nat) by (cbn; lia).
  assert (H3 : Z.of_nat (length example_node_ticks) < 2 ^ 31) by reflexivity.
  assert (H4 : Forall (fun tick => length (_flow (tick_entity tick)) = ncomb two_scenarios)
                 example_node_ticks) by (repeat constructor).
  split; [exact two_scenarios_wf|]. split; [exact H2|]. split; [exact H3|].
  split; [exact H4|].
  pose proof (mean_recorders_divide_by_timestep_count two_scenarios example_node_ticks
                two_scenarios_wf H2 H3 H4) as [Hmean Hdeficit].
  split.
  - exact (Hmean example_mean_flow_recorder).
  - exact (Hdeficit example_constant_node_recorder).
Defined.

(** C5. The annual count recorder, scenario by scenario. At a timestep whose
    year differs from the tracked one, and unless no year has been tracked
    yet, [after()] adds one to the count exactly when the maximum tracked for
    the year that ends reached the threshold; it then restarts the maximum
    from zero, and in every case raises it to the index of the timestep.
    [finish()] makes the same check once more for the year in progress. Over
    a run of whole years the final count is the number of years whose
    maximum reached the threshold: 2 for the yearly maxima 1, 3, 2 and the
    threshold 2. *)
Theorem annual_count_counts_years :
  (forall model : Model,
      wf_combinations model ->
      (forall (self : AC.t) (count current_max : nat -> Z) (y : Z)
              (ts : Timestep) (param : IndexParameter),
          annual_state model self count current_max y ->
          let boundary := negb (year ts =? y) in
          exists self',
            AC.after (set_current model ts) (AC.with_param self param) = Ok self'
            /\ annual_state model self'
                 (fun i => if boundary && negb (y =? -1)
                           then (if AC.threshold self <=? current_max i
                                 then wrap_int (count i + 1) else count i)
                           else count i)
                 (fun i => Z.max (if boundary then 0 else current_max i)
                             (index_at model i param))
                 (if boundary then year ts else y))
      /\ (forall (self : AC.t) (count current_max : nat -> Z) (y : Z),
             annual_state model self count current_max y ->
             exists self',
               AC.finish model self = Ok self'
               /\ annual_state model self'
                    (fun i => if AC.threshold self <=? current_max i
                              then wrap_int (count i + 1) else count i)
                    current_max y)
      /\ (forall (self : AC.t) (blocks : list year_block),
             years_change (-1) blocks ->
             blocks <> [] ->
             Z.of_nat (length blocks) < 2 ^ 31 ->
             exists ready finished,
               AC.setup model self = Ok ready
               /\ run AC.with_param AC.after AC.reset AC.finish
                    model (calendar blocks) ready = Ok finished
               /\ values model (IsAnnualCountIndexParameterRecorder finished)
                  = Ok (map (fun i => float_of_Z
                                        (Z.of_nat (years_reaching model (AC.threshold self)
                                                     i blocks)))
                          (seq 0 (ncomb model)))))
  /\ (exists ready finished,
         AC.setup one_scenario (example_annual_count 2) = Ok ready
         /\ run AC.with_param AC.after AC.reset AC.finish
              one_scenario (calendar example_years) ready = Ok finished
         /\ map (year_max one_scenario 0) (map snd example_years) = [1; 3; 2]
         /\ values one_scenario (IsAnnualCountIndexParameterRecorder finished)
            = Ok [2%float]).
Proof.
  split.
  - intros model Hwf. split; [|split].
    + intros self count current_max y ts param Hst boundary.
      destruct (AnnualCountFacts.step_tick model Hwf self count current_max y ts param Hst)
        as (self' & Hafter & _ & Hst').
      exists self'. split; assumption.
    + intros self count current_max y Hst.
      destruct (AnnualCountFacts.annual_finish_ok model self count current_max y Hst) as (self' & Hfin & _ & Hst').
      exists self'. split; assumption.
    + intros self blocks Hyears Hne Hlen.
      set (ready := {| AC.super := AC.super self;
                       AC.threshold := AC.threshold self;
                       AC._count := replicate (ncomb model) 0;
                       AC._current_year := AC._current_year self;
                       AC._current_max := replicate (ncomb model) 0 |}).
      set (fresh := {| AC.super := AC.super self;
                       AC.threshold := AC.threshold self;
                       AC._count := replicate (ncomb model) 0;
                       AC._current_year := -1;
                       AC._current_max := replicate (ncomb model) 0 |}).
      assert (Hreset : AC.reset ready = Ok fresh).
      { unfold AC.reset, ready, fresh. cbn. now rewrite length_replicate. }
      assert (Hfresh : annual_state model fresh (fun _ => 0) (fun _ => 0) (-1)).
      { unfold annual_state, fresh. cbn. rewrite <- replicate_as_map. auto. }
      destruct (AnnualCountFacts.all_years model Hwf blocks 0%nat fresh _ _ _ Hfresh Hyears)
        as (after_run & count' & current_max' & y' & Hrun & Hth & Hst' & Hlast & Hsum).
      { intros i. cbn. unfold pending_year. cbn.
        change (2 ^ 31) with 2147483648 in Hlen. lia. }
      destruct (AnnualCountFacts.annual_finish_ok (end_of_run model (length (calendar blocks))) after_run
                  count' current_max' y' Hst') as (finished & Hfin & _ & Hst'').
      exists ready, finished. split; [reflexivity|]. split.
      * unfold run. rewrite Hreset. cbn [bind]. rewrite Hrun. cbn [bind]. exact Hfin.
      * cbn [values]. unfold AC.values. f_equal.
        destruct Hst'' as (Hc & _ & _).
        change (ncomb (end_of_run model (length (calendar blocks)))) with (ncomb model) in Hc.
        rewrite Hc, map_map. apply map_ext_in. intros i _. f_equal.
        destruct (Hsum i) as [H0 Heq]. rewrite Hth. change (AC.threshold fresh) with (AC.threshold self) in *.
        unfold pending_year in Heq. cbn in Heq.
        replace (y' =? -1) with false in Heq
          by (symmetry; apply Z.eqb_neq; apply Hlast; exact Hne).
        pose proof (Nat2Z.is_nonneg (years_reaching model (AC.threshold self) i blocks)).
        assert (Z.of_nat (years_reaching model (AC.threshold self) i blocks)
                <= Z.of_nat (length blocks)).
        { unfold years_reaching. apply inj_le. apply length_filter. }
        change (2 ^ 31) with 2147483648 in Hlen.
        destruct (AC.threshold self <=? current_max' i).
        -- rewrite AnnualCountFacts.wrap_int_small by lia. lia.
        -- lia.
  - eexists. eexists. split; [reflexivity|]. split; [cbv; reflexivity|].
    split; cbv; reflexivity.
Qed.

Lemma one_scenario_wf : wf_combinations one_scenario.
Proof.
  intros i sc. destruct i as [|i]; cbn; intros H; inversion H; reflexivity.
Defined.

Lemma annual_count_counts_years_witness :
  wf_combinations one_scenario
  /\ years_change (-1) example_years
  /\ example_years <> []
  /\ Z.of_nat (length example_years) < 2 ^ 31
  /\ (exists ready finished,
         AC.setup one_scenario (example_annual_count 3) = Ok ready
         /\ run AC.with_param AC.after AC.reset AC.finish
              one_scenario (calendar example_years) ready = Ok finished
         /\ values one_scenario (IsAnnualCountIndexParameterRecorder finished)
            = Ok [1%float]).
Proof.
  assert (H1 : years_change (-1) example_years).
  { cbn. repeat split; discriminate. }
  assert (H2 : example_years <> []) by discriminate.
  assert (H3 : Z.of_nat (length example_years) < 2 ^ 31) by reflexivity.
  split; [exact one_scenario_wf|]. split; [exact H1|]. split; [exact H2|].
  split; [exact H3|].
  exact (proj2 (proj2 (proj1 annual_count_counts_years one_scenario one_scenario_wf))
           (example_annual_count 3) example_years H1 H2 H3).
Defined.



(** C1. Replay fails for the rolling mean of a flow. The recorder has no
    [reset()] of its own, so the write cursor and the circular buffer survive
    from one run to the next. With a window of two timesteps and the flows
    1, 2, 3, the first run stores the means 1, 1.5, 2.5; the second run,
    started from [reset()] over the same flows, starts writing at slot 1 and
    stores 3, 1.5, 2.5. [values()], the current flow of the node, is the same
    after both runs; the buffered data is not. *)
Theorem RollingMeanFlowNodeRecorder_second_run_differs :
  forall junk : nat -> nat -> float,
  exists ready first second,
    RM.setup junk (single_scenario 3) (example_rolling_mean 2) = Ok ready
    /\ run RM.with_node RM.after RM.reset RM.finish (single_scenario 3)
         (map flow_tick [1; 2; 3]%float) ready = Ok first
    /\ run RM.with_node RM.after RM.reset RM.finish (single_scenario 3)
         (map flow_tick [1; 2; 3]%float) first = Ok second
    /\ RM.data first = mk_ndarray2 1 [[1]; [1.5]; [2.5]]%float
    /\ RM.data second = mk_ndarray2 1 [[3]; [1.5]; [2.5]]%float
    /\ RM.position first = 1
    /\ values (single_scenario 3) (IsRollingMeanFlowNodeRecorder first)
       = values (single_scenario 3) (IsRollingMeanFlowNodeRecorder second)
    /\ RM.data first <> RM.data second.
Proof.
  intros junk. eexists. eexists. eexists.
  split; [cbv; reflexivity|]. split; [cbv; reflexivity|]. split; [cbv; reflexivity|].
  split; [reflexivity|]. split; [reflexivity|]. split; [reflexivity|].
  split; [reflexivity|]. discriminate.
Qed.




(** C4. The rolling mean of a flow does not store the aggregate of the
    partial history on a second run. With a window of two timesteps and the
    flows 1, 2, 3, the first run stores the means 1, 1.5, 2.5, which are the
    means of the windows of the claim; the recorder has no [reset()], so the
    second run over the same flows finds the sample 3 of the first run in
    the buffer and stores 3 at the first timestep, where the partial history
    of length one gives 1. The rolling window of a parameter, which has a
    [reset()], stores 1, 1.5, 2.5 on both runs. *)
Theorem RollingMeanFlowNodeRecorder_second_run_window_is_stale :
  (forall junk : nat -> nat -> float,
      exists ready first second,
        RM.setup junk (single_scenario 3) (example_rolling_mean 2) = Ok ready
        /\ run RM.with_node RM.after RM.reset RM.finish (single_scenario 3)
             (map flow_tick [1; 2; 3]%float) ready = Ok first
        /\ run RM.with_node RM.after RM.reset RM.finish (single_scenario 3)
             (map flow_tick [1; 2; 3]%float) first = Ok second
        /\ rows (RM.data first) = [[1]; [1.5]; [2.5]]%float
        /\ rows (RM.data second) = [[3]; [1.5]; [2.5]]%float)
  /\ map (fun t => AggregatorImpl.aggregate_2d {| _user_func := None; _func := MEAN |}
                     (mk_ndarray2 1 (window_at [] 2 t [[1]; [2]; [3]]%float)) 0 false)
       [0; 1; 2]%nat
     = [Ok [1]; Ok [1.5]; Ok [2.5]]%float
  /\ window_at [] 2 0 [[1]; [2]; [3]]%float = [[1]]%float
  /\ (exists ready first second,
         RW.setup no_junk (single_scenario 3) (example_rolling_window 2) = Ok ready
         /\ run RW.with_param RW.after RW.reset RW.finish (single_scenario 3)
              (map parameter_tick [1; 2; 3]%float) ready = Ok first
         /\ run RW.with_param RW.after RW.reset RW.finish (single_scenario 3)
              (map parameter_tick [1; 2; 3]%float) first = Ok second
         /\ rows (RW.data first) = [[1]; [1.5]; [2.5]]%float
         /\ rows (RW.data second) = [[1]; [1.5]; [2.5]]%float).
Proof.
  split; [|split; [|split]].
  - intros junk. eexists. eexists. eexists.
    split; [cbv; reflexivity|]. split; [cbv; reflexivity|]. split; [cbv; reflexivity|].
    split; reflexivity.
  - reflexivity.
  - reflexivity.
  - eexists. eexists. eexists.
    split; [cbv; reflexivity|]. split; [cbv; reflexivity|]. split; [cbv; reflexivity|].
    split; reflexivity.
Qed.

(** * Further properties of the module *)


(** ** Names of aggregation functions and of objective directions *)

Lemma obj_direction_lookup_cases (key : string) :
  match _obj_direction_lookup key with
  | Ok MAXIMISE => In key ["maximize"; "maximise"; "max"]%string
  | Ok MINIMISE => In key ["minimise"; "minimize"; "min"]%string
  | Ok NONE => False
  | Raise e =>
      e = KeyError
      /\ ~ In key ["maximize"; "maximise"; "max"; "minimise"; "minimize"; "min"]%string
  end.
Proof.
  unfold _obj_direction_lookup.
  repeat match goal with
         | |- context [String.eqb key ?s] =>
             destruct (String.eqb_spec key s) as [->|?]; [simpl; tauto|]
         end.
  split; [reflexivity|]. simpl. intuition congruence.
Qed.

(** X1. Setting [is_objective] accepts [None] and the six spellings of the
    table, as they are written, and fails with [KeyError] on any other
    string. Reading the property back gives the British spelling of the
    direction, and setting what was read changes nothing. *)
Theorem is_objective_round_trip (self : Recorder) (value : option string) :
  match IsObjective.set value self with
  | Ok self' =>
      IsObjective.set (IsObjective.get self') self' = Ok self'
      /\ match value with
         | None => IsObjective.get self' = None
         | Some s =>
             (In s ["maximize"; "maximise"; "max"]%string
              /\ IsObjective.get self' = Some "maximise"%string)
             \/ (In s ["minimise"; "minimize"; "min"]%string
                 /\ IsObjective.get self' = Some "minimise"%string)
         end
  | Raise e =>
      e = KeyError
      /\ exists s, value = Some s
           /\ ~ In s ["maximize"; "maximise"; "max"; "minimise"; "minimize"; "min"]%string
  end.
Proof.
  unfold IsObjective.set. destruct value as [s|]; cbn [bind].
  - pose proof (obj_direction_lookup_cases s) as H.
    destruct (_obj_direction_lookup s) as [[| |]|e]; cbn [bind].
    + destruct H.
    + split; [reflexivity|]. left. split; [exact H|reflexivity].
    + split; [reflexivity|]. right. split; [exact H|reflexivity].
    + destruct H as [-> H]. split; [reflexivity|]. exists s. split; [reflexivity|exact H].
  - split; reflexivity.
Qed.

(** X2. The name [custom], in any letter case, is accepted by the
    constructor of [Aggregator], which then holds no callable: every
    aggregation with it raises [TypeError]. *)
Theorem Aggregator_custom_by_name_cannot_aggregate (s : string) :
  lower s = "custom"%string ->
  exists agg,
    AggregatorImpl.__init__ (PyStr s) = Ok agg
    /\ (forall data ignore_nan,
           AggregatorImpl.aggregate_1d agg data ignore_nan = Raise TypeError)
    /\ (forall data axis,
           AggregatorImpl.aggregate_2d agg data axis false = Raise TypeError).
Proof.
  intros Hs. unfold AggregatorImpl.__init__, AggregatorImpl.set_func. rewrite Hs.
  eexists. split; [reflexivity|]. split; reflexivity.
Qed.

Lemma Aggregator_custom_by_name_cannot_aggregate_witness :
  lower "Custom" = "custom"%string
  /\ exists agg,
       AggregatorImpl.__init__ (PyStr "Custom") = Ok agg
       /\ (forall data ignore_nan,
              AggregatorImpl.aggregate_1d agg data ignore_nan = Raise TypeError)
       /\ (forall data axis,
              AggregatorImpl.aggregate_2d agg data axis false = Raise TypeError).
Proof.
  split; [reflexivity|].
  exact (Aggregator_custom_by_name_cannot_aggregate "Custom" eq_refl).
Defined.

Lemma drop_nan_insert (l1 l2 : list float) (x : float) :
  is_nan x = true -> drop_nan (l1 ++ x :: l2) = drop_nan (l1 ++ l2).
Proof.
  intros Hx. unfold drop_nan. rewrite !filter_app, filter_cons.
  unfold np_isnan. rewrite Hx. cbn.
  destruct (decide (false = true)); [discriminate|reflexivity].
Qed.

(** X3. With [ignore_nan] set, [aggregate_1d] does not see the NaN entries
    of its input: a NaN put anywhere in the vector leaves the result, or the
    error, as it was, whatever the aggregation function. *)
Theorem aggregate_1d_ignores_inserted_nan (agg : Aggregator) (l1 l2 : list float)
    (x : float) :
  is_nan x = true ->
  AggregatorImpl.aggregate_1d agg (l1 ++ x :: l2) true
  = AggregatorImpl.aggregate_1d agg (l1 ++ l2) true.
Proof.
  intros Hx. unfold AggregatorImpl.aggregate_1d. now rewrite drop_nan_insert.
Qed.

Lemma aggregate_1d_ignores_inserted_nan_witness :
  is_nan nan = true
  /\ AggregatorImpl.aggregate_1d {| _user_func := None; _func := MAX |}
       ([1] ++ nan :: [3])%float true
     = AggregatorImpl.aggregate_1d {| _user_func := None; _func := MAX |}
         ([1] ++ [3])%float true.
Proof.
  split; [reflexivity|].
  exact (aggregate_1d_ignores_inserted_nan {| _user_func := None; _func := MAX |}
           [1%float] [3%float] nan eq_refl).
Defined.

(** ** Aggregation over recorders *)





(** X5. An [AggregatedRecorder] may be built over no recorder at all; its
    [values()] and its [aggregated_value()] then fail the assertion,
    whatever the aggregation functions. *)
Theorem AggregatedRecorder_without_children (model : Model) (kw : kwargs)
    (r : AggregatedRecorder.t AnyRecorder) :
  AggregatedRecorder.__init__ [] kw = Ok r ->
  values model (IsAggregatedRecorder r) = Raise AssertionError
  /\ aggregated_value model (IsAggregatedRecorder r) = Raise AssertionError.
Proof.
  intros Hinit. unfold AggregatedRecorder.__init__ in Hinit.
  apply bind_inv in Hinit as (code & _ & Hinit).
  apply bind_inv in Hinit as (base & _ & Hinit). injection Hinit as <-.
  assert (Hv : values model
                 (IsAggregatedRecorder
                    {| AggregatedRecorder.super := base;
                       AggregatedRecorder.recorder_agg_func := fst code;
                       AggregatedRecorder._recorder_agg_func := snd code;
                       AggregatedRecorder.recorders := [] |}) = Raise AssertionError)
    by reflexivity.
  split; [exact Hv|]. unfold aggregated_value, RecorderImpl.aggregated_value.
  now rewrite Hv.
Qed.

Lemma AggregatedRecorder_without_children_witness :
  exists r,
    AggregatedRecorder.__init__ []
      {| kw_agg_func := Some (PyStr "sum"); kw_recorder_agg_func := None;
         kw_temporal_agg_func := None; kw_ignore_nan := None;
         kw_is_objective := None; kw_is_constraint := None; kw_epsilon := None |} = Ok r
    /\ values two_scenarios (IsAggregatedRecorder r) = Raise AssertionError
    /\ aggregated_value two_scenarios (IsAggregatedRecorder r) = Raise AssertionError.
Proof.
  eexists. split; [reflexivity|].
  exact (AggregatedRecorder_without_children two_scenarios
           {| kw_agg_func := Some (PyStr "sum"); kw_recorder_agg_func := None;
              kw_temporal_agg_func := None; kw_ignore_nan := None;
              kw_is_objective := None; kw_is_constraint := None; kw_epsilon := None |}
           _ eq_refl).
Defined.

Lemma ltb_true_not_nan (x y : float) :
  (x <? y)%float = true -> is_nan x = false /\ is_nan y = false.
Proof.
  rewrite FloatAxioms.ltb_spec. unfold SFltb. intros H.
  split.
  - destruct (is_nan x) eqn:E; [|reflexivity].
    rewrite (is_nan_Prim2SF x E) in H. discriminate.
  - destruct (is_nan y) eqn:E; [|reflexivity].
    rewrite (is_nan_Prim2SF y E) in H. now destruct (Prim2SF x).
Qed.

Lemma fold_greater_not_nan (ys : list float) (init : float) :
  is_nan init = false ->
  is_nan (fold_left (fun x y => if (x <? y)%float then y else x) ys init) = false.
Proof.
  revert init. induction ys as [|y ys IH]; intros init Hinit; [exact Hinit|].
  cbn [fold_left]. apply IH.
  destruct (init <? y)%float eqn:E; [|exact Hinit]. now apply ltb_true_not_nan in E.
Qed.

Lemma fold_smaller_not_nan (ys : list float) (init : float) :
  is_nan init = false ->
  is_nan (fold_left (fun x y => if (y <? x)%float then y else x) ys init) = false.
Proof.
  revert init. induction ys as [|y ys IH]; intros init Hinit; [exact Hinit|].
  cbn [fold_left]. apply IH.
  destruct (y <? init)%float eqn:E; [|exact Hinit]. now apply ltb_true_not_nan in E.
Qed.

(** X6. With the maximum or the minimum as recorder aggregation,
    [AggregatedRecorder.values()] holds no NaN, whatever the children
    return: a NaN of a child never replaces the running value, and an entry
    where every child has a NaN stays at minus (plus) infinity. *)
Theorem AggregatedRecorder_extremum_skips_nan
    (model : Model) (r : AggregatedRecorder.t AnyRecorder) (vs : list (list float)) :
  AggregatedRecorder.recorders r <> [] ->
  Forall2 (fun child v => values model child = Ok v /\ length v = ncomb model)
    (AggregatedRecorder.recorders r) vs ->
  AggregatedRecorder._recorder_agg_func r = MAX
  \/ AggregatedRecorder._recorder_agg_func r = MIN ->
  exists v,
    values model (IsAggregatedRecorder r) = Ok v
    /\ length v = ncomb model
    /\ Forall (fun x => is_nan x = false) v.
Proof.
  intros Hne Hall Hf. cbn [values]. unfold AggregatedRecorder.values.
  destruct (AggregatedRecorder.recorders r) as [|c cs] eqn:Hrs; [congruence|].
  cbn [length Nat.eqb]. rewrite <- Hrs in *.
  destruct Hf as [-> | ->]; rewrite replicate_as_map.
  - rewrite (combine_ok _ _ _ _ vs (fun _ => neg_infinity)) by assumption.
    eexists. split; [reflexivity|]. split; [now rewrite length_map, length_seq|].
    apply Forall_forall. intros x Hx. apply list_elem_of_fmap in Hx as (i & -> & _).
    now apply fold_greater_not_nan.
  - rewrite (combine_ok _ _ _ _ vs (fun _ => infinity)) by assumption.
    eexists. split; [reflexivity|]. split; [now rewrite length_map, length_seq|].
    apply Forall_forall. intros x Hx. apply list_elem_of_fmap in Hx as (i & -> & _).
    now apply fold_smaller_not_nan.
Qed.

Lemma AggregatedRecorder_extremum_skips_nan_witness :
  AggregatedRecorder.recorders (example_extremum MAX) <> []
  /\ (exists v,
         values two_scenarios (IsAggregatedRecorder (example_extremum MAX)) = Ok v
         /\ length v = ncomb two_scenarios
         /\ Forall (fun x => is_nan x = false) v)
  /\ values two_scenarios (IsAggregatedRecorder (example_extremum MAX))
     = Ok [1; neg_infinity]%float.
Proof.
  assert (H1 : AggregatedRecorder.recorders (example_extremum MAX) <> []) by discriminate.
  split; [exact H1|]. split; [|reflexivity].
  apply (AggregatedRecorder_extremum_skips_nan two_scenarios (example_extremum MAX)
           [[1; nan]; [nan; nan]]%float H1).
  - repeat constructor.
  - left. reflexivity.
Defined.

(** X7. A recorder whose [values()] reduces its buffer over time cannot be
    used with [ignore_nan]: the selection of the entries that are not NaN
    flattens the buffer, which the two-dimensional view refuses, so
    [values()] and [aggregated_value()] raise [ValueError] whatever the
    buffer holds. *)
Theorem values_over_time_fail_with_ignore_nan (model : Model) (self : AnyRecorder) :
  reduces_over_time self = true ->
  ignore_nan (recorder_of self) = true ->
  values model self = Raise ValueError
  /\ aggregated_value model self = Raise ValueError.
Proof.
  intros Hkind Hnan.
  assert (Hv : values model self = Raise ValueError).
  { destruct self; try discriminate Hkind; cbn [values recorder_of] in *;
      unfold NumpyArrayNodeRecorder.values, FlowDurationCurveRecorder.values,
        SeasonalFlowDurationCurveRecorder.values, FlowDurationCurveRecorder.values,
        FlowDurationCurveDeviationRecorder.values,
        NumpyArrayAbstractStorageRecorder.values, NumpyArrayStorageRecorder.values,
        StorageDurationCurveRecorder.values, NumpyArrayLevelRecorder.values,
        NumpyArrayAreaRecorder.values, NumpyArrayParameterRecorder.values,
        NumpyArrayAbstractStorageRecorder.values,
        FlowDurationCurveDeviationRecorder.recorder, FlowDurationCurveRecorder.recorder,
        NumpyArrayNodeRecorder.recorder in *;
      try (rewrite Hnan; reflexivity). }
  split; [exact Hv|].
  unfold aggregated_value, RecorderImpl.aggregated_value. now rewrite Hv.
Qed.

Lemma values_over_time_fail_with_ignore_nan_witness :
  values two_scenarios (IsNumpyArrayNodeRecorder (example_array_recorder true))
  = Raise ValueError
  /\ aggregated_value two_scenarios (IsNumpyArrayNodeRecorder (example_array_recorder true))
     = Raise ValueError
  /\ values two_scenarios (IsNumpyArrayNodeRecorder (example_array_recorder false))
     = Ok [1; 2]%float.
Proof.
  destruct (values_over_time_fail_with_ignore_nan two_scenarios
              (IsNumpyArrayNodeRecorder (example_array_recorder true)) eq_refl eq_refl)
    as [H1 H2].
  split; [exact H1|]. split; [exact H2|]. reflexivity.
Defined.

(** ** The time series of a node *)

Module ArrayFacts.
Module NA := NumpyArrayNodeRecorder.

(** Writing the entries of a row one index after the other. *)
Lemma fill_row_range (g : nat -> float) (m : ndarray2) (p n : nat) (row : list float) :
rows m !! p = Some row -> length row = n ->
for_range n (fun i m => mset m (Z.of_nat p) (Z.of_nat i) (g i)) m
= Ok (mk_ndarray2 (shape1 m) (<[p := map g (seq 0 n)]> (rows m))).
Proof.
intros Hrow Hlen.
rewrite <- (fill_row g (seq 0 n) m p row Hrow) by (now rewrite length_seq).
rewrite for_enumerate_as_loop, length_seq. unfold for_range.
apply for_loop_ext. intros i s Hi. now rewrite lookup_seq_lt by lia.
Qed.

Lemma after_row (model : Model) (self : NA.t) (k nts : nat) (tick : Tick AbstractNode) :
well_shaped (NA._data self) nts (ncomb model) ->
(k < nts)%nat ->
length (_flow (tick_entity tick)) = ncomb model ->
NA.after (set_current model (timestep_of k tick)) (NA.with_node self (tick_entity tick))
= Ok (NA.with_data (NA.with_node self (tick_entity tick))
        (mk_ndarray2 (ncomb model)
           (<[k := _flow (tick_entity tick)]> (rows (NA._data self))))).
Proof.
intros (Hs & Hl & Hrows) Hk Hflow. unfold NA.after.
cbn [NA.with_node NA._data NA.super NodeRecorder.with_node NodeRecorder._node
     set_current current timestep_of index].
destruct (lookup_lt_is_Some_2 (rows (NA._data self)) k ltac:(lia)) as [row Hrow].
assert (Hlen : length row = ncomb model).
{ rewrite Forall_forall in Hrows. apply Hrows. eapply list_elem_of_lookup_2. eassumption. }
unfold for_range.
rewrite (for_loop_ext _
           (fun i m => mset m (Z.of_nat k) (Z.of_nat i)
                         (default nan (_flow (tick_entity tick) !! i)))).
- fold (for_range (shape1 (NA._data self))
          (fun i m => mset m (Z.of_nat k) (Z.of_nat i)
                        (default nan (_flow (tick_entity tick) !! i))) (NA._data self)).
  rewrite (fill_row_range _ _ k _ row Hrow) by congruence. cbn [bind].
  rewrite Hs, <- Hflow, map_seq_lookup. now rewrite Hflow.
- intros i s Hi.
  destruct (lookup_lt_is_Some_2 (_flow (tick_entity tick)) i ltac:(lia)) as [x Hx].
  rewrite (vget_nat _ i x Hx), Hx. reflexivity.
Qed.

Lemma steps_rows (model : Model) (nts : nat) (ticks : list (Tick AbstractNode)) :
Forall (fun tick => length (_flow (tick_entity tick)) = ncomb model) ticks ->
forall (k : nat) (self : NA.t),
  well_shaped (NA._data self) nts (ncomb model) ->
  (k + length ticks <= nts)%nat ->
  exists self',
    step_from NA.with_node NA.after model k ticks self = Ok self'
    /\ NA._temporal_aggregator self' = NA._temporal_aggregator self
    /\ NA.recorder self' = NA.recorder self
    /\ NA._data self'
       = mk_ndarray2 (ncomb model)
           (take k (rows (NA._data self)) ++ flows_of ticks
            ++ drop (k + length ticks) (rows (NA._data self))).
Proof.
induction 1 as [|tick ticks Hflow _ IH]; intros k self Hshape Hk.
- exists self. split; [reflexivity|]. split; [reflexivity|]. split; [reflexivity|].
  cbn [flows_of map length app]. rewrite Nat.add_0_r, take_drop.
  destruct Hshape as (<- & _). now destruct (NA._data self).
- cbn [length] in Hk. cbn [step_from].
  rewrite (after_row model self k nts tick Hshape) by (lia || assumption). cbn [bind].
  set (self1 := NA.with_data _ _).
  assert (Hshape1 : well_shaped (NA._data self1) nts (ncomb model)).
  { destruct Hshape as (Hs & Hl & Hrows). unfold well_shaped. cbn.
    split; [reflexivity|]. split; [now rewrite length_insert|].
    apply Forall_insert; assumption. }
  destruct (IH (S k) self1 Hshape1 ltac:(lia)) as (self' & Hrun & Hagg & Hrec & Hdata).
  exists self'. split; [exact Hrun|]. split; [exact Hagg|]. split; [exact Hrec|].
  rewrite Hdata. cbn [self1 NA.with_data NA._data rows flows_of map length].
  f_equal. destruct Hshape as (_ & Hl & _).
  rewrite (take_S_r _ k (_flow (tick_entity tick)))
    by (apply list_lookup_insert_eq; lia).
  rewrite take_insert_ge by lia. rewrite drop_insert_lt by lia.
  rewrite <- app_assoc. cbn [app].
  now replace (S k + length ticks)%nat with (k + S (length ticks))%nat by lia.
Qed.

Lemma run_rows (model : Model) (ticks : list (Tick AbstractNode)) (self : NA.t) :
well_shaped (NA._data self) (n_timesteps model) (ncomb model) ->
(length ticks <= n_timesteps model)%nat ->
Forall (fun tick => length (_flow (tick_entity tick)) = ncomb model) ticks ->
exists finished,
  run NA.with_node NA.after NA.reset no_finish model ticks self = Ok finished
  /\ NA._temporal_aggregator finished = NA._temporal_aggregator self
  /\ NA.recorder finished = NA.recorder self
  /\ NA._data finished
     = mk_ndarray2 (ncomb model)
         (recorded_rows (flows_of ticks) (n_timesteps model) (ncomb model)).
Proof.
intros Hshape Hlen Hflows. unfold run, NA.reset. cbn [bind].
set (self0 := NA.with_data self _).
assert (Hdata0 : NA._data self0 = np_full (n_timesteps model) (ncomb model) 0%float).
{ cbn. unfold mfill, shape0. destruct Hshape as (-> & -> & _). reflexivity. }
assert (Hshape0 : well_shaped (NA._data self0) (n_timesteps model) (ncomb model))
  by (rewrite Hdata0; apply RollingWindowFacts.well_shaped_full).
destruct (steps_rows model _ ticks Hflows 0%nat self0 Hshape0 ltac:(lia))
  as (self' & Hrun & Hagg & Hrec & Hdata).
rewrite Hrun. cbn [bind]. exists self'. split; [reflexivity|].
split; [exact Hagg|]. split; [exact Hrec|].
rewrite Hdata, Hdata0. unfold recorded_rows, np_full. cbn [rows take app].
rewrite drop_replicate. unfold flows_of. now rewrite length_map.
Qed.

Lemma setup_shape (model : Model) (self : NA.t) :
exists ready,
  NA.setup model self = Ok ready
  /\ NA._temporal_aggregator ready = NA._temporal_aggregator self
  /\ NA.recorder ready = NA.recorder self
  /\ well_shaped (NA._data ready) (n_timesteps model) (ncomb model).
Proof.
eexists. split; [reflexivity|]. split; [reflexivity|]. split; [reflexivity|].
apply RollingWindowFacts.well_shaped_full.
Qed.

Lemma recorded_rows_shape (samples : list (list float)) (nts c : nat) :
(length samples <= nts)%nat -> Forall (fun v => length v = c) samples ->
well_shaped (mk_ndarray2 c (recorded_rows samples nts c)) nts c.
Proof.
intros Hlen Hall. unfold well_shaped, recorded_rows. cbn.
split; [reflexivity|]. split; [rewrite length_app, length_replicate; lia|].
apply Forall_app. split; [exact Hall|].
apply Forall_forall. intros row Hin. apply elem_of_replicate in Hin as [-> _].
apply length_replicate.
Qed.
End ArrayFacts.

Module NA := NumpyArrayNodeRecorder.

(** X8. A [NumpyArrayNodeRecorder] holds, after a run, the flows of its
    node, one row per timestep, and zeros in the rows that the run did not
    reach. [reset()] clears the buffer, so a second run leaves no trace of
    the first; [values()] is the temporal aggregation of that buffer. *)
Theorem NumpyArrayNodeRecorder_records_flows
    (model : Model) (self : NA.t) (first second : list (Tick AbstractNode)) :
  (length first <= n_timesteps model)%nat ->
  (length second <= n_timesteps model)%nat ->
  Forall (fun tick => length (_flow (tick_entity tick)) = ncomb model) first ->
  Forall (fun tick => length (_flow (tick_entity tick)) = ncomb model) second ->
  exists ready once twice,
    NA.setup model self = Ok ready
    /\ run NA.with_node NA.after NA.reset no_finish model first ready = Ok once
    /\ run NA.with_node NA.after NA.reset no_finish model second once = Ok twice
    /\ NA._data once
       = mk_ndarray2 (ncomb model)
           (recorded_rows (flows_of first) (n_timesteps model) (ncomb model))
    /\ NA._data twice
       = mk_ndarray2 (ncomb model)
           (recorded_rows (flows_of second) (n_timesteps model) (ncomb model))
    /\ values model (IsNumpyArrayNodeRecorder twice)
       = AggregatorImpl.aggregate_2d (NA._temporal_aggregator self)
           (mk_ndarray2 (ncomb model)
              (recorded_rows (flows_of second) (n_timesteps model) (ncomb model)))
           0 (ignore_nan (NA.recorder self)).
Proof.
  intros Hlen1 Hlen2 Hflows1 Hflows2.
  destruct (ArrayFacts.setup_shape model self) as (ready & Hsetup & Hagg0 & Hrec0 & Hshape0).
  destruct (ArrayFacts.run_rows model first ready Hshape0 Hlen1 Hflows1)
    as (once & Hrun1 & Hagg1 & Hrec1 & Hdata1).
  assert (Hshape1 : well_shaped (NA._data once) (n_timesteps model) (ncomb model)).
  { rewrite Hdata1. apply ArrayFacts.recorded_rows_shape.
    - unfold flows_of. now rewrite length_map.
    - unfold flows_of. now apply Forall_fmap. }
  destruct (ArrayFacts.run_rows model second once Hshape1 Hlen2 Hflows2)
    as (twice & Hrun2 & Hagg2 & Hrec2 & Hdata2).
  exists ready, once, twice.
  split; [exact Hsetup|]. split; [exact Hrun1|]. split; [exact Hrun2|].
  split; [exact Hdata1|]. split; [exact Hdata2|].
  cbn [values]. unfold NA.values. rewrite Hdata2, Hagg2, Hagg1, Hagg0.
  now rewrite Hrec2, Hrec1, Hrec0.
Qed.

Lemma NumpyArrayNodeRecorder_records_flows_witness :
  exists ready once twice,
    NA.setup two_scenarios (example_array_recorder false) = Ok ready
    /\ run NA.with_node NA.after NA.reset no_finish two_scenarios
         example_node_ticks ready = Ok once
    /\ run NA.with_node NA.after NA.reset no_finish two_scenarios
         [node_tick [7; 8]%float 9%float] once = Ok twice
    /\ NA._data once = mk_ndarray2 2 [[1; 5]; [3; 5]; [0; 0]]%float
    /\ NA._data twice = mk_ndarray2 2 [[7; 8]; [0; 0]; [0; 0]]%float.
Proof.
  destruct (NumpyArrayNodeRecorder_records_flows two_scenarios (example_array_recorder false)
              example_node_ticks [node_tick [7; 8]%float 9%float])
    as (ready & once & twice & H1 & H2 & H3 & H4 & H5 & _).
  - cbn. lia.
  - cbn. lia.
  - repeat constructor.
  - repeat constructor.
  - exists ready, once, twice. repeat split; assumption.
Defined.

Lemma vget_error {A : Type} (v : list A) (i : Z) (e : exn) :
  vget v i = Raise e -> e = IndexError.
Proof.
  unfold vget, py_index.
  destruct ((0 <=? i) && (i <? Z.of_nat (length v))); cbn [bind].
  - destruct (v !! Z.to_nat i); congruence.
  - destruct ((i <? 0) && (0 <=? i + Z.of_nat (length v))); cbn [bind]; [|congruence].
    destruct (v !! Z.to_nat (i + Z.of_nat (length v))); congruence.
Qed.

Lemma after_beyond_buffer (model : Model) (self : NA.t) :
  Z.of_nat (shape0 (NA._data self)) <= index (current model) ->
  (0 < shape1 (NA._data self))%nat ->
  NA.after model self = Raise IndexError.
Proof.
  intros Hk Hc. unfold NA.after, for_range.
  destruct (shape1 (NA._data self)) as [|c]; [lia|]. cbn [for_loop].
  destruct (vget (_flow (NodeRecorder._node (NA.super self))) (Z.of_nat 0)) as [x|e] eqn:Hx;
    cbn [bind].
  - unfold mset, vget, py_index. fold (shape0 (NA._data self)).
    replace (index (current model) <? Z.of_nat (shape0 (NA._data self))) with false
      by (symmetry; apply Z.ltb_ge; lia).
    replace (index (current model) <? 0) with false by (symmetry; apply Z.ltb_ge; lia).
    now rewrite andb_false_r.
  - now rewrite (vget_error _ _ _ Hx).
Qed.

(** X9. The buffer of a [NumpyArrayNodeRecorder] has one row per timestep
    of the model: a run over more timesteps than that, with at least one
    scenario combination, stops with [IndexError] at the first timestep
    beyond the buffer. *)
Theorem NumpyArrayNodeRecorder_run_beyond_buffer
    (model : Model) (self ready : NA.t) (ticks : list (Tick AbstractNode)) :
  NA.setup model self = Ok ready ->
  (n_timesteps model < length ticks)%nat ->
  (0 < ncomb model)%nat ->
  Forall (fun tick => length (_flow (tick_entity tick)) = ncomb model) ticks ->
  run NA.with_node NA.after NA.reset no_finish model ticks ready = Raise IndexError.
Proof.
  intros Hsetup Hlen Hc Hflows.
  destruct (ArrayFacts.setup_shape model self) as (ready' & Hsetup' & _ & _ & Hshape).
  assert (ready' = ready) by congruence. subst ready'.
  unfold run, NA.reset. cbn [bind].
  set (self0 := NA.with_data ready _).
  assert (Hdata0 : NA._data self0 = np_full (n_timesteps model) (ncomb model) 0%float).
  { cbn. unfold mfill, shape0. destruct Hshape as (-> & -> & _). reflexivity. }
  assert (Hshape0 : well_shaped (NA._data self0) (n_timesteps model) (ncomb model))
    by (rewrite Hdata0; apply RollingWindowFacts.well_shaped_full).
  rewrite <- (take_drop (n_timesteps model) ticks) in Hflows |- *.
  apply Forall_app in Hflows as [Hflows1 Hflows2].
  rewrite (AnnualCountFacts.step_from_app model).
  assert (Htake : length (take (n_timesteps model) ticks) = n_timesteps model)
    by (rewrite length_take; lia).
  destruct (ArrayFacts.steps_rows model (n_timesteps model) _ Hflows1 0%nat self0 Hshape0
              ltac:(lia)) as (self1 & Hrun & _ & _ & Hdata).
  rewrite Hrun. cbn [bind]. rewrite Htake.
  destruct (drop (n_timesteps model) ticks) as [|tick rest] eqn:Hdrop.
  { apply (f_equal length) in Hdrop. rewrite length_drop in Hdrop. cbn in Hdrop. lia. }
  cbn [step_from Nat.add].
  rewrite after_beyond_buffer; [reflexivity| |].
  - cbn [NA.with_node NA._data set_current current timestep_of index].
    rewrite Hdata. unfold shape0, flows_of. cbn [rows].
    rewrite !length_app, length_take, length_map, length_drop, Htake.
    destruct Hshape0 as (_ & -> & _). lia.
  - cbn [NA.with_node NA._data]. rewrite Hdata. cbn [shape1]. exact Hc.
Qed.

Lemma NumpyArrayNodeRecorder_run_beyond_buffer_witness :
  exists ready,
    NA.setup (single_scenario 1) (example_array_recorder false) = Ok ready
    /\ run NA.with_node NA.after NA.reset no_finish (single_scenario 1)
         (map flow_tick [1; 2]%float) ready = Raise IndexError.
Proof.
  eexists. split; [reflexivity|].
  apply (NumpyArrayNodeRecorder_run_beyond_buffer (single_scenario 1)
           (example_array_recorder false)).
  - reflexivity.
  - cbn. lia.
  - cbn. lia.
  - repeat constructor.
Defined.

(** ** Recorders of one value per scenario *)

(** A recorder whose [after()] rewrites every entry of its vector holds,
    after the timesteps, the fold of these rewritings. *)
Section accumulate.
Context {T E : Type}.
Variable with_entity : T -> E -> T.
Variable after : Model -> T -> result T.
Variable vals : T -> list float.
Variable inv : T -> Prop.
Variable good : Tick E -> Prop.
Variable step : Tick E -> nat -> float -> float.
Variable model : Model.
Variable n : nat.

Hypothesis after_step :
forall (self : T) (tick : Tick E) (k : nat),
  inv self -> length (vals self) = n -> good tick ->
  exists self1,
    after (set_current model (timestep_of k tick)) (with_entity self (tick_entity tick))
    = Ok self1
    /\ inv self1 /\ vals self1 = imap (step tick) (vals self).

Lemma accumulate_steps (ticks : list (Tick E)) :
Forall good ticks ->
forall (k : nat) (self : T) (f : nat -> float),
  inv self -> vals self = map f (seq 0 n) ->
  exists self',
    step_from with_entity after model k ticks self = Ok self'
    /\ inv self'
    /\ vals self'
       = map (fun i => fold_left (fun acc tick => step tick i acc) ticks (f i)) (seq 0 n).
Proof.
induction 1 as [|tick ticks Hgood _ IH]; intros k self f Hinv Hv.
- exists self. split; [reflexivity|]. split; [exact Hinv|exact Hv].
- cbn [step_from].
  destruct (after_step self tick k Hinv) as (self1 & Hafter & Hinv1 & Hv1);
    [rewrite Hv, length_map, length_seq; reflexivity | exact Hgood |].
  rewrite Hafter. cbn [bind]. rewrite Hv, imap_map_seq in Hv1.
  destruct (IH (S k) self1 (fun i => step tick i (f i)) Hinv1 Hv1)
    as (self' & Hrun & Hinv' & Hv').
  exists self'. split; [exact Hrun|]. split; [exact Hinv'|exact Hv'].
Qed.
End accumulate.

Module TotalFacts.
Module TF := TotalFlowNodeRecorder.
Module TD := TotalDeficitNodeRecorder.
Module BN := BaseConstantNodeRecorder.

Section totals.
Variable model : Model.
Hypothesis Hwf : wf_combinations model.

Lemma total_flow_after (factor : float) (self : TF.t) (tick : Tick AbstractNode) (k : nat) :
TF.factor self = factor ->
length (BN._values (TF.super self)) = ncomb model ->
length (_flow (tick_entity tick)) = ncomb model ->
exists self1,
TF.after (set_current model (timestep_of k tick))
  (TotalFlowLifecycle.with_node self (tick_entity tick)) = Ok self1
/\ TF.factor self1 = factor
/\ BN._values (TF.super self1)
   = imap (total_flow_step factor tick) (BN._values (TF.super self)).
Proof.
intros Hfac Hv Hf. unfold TF.after.
cbn [TotalFlowLifecycle.with_node TotalFlowLifecycle.with_super TF.super TF.factor
   BN.with_node BN.super BN._values NodeRecorder.with_node NodeRecorder._node
   set_current current timestep_of days combinations].
rewrite (for_each_combination model _ (total_flow_step factor tick)).
- cbn [bind]. eexists. split; [reflexivity|]. split; [exact Hfac|reflexivity].
- exact Hv.
- intros i sc w x Hsc Hw Hwi. rewrite (Hwf i sc Hsc).
assert (Hi : (i < ncomb model)%nat).
{ rewrite <- Hv, <- Hw. eapply lookup_lt_Some; eassumption. }
destruct (lookup_lt_is_Some_2 (_flow (tick_entity tick)) i ltac:(lia)) as [y Hy].
rewrite (vget_nat _ i y Hy). cbn [bind]. unfold BN.update.
rewrite (vget_nat w i x Hwi). cbn [bind].
rewrite vset_nat by lia. unfold total_flow_step. now rewrite Hy, Hfac.
Qed.

Lemma total_deficit_after (self : TD.t) (tick : Tick AbstractNode) (k : nat) :
length (BN._values self) = ncomb model ->
length (_flow (tick_entity tick)) = ncomb model ->
exists self1,
TD.after (set_current model (timestep_of k tick)) (BN.with_node self (tick_entity tick))
= Ok self1
/\ True
/\ BN._values self1 = imap (total_deficit_step model tick) (BN._values self).
Proof.
intros Hv Hf. unfold TD.after.
cbn [BN.with_node BN.super BN._values NodeRecorder.with_node NodeRecorder._node
   set_current current timestep_of days combinations].
rewrite (for_each_combination model _ (total_deficit_step model tick)).
- cbn [bind]. eexists. split; [reflexivity|]. split; [exact I|reflexivity].
- exact Hv.
- intros i sc w x Hsc Hw Hwi. rewrite (Hwf i sc Hsc).
assert (Hi : (i < ncomb model)%nat).
{ rewrite <- Hv, <- Hw. eapply lookup_lt_Some; eassumption. }
destruct (lookup_lt_is_Some_2 (_flow (tick_entity tick)) i ltac:(lia)) as [y Hy].
rewrite (vget_nat _ i y Hy). cbn [bind]. unfold BN.update.
rewrite (vget_nat w i x Hwi). cbn [bind].
rewrite vset_nat by lia. unfold total_deficit_step. now rewrite Hsc, Hy.
Qed.
End totals.
End TotalFacts.

Module TF := TotalFlowNodeRecorder.
Module TD := TotalDeficitNodeRecorder.

(** X10. After a run, a [TotalFlowNodeRecorder] holds for each scenario the
    sum over the timesteps of [flow * factor * days], and a
    [TotalDeficitNodeRecorder] the sum of [(max_flow - flow) * days], both
    added up from zero in timestep order; a run of no timestep leaves
    zeros. *)
Theorem total_recorders_sum_over_run
    (model : Model) (ticks : list (Tick AbstractNode)) :
  wf_combinations model ->
  Forall (fun tick => length (_flow (tick_entity tick)) = ncomb model) ticks ->
  (forall self : TF.t,
      exists ready finished,
        TotalFlowLifecycle.setup model self = Ok ready
        /\ run TotalFlowLifecycle.with_node TF.after TotalFlowLifecycle.reset no_finish
             model ticks ready = Ok finished
        /\ values model (IsTotalFlowNodeRecorder finished)
           = Ok (accumulated (total_flow_step (TF.factor self)) 0 ticks (ncomb model)))
  /\ (forall self : TD.t,
         exists ready finished,
           BaseConstantNodeRecorder.setup model self = Ok ready
           /\ run BaseConstantNodeRecorder.with_node TD.after BaseConstantNodeRecorder.reset
                no_finish model ticks ready = Ok finished
           /\ values model (IsTotalDeficitNodeRecorder finished)
              = Ok (accumulated (total_deficit_step model) 0 ticks (ncomb model))).
Proof.
  intros Hwf Hflows. split; intros self.
  - exists (TotalFlowLifecycle.with_super self
              (BaseConstantNodeRecorder.with_values (TF.super self)
                 (replicate (ncomb model) 0%float))).
    unfold TotalFlowLifecycle.setup, BaseConstantNodeRecorder.setup. cbn [bind].
    unfold run, TotalFlowLifecycle.reset, BaseConstantNodeRecorder.reset.
    cbn [bind TotalFlowLifecycle.with_super TF.super BaseConstantNodeRecorder.with_values
         BaseConstantNodeRecorder._values BaseConstantNodeRecorder.super].
    rewrite length_replicate.
    match goal with
    | |- exists f, _ /\ (s <- step_from _ _ _ _ _ ?self0 ;; _) = _ /\ _ =>
        destruct (accumulate_steps TotalFlowLifecycle.with_node TF.after
                    (fun s => BaseConstantNodeRecorder._values (TF.super s))
                    (fun s => TF.factor s = TF.factor self)
                    (fun tick => length (_flow (tick_entity tick)) = ncomb model)
                    (total_flow_step (TF.factor self)) model (ncomb model)
                    (fun s tick k Hi Hl Hg =>
                       TotalFacts.total_flow_after model Hwf (TF.factor self) s tick k Hi Hl Hg)
                    ticks Hflows 0%nat self0 (fun _ => 0%float) eq_refl
                    (replicate_as_map _ _)) as (self' & Hrun & _ & Hv)
    end.
    exists self'. split; [reflexivity|]. rewrite Hrun. cbn [bind]. split; [reflexivity|].
    cbn [values]. unfold TF.values, BaseConstantNodeRecorder.values. now rewrite Hv.
  - exists (BaseConstantNodeRecorder.with_values self (replicate (ncomb model) 0%float)).
    unfold BaseConstantNodeRecorder.setup.
    unfold run, BaseConstantNodeRecorder.reset.
    cbn [bind BaseConstantNodeRecorder.with_values BaseConstantNodeRecorder._values
         BaseConstantNodeRecorder.super].
    rewrite length_replicate.
    match goal with
    | |- exists f, _ /\ (s <- step_from _ _ _ _ _ ?self0 ;; _) = _ /\ _ =>
        destruct (accumulate_steps BaseConstantNodeRecorder.with_node TD.after
                    BaseConstantNodeRecorder._values
                    (fun _ => True)
                    (fun tick => length (_flow (tick_entity tick)) = ncomb model)
                    (total_deficit_step model) model (ncomb model)
                    (fun s tick k _ Hl Hg =>
                       TotalFacts.total_deficit_after model Hwf s tick k Hl Hg)
                    ticks Hflows 0%nat self0 (fun _ => 0%float) I
                    (replicate_as_map _ _)) as (self' & Hrun & _ & Hv)
    end.
    exists self'. split; [reflexivity|]. rewrite Hrun. cbn [bind]. split; [reflexivity|].
    cbn [values]. unfold TD.values, BaseConstantNodeRecorder.values. now rewrite Hv.
Qed.

Lemma total_recorders_sum_over_run_witness :
  (exists ready finished,
      TotalFlowLifecycle.setup two_scenarios example_total_flow = Ok ready
      /\ run TotalFlowLifecycle.with_node TF.after TotalFlowLifecycle.reset no_finish
           two_scenarios example_node_ticks ready = Ok finished
      /\ values two_scenarios (IsTotalFlowNodeRecorder finished) = Ok [4; 10]%float)
  /\ (exists ready finished,
         BaseConstantNodeRecorder.setup two_scenarios example_constant_node_recorder = Ok ready
         /\ run BaseConstantNodeRecorder.with_node TD.after BaseConstantNodeRecorder.reset
              no_finish two_scenarios example_node_ticks ready = Ok finished
         /\ values two_scenarios (IsTotalDeficitNodeRecorder finished) = Ok [6; 0]%float).
Proof.
  assert (Hflows : Forall (fun tick => length (_flow (tick_entity tick))
                                       = ncomb two_scenarios) example_node_ticks)
    by (repeat constructor).
  destruct (total_recorders_sum_over_run two_scenarios example_node_ticks
              two_scenarios_wf Hflows) as [Hflow Hdeficit].
  split.
  - destruct (Hflow example_total_flow) as (ready & finished & H1 & H2 & H3).
    exists ready, finished. split; [exact H1|]. split; [exact H2|].
    rewrite H3. reflexivity.
  - destruct (Hdeficit example_constant_node_recorder) as (ready & finished & H1 & H2 & H3).
    exists ready, finished. split; [exact H1|]. split; [exact H2|].
    rewrite H3. reflexivity.
Defined.

(** ** The order of binary64 numbers that are not NaN *)

Lemma SFleb_trans (a b c : spec_float) :
  SFleb a b = true -> SFleb b c = true -> SFleb a c = true.
Proof.
  unfold SFleb, SFcompare.
  destruct a as [sa|sa| |sa ma ea], b as [sb|sb| |sb mb eb], c as [sc|sc| |sc mc ec];
    try destruct sa; try destruct sb; try destruct sc; try (intros; congruence);
    try reflexivity.
  - destruct (Z.compare_spec ea eb), (Z.compare_spec eb ec), (Z.compare_spec ea ec);
      try (intros; congruence); try lia; subst;
      change (Pos.compare_cont Eq ?x ?y) with (Pos.compare x y);
      destruct (Pos.compare_spec ma mb), (Pos.compare_spec mb mc),
        (Pos.compare_spec ma mc); simpl; try (intros; congruence); lia.
  - destruct (Z.compare_spec ea eb), (Z.compare_spec eb ec), (Z.compare_spec ea ec);
      try (intros; congruence); try lia; subst;
      change (Pos.compare_cont Eq ?x ?y) with (Pos.compare x y);
      destruct (Pos.compare_spec ma mb), (Pos.compare_spec mb mc),
        (Pos.compare_spec ma mc); simpl; try (intros; congruence); lia.
Qed.

Lemma SFleb_total (a b : spec_float) :
  a <> S754_nan -> b <> S754_nan -> SFleb a b = true \/ SFleb b a = true.
Proof.
  unfold SFleb, SFcompare.
  destruct a as [sa|sa| |sa ma ea], b as [sb|sb| |sb mb eb];
    try destruct sa; try destruct sb; intros Ha Hb; try congruence; auto.
  - destruct (Z.compare_spec ea eb), (Z.compare_spec eb ea); try lia; subst; auto;
      change (Pos.compare_cont Eq ?x ?y) with (Pos.compare x y);
      destruct (Pos.compare_spec ma mb), (Pos.compare_spec mb ma); simpl; auto; lia.
  - destruct (Z.compare_spec ea eb), (Z.compare_spec eb ea); try lia; subst; auto;
      change (Pos.compare_cont Eq ?x ?y) with (Pos.compare x y);
      destruct (Pos.compare_spec ma mb), (Pos.compare_spec mb ma); simpl; auto; lia.
Qed.

Lemma not_nan_Prim2SF (x : float) : is_nan x = false -> Prim2SF x <> S754_nan.
Proof.
  intros H E. assert (x = nan) by (apply Prim2SF_inj; rewrite E; reflexivity).
  subst x. discriminate.
Qed.

Lemma leb_trans (x y z : float) :
  (x <=? y)%float = true -> (y <=? z)%float = true -> (x <=? z)%float = true.
Proof. rewrite !FloatAxioms.leb_spec. apply SFleb_trans. Qed.

Lemma leb_total (x y : float) :
  is_nan x = false -> is_nan y = false ->
  (x <=? y)%float = true \/ (y <=? x)%float = true.
Proof.
  intros Hx Hy. rewrite !FloatAxioms.leb_spec.
  apply SFleb_total; now apply not_nan_Prim2SF.
Qed.

Lemma leb_refl (x : float) : is_nan x = false -> (x <=? x)%float = true.
Proof. intros Hx. now destruct (leb_total x x Hx Hx). Qed.

Lemma leb_true_not_nan (x y : float) :
  (x <=? y)%float = true -> is_nan x = false /\ is_nan y = false.
Proof.
  rewrite FloatAxioms.leb_spec. unfold SFleb. intros H. split.
  - destruct (is_nan x) eqn:E; [|reflexivity].
    rewrite (is_nan_Prim2SF x E) in H. discriminate.
  - destruct (is_nan y) eqn:E; [|reflexivity].
    rewrite (is_nan_Prim2SF y E) in H. now destruct (Prim2SF x).
Qed.

(** ** Recorders of the volume of a storage node *)

Module StorageFacts.
Module BS := BaseConstantStorageRecorder.
Module MV := MinimumVolumeStorageRecorder.
Module MT := MinimumThresholdVolumeStorageRecorder.

Lemma minimum_after (model : Model) (n : nat) (self : MV.t) (tick : Tick AbstractStorage)
  (k : nat) :
length (BS._values self) = n ->
length (_volume (tick_entity tick)) = n ->
exists self1,
  MV.after (set_current model (timestep_of k tick))
    (StorageLifecycle.with_node self (tick_entity tick)) = Ok self1
  /\ True
  /\ BS._values self1
     = imap (fun i x => np_minimum (volume_at i tick) x) (BS._values self).
Proof.
intros Hv Hvol. unfold MV.after.
cbn [StorageLifecycle.with_node BS.super BS._values StorageRecorder._node].
rewrite (for_range_vector_full _ (fun i x => np_minimum (volume_at i tick) x)).
- cbn [bind]. eexists. split; [reflexivity|]. split; [exact I|reflexivity].
- intros i w x Hw Hvi Hwi.
  assert (Hi : (i < n)%nat) by (rewrite <- Hv; eapply lookup_lt_Some; eassumption).
  destruct (lookup_lt_is_Some_2 (_volume (tick_entity tick)) i ltac:(lia)) as [y Hy].
  rewrite (vget_nat _ i y Hy). cbn [bind].
  rewrite (vget_nat w i x Hwi). cbn [bind np_min fold_left].
  rewrite vset_nat by lia. unfold volume_at. now rewrite Hy.
Qed.

Lemma threshold_after (model : Model) (n : nat) (threshold : float) (self : MT.t)
  (tick : Tick AbstractStorage) (k : nat) :
MT.threshold self = threshold ->
length (BS._values (MT.super self)) = n ->
length (_volume (tick_entity tick)) = n ->
exists self1,
  MT.after (set_current model (timestep_of k tick))
    (ThresholdLifecycle.with_node self (tick_entity tick)) = Ok self1
  /\ MT.threshold self1 = threshold
  /\ BS._values (MT.super self1)
     = imap (fun i x => if (volume_at i tick <=? threshold)%float then 1%float else x)
         (BS._values (MT.super self)).
Proof.
intros Hthr Hv Hvol. unfold MT.after.
cbn [ThresholdLifecycle.with_node ThresholdLifecycle.with_super MT.super MT.threshold
     StorageLifecycle.with_node BS.super BS._values StorageRecorder._node].
rewrite (for_range_vector_full _
           (fun i x => if (volume_at i tick <=? threshold)%float then 1%float else x)).
- cbn [bind]. eexists. split; [reflexivity|]. split; [exact Hthr|reflexivity].
- intros i w x Hw Hvi Hwi.
  assert (Hi : (i < n)%nat) by (rewrite <- Hv; eapply lookup_lt_Some; eassumption).
  destruct (lookup_lt_is_Some_2 (_volume (tick_entity tick)) i ltac:(lia)) as [y Hy].
  rewrite (vget_nat _ i y Hy). cbn [bind]. unfold volume_at. rewrite Hy, Hthr.
  cbn [from_option id].
  destruct (y <=? threshold)%float.
  + apply vset_nat. lia.
  + now rewrite list_insert_id.
Qed.

Lemma latch_fold (p : Tick AbstractStorage -> bool) (ticks : list (Tick AbstractStorage))
  (init : float) :
fold_left (fun acc tick => if p tick then 1%float else acc) ticks init
= if existsb p ticks then 1%float else init.
Proof.
revert init. induction ticks as [|tick ticks IH]; intros init; [reflexivity|].
cbn [fold_left existsb]. rewrite IH. destruct (p tick); cbn [orb]; [|reflexivity].
now destruct (existsb p ticks).
Qed.

Lemma np_minimum_bounds (a b : float) :
is_nan a = false -> is_nan b = false ->
is_nan (np_minimum a b) = false
/\ (np_minimum a b <=? a)%float = true
/\ (np_minimum a b <=? b)%float = true
/\ (np_minimum a b = a \/ np_minimum a b = b).
Proof.
intros Ha Hb. unfold np_minimum. rewrite Ha, orb_false_r.
destruct (a <=? b)%float eqn:E.
- split; [exact Ha|]. split; [now apply leb_refl|]. split; [exact E|]. now left.
- split; [exact Hb|]. split; [|split; [now apply leb_refl|now right]].
  destruct (leb_total a b Ha Hb) as [H|H]; [congruence|exact H].
Qed.

Lemma minimum_fold (vol : Tick AbstractStorage -> float)
  (ticks : list (Tick AbstractStorage)) :
Forall (fun tick => is_nan (vol tick) = false) ticks ->
forall init, is_nan init = false ->
  let r := fold_left (fun acc tick => np_minimum (vol tick) acc) ticks init in
  is_nan r = false
  /\ (r <=? init)%float = true
  /\ Forall (fun tick => (r <=? vol tick)%float = true) ticks
  /\ (r = init \/ Exists (fun tick => r = vol tick) ticks).
Proof.
induction 1 as [|tick ticks Hvol _ IH]; intros init Hinit; cbn [fold_left].
- split; [exact Hinit|]. split; [now apply leb_refl|]. split; [constructor|now left].
- destruct (np_minimum_bounds (vol tick) init Hvol Hinit) as (Hn & Hle1 & Hle2 & Heq).
  destruct (IH (np_minimum (vol tick) init) Hn) as (Hr & Hle & Hall & Hex).
  split; [exact Hr|]. split; [eapply leb_trans; eassumption|].
  split; [constructor; [eapply leb_trans; eassumption|exact Hall]|].
  destruct Hex as [Hex|Hex].
  + destruct Heq as [Heq|Heq].
    * right. constructor. congruence.
    * left. congruence.
  + right. now apply Exists_cons_tl.
Qed.

Lemma np_minimum_nan_r (a : float) : np_minimum a nan = nan.
Proof.
unfold np_minimum. destruct (is_nan a) eqn:E.
- rewrite orb_true_r. now apply is_nan_eq.
- rewrite orb_false_r. destruct (a <=? nan)%float eqn:L; [|reflexivity].
  apply leb_true_not_nan in L as [_ L]. discriminate.
Qed.

Lemma minimum_fold_nan (vol : Tick AbstractStorage -> float)
  (ticks : list (Tick AbstractStorage)) (init : float) :
Exists (fun tick => is_nan (vol tick) = true) ticks \/ init = nan ->
fold_left (fun acc tick => np_minimum (vol tick) acc) ticks init = nan.
Proof.
revert init. induction ticks as [|tick ticks IH]; intros init [Hex | ->].
- inversion Hex.
- reflexivity.
- cbn [fold_left]. apply IH. inversion Hex as [? ? Hnan | ? ? Hrest]; subst.
  + right. unfold np_minimum. rewrite Hnan, orb_true_r. now apply is_nan_eq.
  + now left.
- cbn [fold_left]. apply IH. right. apply np_minimum_nan_r.
Qed.
End StorageFacts.

Module BS := BaseConstantStorageRecorder.
Module MV := MinimumVolumeStorageRecorder.
Module MT := MinimumThresholdVolumeStorageRecorder.

(** X11. After a run, a [MinimumVolumeStorageRecorder] holds for each
    scenario the minimum of the volumes of the timesteps, taken from plus
    infinity. When no volume of the scenario is NaN, the value is at most
    every volume of the run and is one of them, or infinity; a single NaN
    volume makes the value NaN. *)
Theorem MinimumVolumeStorageRecorder_holds_minimum
    (model : Model) (self : MV.t) (ticks : list (Tick AbstractStorage)) :
  Forall (fun tick => length (_volume (tick_entity tick)) = ncomb model) ticks ->
  exists ready finished,
    BS.setup model self = Ok ready
    /\ run StorageLifecycle.with_node MV.after MV.reset no_finish model ticks ready
       = Ok finished
    /\ values model (IsMinimumVolumeStorageRecorder finished)
       = Ok (map (fun i => minimum_volume i ticks) (seq 0 (ncomb model)))
    /\ forall i : nat,
         (Forall (fun tick => is_nan (volume_at i tick) = false) ticks ->
          Forall (fun tick => (minimum_volume i ticks <=? volume_at i tick)%float = true)
            ticks
          /\ (minimum_volume i ticks = infinity
              \/ Exists (fun tick => minimum_volume i ticks = volume_at i tick) ticks))
         /\ (Exists (fun tick => is_nan (volume_at i tick) = true) ticks ->
             minimum_volume i ticks = nan).
Proof.
  intros Hvols.
  exists (BS.with_values self (replicate (ncomb model) 0%float)).
  unfold BS.setup, run, MV.reset. cbn [bind BS.with_values BS._values BS.super].
  rewrite length_replicate.
  match goal with
  | |- exists f, _ /\ (s <- step_from _ _ _ _ _ ?self0 ;; _) = _ /\ _ =>
      destruct (accumulate_steps StorageLifecycle.with_node MV.after BS._values
                  (fun _ => True)
                  (fun tick => length (_volume (tick_entity tick)) = ncomb model)
                  (fun tick i x => np_minimum (volume_at i tick) x) model (ncomb model)
                  (fun s tick k _ Hl Hg =>
                     StorageFacts.minimum_after model (ncomb model) s tick k Hl Hg)
                  ticks Hvols 0%nat self0 (fun _ => infinity) I
                  (replicate_as_map _ _)) as (self' & Hrun & _ & Hv)
  end.
  exists self'. split; [reflexivity|]. rewrite Hrun. cbn [bind]. split; [reflexivity|].
  split.
  - cbn [values]. unfold MV.values, BS.values. now rewrite Hv.
  - intros i. split.
    + intros Hnan.
      destruct (StorageFacts.minimum_fold (volume_at i) ticks Hnan infinity eq_refl)
        as (_ & _ & Hall & Hex).
      split; [exact Hall|exact Hex].
    + intros Hex. apply StorageFacts.minimum_fold_nan. now left.
Qed.

Lemma MinimumVolumeStorageRecorder_holds_minimum_witness :
  exists ready finished,
    BS.setup two_scenarios example_storage_recorder = Ok ready
    /\ run StorageLifecycle.with_node MV.after MV.reset no_finish two_scenarios
         example_storage_ticks ready = Ok finished
    /\ values two_scenarios (IsMinimumVolumeStorageRecorder finished) = Ok [3; 7]%float.
Proof.
  destruct (MinimumVolumeStorageRecorder_holds_minimum two_scenarios
              example_storage_recorder example_storage_ticks)
    as (ready & finished & H1 & H2 & H3 & _).
  - repeat constructor.
  - exists ready, finished. split; [exact H1|]. split; [exact H2|].
    rewrite H3. reflexivity.
Defined.

(** X12. After a run, a [MinimumThresholdVolumeStorageRecorder] holds 1 for
    the scenarios whose volume was at or below the threshold at one
    timestep at least, and 0 for the others: a value that is set stays
    set, and a NaN volume does not set it. *)
Theorem MinimumThresholdVolumeStorageRecorder_latches
    (model : Model) (self : MT.t) (ticks : list (Tick AbstractStorage)) :
  Forall (fun tick => length (_volume (tick_entity tick)) = ncomb model) ticks ->
  exists ready finished,
    ThresholdLifecycle.setup model self = Ok ready
    /\ run ThresholdLifecycle.with_node MT.after ThresholdLifecycle.reset no_finish
         model ticks ready = Ok finished
    /\ values model (IsMinimumThresholdVolumeStorageRecorder finished)
       = Ok (map (fun i => if reached_threshold (MT.threshold self) i ticks
                           then 1%float else 0%float)
               (seq 0 (ncomb model))).
Proof.
  intros Hvols.
  exists (ThresholdLifecycle.with_super self
            (BS.with_values (MT.super self) (replicate (ncomb model) 0%float))).
  unfold ThresholdLifecycle.setup, BS.setup, run, ThresholdLifecycle.reset, BS.reset.
  cbn [bind ThresholdLifecycle.with_super MT.super BS.with_values BS._values BS.super].
  rewrite length_replicate.
  match goal with
  | |- exists f, _ /\ (s <- step_from _ _ _ _ _ ?self0 ;; _) = _ /\ _ =>
      destruct (accumulate_steps ThresholdLifecycle.with_node MT.after
                  (fun s => BS._values (MT.super s))
                  (fun s => MT.threshold s = MT.threshold self)
                  (fun tick => length (_volume (tick_entity tick)) = ncomb model)
                  (fun tick i x =>
                     if (volume_at i tick <=? MT.threshold self)%float then 1%float else x)
                  model (ncomb model)
                  (fun s tick k Hi Hl Hg =>
                     StorageFacts.threshold_after model (ncomb model) (MT.threshold self)
                       s tick k Hi Hl Hg)
                  ticks Hvols 0%nat self0 (fun _ => 0%float) eq_refl
                  (replicate_as_map _ _)) as (self' & Hrun & _ & Hv)
  end.
  exists self'. split; [reflexivity|]. rewrite Hrun. cbn [bind]. split; [reflexivity|].
  cbn [values]. unfold MT.values, BS.values. rewrite Hv. f_equal.
  apply map_ext. intros i.
  apply (StorageFacts.latch_fold
           (fun tick => (volume_at i tick <=? MT.threshold self)%float)).
Qed.

Lemma MinimumThresholdVolumeStorageRecorder_latches_witness :
  exists ready finished,
    ThresholdLifecycle.setup two_scenarios (example_threshold_recorder 3) = Ok ready
    /\ run ThresholdLifecycle.with_node MT.after ThresholdLifecycle.reset no_finish
         two_scenarios example_storage_ticks ready = Ok finished
    /\ values two_scenarios (IsMinimumThresholdVolumeStorageRecorder finished)
       = Ok [1; 0]%float.
Proof.
  destruct (MinimumThresholdVolumeStorageRecorder_latches two_scenarios
              (example_threshold_recorder 3) example_storage_ticks)
    as (ready & finished & H1 & H2 & H3).
  - repeat constructor.
  - exists ready, finished. split; [exact H1|]. split; [exact H2|].
    rewrite H3. reflexivity.
Defined.

(** ** Means of a parameter *)

Module ParameterFacts.
Module BP := BaseConstantParameterRecorder.
Module TP := TotalParameterRecorder.
Module MP := MeanParameterRecorder.

Section parameters.
Variable model : Model.
Hypothesis Hwf : wf_combinations model.

Lemma total_after (factor : float) (self : TP.t) (tick : Tick PywrParameter) (k : nat) :
TP.factor self = factor /\ TP.integrate self = false ->
length (BP._values (TP.super self)) = ncomb model ->
length (get_all_values (tick_entity tick)) = ncomb model ->
exists self1,
TP.after (set_current model (timestep_of k tick))
  (TotalParameterLifecycle.with_param self (tick_entity tick)) = Ok self1
/\ (TP.factor self1 = factor /\ TP.integrate self1 = false)
/\ BP._values (TP.super self1)
   = imap (parameter_step factor tick) (BP._values (TP.super self)).
Proof.
intros [Hfac Hint] Hv Hf. unfold TP.after.
cbn [TotalParameterLifecycle.with_param TotalParameterLifecycle.with_super TP.super
   TP.factor TP.integrate ParameterLifecycle.with_param BP.super BP._values
   ParameterRecorder.with_param ParameterRecorder._param
   set_current current timestep_of days combinations].
rewrite Hint.
rewrite (for_each_combination model _ (parameter_step factor tick)).
- cbn [bind]. eexists. split; [reflexivity|]. split; [split; first [assumption|reflexivity] | reflexivity].
- exact Hv.
- intros i sc w x Hsc Hw Hwi. rewrite (Hwf i sc Hsc).
assert (Hi : (i < ncomb model)%nat).
{ rewrite <- Hv, <- Hw. eapply lookup_lt_Some; eassumption. }
destruct (lookup_lt_is_Some_2 (get_all_values (tick_entity tick)) i ltac:(lia))
  as [y Hy].
rewrite (vget_nat _ i y Hy). cbn [bind]. unfold BaseConstantNodeRecorder.update.
rewrite (vget_nat w i x Hwi). cbn [bind].
rewrite vset_nat by lia. unfold parameter_step. now rewrite Hy, Hfac.
Qed.

Lemma mean_after (factor : float) (self : MP.t) (tick : Tick PywrParameter) (k : nat) :
MP.factor self = factor ->
length (BP._values (MP.super self)) = ncomb model ->
length (get_all_values (tick_entity tick)) = ncomb model ->
exists self1,
MP.after (set_current model (timestep_of k tick))
  (MeanParameterLifecycle.with_param self (tick_entity tick)) = Ok self1
/\ MP.factor self1 = factor
/\ BP._values (MP.super self1)
   = imap (parameter_step factor tick) (BP._values (MP.super self)).
Proof.
intros Hfac Hv Hf. unfold MP.after.
cbn [MeanParameterLifecycle.with_param MeanParameterLifecycle.with_super MP.super
   MP.factor ParameterLifecycle.with_param BP.super BP._values
   ParameterRecorder.with_param ParameterRecorder._param
   set_current current timestep_of days combinations].
rewrite (for_each_combination model _ (parameter_step factor tick)).
- cbn [bind]. eexists. split; [reflexivity|]. split; [assumption|reflexivity].
- exact Hv.
- intros i sc w x Hsc Hw Hwi. rewrite (Hwf i sc Hsc).
assert (Hi : (i < ncomb model)%nat).
{ rewrite <- Hv, <- Hw. eapply lookup_lt_Some; eassumption. }
destruct (lookup_lt_is_Some_2 (get_all_values (tick_entity tick)) i ltac:(lia))
  as [y Hy].
rewrite (vget_nat _ i y Hy). cbn [bind]. unfold BaseConstantNodeRecorder.update.
rewrite (vget_nat w i x Hwi). cbn [bind].
rewrite vset_nat by lia. unfold parameter_step. now rewrite Hy, Hfac.
Qed.
End parameters.
End ParameterFacts.

Module BP := BaseConstantParameterRecorder.
Module TP := TotalParameterRecorder.
Module MP := MeanParameterRecorder.

(** X13. Over the same run of [N] timesteps, a [MeanParameterRecorder]
    returns the values of a [TotalParameterRecorder] with the same factor
    and without integration, each divided by [N]: both add up
    [value * factor] from zero, scenario by scenario. *)
Theorem MeanParameterRecorder_is_total_over_count
    (model : Model) (ticks : list (Tick PywrParameter))
    (base : BP.t) (factor : float) :
  wf_combinations model ->
  (0 < length ticks)%nat ->
  Z.of_nat (length ticks) < 2 ^ 31 ->
  Forall (fun tick => length (get_all_values (tick_entity tick)) = ncomb model) ticks ->
  let total := {| TP.super := base; TP.factor := factor; TP.integrate := false |} in
  let mean := {| MP.super := base; MP.factor := factor |} in
  exists total_ready total_finished mean_ready mean_finished totals,
    TotalParameterLifecycle.setup model total = Ok total_ready
    /\ run TotalParameterLifecycle.with_param TP.after TotalParameterLifecycle.reset
         no_finish model ticks total_ready = Ok total_finished
    /\ MeanParameterLifecycle.setup model mean = Ok mean_ready
    /\ run MeanParameterLifecycle.with_param MP.after MeanParameterLifecycle.reset
         MP.finish model ticks mean_ready = Ok mean_finished
    /\ values model (IsTotalParameterRecorder total_finished) = Ok totals
    /\ totals = accumulated (parameter_step factor) 0 ticks (ncomb model)
    /\ values model (IsMeanParameterRecorder mean_finished)
       = Ok (map (fun x => x / float_of_Z (Z.of_nat (length ticks)))%float totals).
Proof.
  intros Hwf Hpos Hint Hvals total mean.
  exists (TotalParameterLifecycle.with_super total
            (BP.with_values base (replicate (ncomb model) 0%float))).
  assert (Ht : exists total_finished,
             run TotalParameterLifecycle.with_param TP.after TotalParameterLifecycle.reset
               no_finish model ticks
               (TotalParameterLifecycle.with_super total
                  (BP.with_values base (replicate (ncomb model) 0%float)))
             = Ok total_finished
             /\ BP._values (TP.super total_finished)
                = accumulated (parameter_step factor) 0 ticks (ncomb model)).
  { unfold run, TotalParameterLifecycle.reset, BP.reset.
    cbn [bind TotalParameterLifecycle.with_super TP.super BP.with_values BP._values BP.super].
    rewrite length_replicate.
    match goal with
    | |- exists f, (s <- step_from _ _ _ _ _ ?self0 ;; _) = _ /\ _ =>
        destruct (accumulate_steps TotalParameterLifecycle.with_param TP.after
                    (fun s => BP._values (TP.super s))
                    (fun s => TP.factor s = factor /\ TP.integrate s = false)
                    (fun tick => length (get_all_values (tick_entity tick)) = ncomb model)
                    (parameter_step factor) model (ncomb model)
                    (fun s tick k Hi Hl Hg =>
                       ParameterFacts.total_after model Hwf factor s tick k Hi Hl Hg)
                    ticks Hvals 0%nat self0 (fun _ => 0%float) (conj eq_refl eq_refl)
                    (replicate_as_map _ _)) as (self' & Hrun & _ & Hv)
    end.
    exists self'. rewrite Hrun. split; [reflexivity|exact Hv]. }
  destruct Ht as (total_finished & Htrun & Htv).
  exists total_finished.
  exists (MeanParameterLifecycle.with_super mean
            (BP.with_values base (replicate (ncomb model) 0%float))).
  assert (Hm : exists mean_finished,
             run MeanParameterLifecycle.with_param MP.after MeanParameterLifecycle.reset
               MP.finish model ticks
               (MeanParameterLifecycle.with_super mean
                  (BP.with_values base (replicate (ncomb model) 0%float)))
             = Ok mean_finished
             /\ BP._values (MP.super mean_finished)
                = map (fun x => x / float_of_Z (Z.of_nat (length ticks)))%float
                    (accumulated (parameter_step factor) 0 ticks (ncomb model))).
  { unfold run, MeanParameterLifecycle.reset, BP.reset.
    cbn [bind MeanParameterLifecycle.with_super MP.super BP.with_values BP._values BP.super].
    rewrite length_replicate.
    match goal with
    | |- exists f, (s <- step_from _ _ _ _ _ ?self0 ;; _) = _ /\ _ =>
        destruct (accumulate_steps MeanParameterLifecycle.with_param MP.after
                    (fun s => BP._values (MP.super s))
                    (fun s => MP.factor s = factor)
                    (fun tick => length (get_all_values (tick_entity tick)) = ncomb model)
                    (parameter_step factor) model (ncomb model)
                    (fun s tick k Hi Hl Hg =>
                       ParameterFacts.mean_after model Hwf factor s tick k Hi Hl Hg)
                    ticks Hvals 0%nat self0 (fun _ => 0%float) eq_refl
                    (replicate_as_map _ _)) as (self' & Hrun & _ & Hv)
    end.
    rewrite Hrun. cbn [bind]. unfold MP.finish. rewrite Hv.
    rewrite divide_by_index_ok by assumption. cbn [bind].
    eexists. split; [reflexivity|]. reflexivity. }
  destruct Hm as (mean_finished & Hmrun & Hmv).
  exists mean_finished, (accumulated (parameter_step factor) 0 ticks (ncomb model)).
  split; [reflexivity|]. split; [exact Htrun|]. split; [reflexivity|].
  split; [exact Hmrun|].
  split; [cbn [values]; unfold TP.values, BP.values; now rewrite Htv|].
  split; [reflexivity|].
  cbn [values]. unfold MP.values, BP.values. now rewrite Hmv.
Qed.

Lemma MeanParameterRecorder_is_total_over_count_witness :
  exists total_finished mean_finished,
    run TotalParameterLifecycle.with_param TP.after TotalParameterLifecycle.reset
      no_finish (single_scenario 5) (map parameter_tick one_to_five)
      {| TP.super := BP.with_values example_parameter_recorder [0%float];
         TP.factor := 2; TP.integrate := false |} = Ok total_finished
    /\ run MeanParameterLifecycle.with_param MP.after MeanParameterLifecycle.reset
         MP.finish (single_scenario 5) (map parameter_tick one_to_five)
         {| MP.super := BP.with_values example_parameter_recorder [0%float];
            MP.factor := 2 |} = Ok mean_finished
    /\ values (single_scenario 5) (IsTotalParameterRecorder total_finished)
       = Ok [30%float]
    /\ values (single_scenario 5) (IsMeanParameterRecorder mean_finished)
       = Ok [6%float].
Proof.
  destruct (MeanParameterRecorder_is_total_over_count (single_scenario 5)
              (map parameter_tick one_to_five) example_parameter_recorder 2%float)
    as (tr & tf & mr & mf & totals & H1 & H2 & H3 & H4 & H5 & H6 & H7).
  - intros i sc Hsc. destruct i as [|[|i]]; cbn in Hsc; try discriminate.
    now injection Hsc as <-.
  - cbn. lia.
  - cbn. lia.
  - repeat constructor.
  - injection H1 as <-. injection H3 as <-.
    exists tf, mf. split; [exact H2|]. split; [exact H4|].
    rewrite H5, H7, H6. split; reflexivity.
Defined.

(** ** The end of a run that the timestepper has not entered *)

Lemma div_zero_cases (x : float) :
  is_nan (x / 0)%float = true
  \/ (x / 0)%float = infinity \/ (x / 0)%float = neg_infinity.
Proof.
  assert (H : Prim2SF (x / 0)%float = SF64div (Prim2SF x) (S754_zero false))
    by apply FloatAxioms.div_spec.
  unfold SF64div, SFdiv in H. destruct (Prim2SF x) as [s|s| |s m e].
  - left. replace (x / 0)%float with nan by (apply Prim2SF_inj; now rewrite H). reflexivity.
  - destruct s; [right; right|right; left]; apply Prim2SF_inj; now rewrite H.
  - left. replace (x / 0)%float with nan by (apply Prim2SF_inj; now rewrite H). reflexivity.
  - destruct s; [right; right|right; left]; apply Prim2SF_inj; now rewrite H.
Qed.

(** X14. The recorders of a mean divide by the index of the current
    timestep, in place and without a test of the divisor. When [finish()]
    is called while that index is zero, so before any timestep has been
    completed, it raises nothing: [finish()] of a [MeanFlowNodeRecorder], of
    a [DeficitFrequencyNodeRecorder] and of a [MeanParameterRecorder]
    returns, and every value has been divided by zero, which leaves a NaN
    (for a value of zero) or an infinity. *)
Theorem mean_recorders_finish_at_index_zero (model : Model) :
  index (current model) = 0 ->
  (forall self : MeanFlowNodeRecorder.t,
      exists finished,
        MeanFlowNodeRecorder.finish model self = Ok finished
        /\ values model (IsMeanFlowNodeRecorder finished)
           = Ok (map (fun x => x / 0)%float
                   (BaseConstantNodeRecorder._values (MeanFlowNodeRecorder.super self))))
  /\ (forall self : DeficitFrequencyNodeRecorder.t,
         exists finished,
           DeficitFrequencyNodeRecorder.finish model self = Ok finished
           /\ values model (IsDeficitFrequencyNodeRecorder finished)
              = Ok (map (fun x => x / 0)%float (BaseConstantNodeRecorder._values self)))
  /\ (forall self : MeanParameterRecorder.t,
         exists finished,
           MeanParameterRecorder.finish model self = Ok finished
           /\ values model (IsMeanParameterRecorder finished)
              = Ok (map (fun x => x / 0)%float
                      (BaseConstantParameterRecorder._values
                         (MeanParameterRecorder.super self))))
  /\ (forall x : float,
         is_nan (x / 0)%float = true
         \/ (x / 0)%float = infinity \/ (x / 0)%float = neg_infinity)
  /\ (0 / 0)%float = nan.
Proof.
  intros Hi. split; [|split; [|split; [|split]]].
  - intros self. unfold MeanFlowNodeRecorder.finish.
    rewrite divide_by_index_value, Hi. cbn [bind float_of_Z].
    eexists. split; reflexivity.
  - intros self. unfold DeficitFrequencyNodeRecorder.finish.
    rewrite divide_by_index_value, Hi. cbn [bind float_of_Z].
    eexists. split; reflexivity.
  - intros self. unfold MeanParameterRecorder.finish.
    rewrite divide_by_index_value, Hi. cbn [bind float_of_Z].
    eexists. split; reflexivity.
  - exact div_zero_cases.
  - reflexivity.
Qed.

Lemma mean_recorders_finish_at_index_zero_witness :
  index (current two_scenarios) = 0
  /\ exists ready finished,
       MeanFlowNodeRecorder.setup two_scenarios example_mean_flow_recorder = Ok ready
       /\ MeanFlowNodeRecorder.finish two_scenarios ready = Ok finished
       /\ values two_scenarios (IsMeanFlowNodeRecorder finished) = Ok [nan; nan].
Proof.
  split; [reflexivity|]. eexists.
  destruct (proj1 (mean_recorders_finish_at_index_zero two_scenarios eq_refl)
              (MeanFlowNodeRecorder.with_super example_mean_flow_recorder
                 (BaseConstantNodeRecorder.with_values
                    (MeanFlowNodeRecorder.super example_mean_flow_recorder)
                    (replicate (ncomb two_scenarios) 0%float))))
    as (finished & Hfin & Hval).
  exists finished. split; [reflexivity|]. split; [exact Hfin|].
  rewrite Hval. reflexivity.
Defined.

(** ** Rolling windows *)

(** X15. A [RollingWindowParameterRecorder] keeps nothing of a run once
    [reset()] has been called: after a first run, a second run over other
    timesteps leaves the buffer that it leaves on a recorder that has just
    been set up. *)
Theorem RollingWindowParameterRecorder_run_after_run
    (junk : nat -> nat -> float) (model : Model) (self : RW.t)
    (first second : list (Tick PywrParameter)) (w : nat) :
  RW.window self = Z.of_nat w -> (1 <= w)%nat ->
  (length first <= n_timesteps model)%nat ->
  (length second <= n_timesteps model)%nat ->
  aggregates_columns (RW._temporal_aggregator self) ->
  exists ready once twice fresh,
    RW.setup junk model self = Ok ready
    /\ run RW.with_param RW.after RW.reset RW.finish model first ready = Ok once
    /\ run RW.with_param RW.after RW.reset RW.finish model second once = Ok twice
    /\ run RW.with_param RW.after RW.reset RW.finish model second ready = Ok fresh
    /\ RW.data twice = RW.data fresh.
Proof.
  intros Hwin Hw Hlen1 Hlen2 Hagg.
  destruct (RollingWindowFacts.setup_prepared junk model self w Hwin)
    as (ready & Hsetup & Hprep).
  destruct (RollingWindowFacts.run_ok model _ w Hw Hagg first Hlen1 ready Hprep)
    as (once & Hrun1 & Hinv1).
  destruct (RollingWindowFacts.run_ok model _ w Hw Hagg second Hlen2 once
              (RollingWindowFacts.invariant_prepared model _ w first _ once Hinv1))
    as (twice & Hrun2 & Hinv2).
  destruct (RollingWindowFacts.run_ok model _ w Hw Hagg second Hlen2 ready Hprep)
    as (fresh & Hrun3 & Hinv3).
  exists ready, once, twice, fresh.
  split; [exact Hsetup|]. split; [exact Hrun1|]. split; [exact Hrun2|].
  split; [exact Hrun3|].
  eapply RollingWindowFacts.data_determined; eassumption.
Qed.

Lemma RollingWindowParameterRecorder_run_after_run_witness :
  exists ready once twice fresh,
    RW.setup no_junk (single_scenario 5) (example_rolling_window 3) = Ok ready
    /\ run RW.with_param RW.after RW.reset RW.finish (single_scenario 5)
         (map parameter_tick one_to_five) ready = Ok once
    /\ run RW.with_param RW.after RW.reset RW.finish (single_scenario 5)
         (map parameter_tick [5; 3]%float) once = Ok twice
    /\ run RW.with_param RW.after RW.reset RW.finish (single_scenario 5)
         (map parameter_tick [5; 3]%float) ready = Ok fresh
    /\ RW.data twice = RW.data fresh.
Proof.
  apply (RollingWindowParameterRecorder_run_after_run no_junk (single_scenario 5)
           (example_rolling_window 3) (map parameter_tick one_to_five)
           (map parameter_tick [5; 3]%float) 3%nat).
  - reflexivity.
  - lia.
  - cbn. lia.
  - cbn. lia.
  - apply builtin_aggregates_columns. discriminate.
Defined.

Module RMF := RollingMeanFlowNodeRecorder.

(** X16. The window of a [RollingMeanFlowNodeRecorder]. The constructor
    refuses a recorder with neither [timesteps] nor [days], a zero counting
    as none. When [days] is set, [setup()] takes [days // delta.days] for
    the window, whatever [timesteps] was, and raises [ValueError] when that
    is not positive, as it is for fewer days than a timestep has. *)
Theorem RollingMeanFlowNodeRecorder_window_resolution :
  (forall (node : AbstractNode) (kw : kwargs) (base : NodeRecorder.t)
          (timesteps days : option Z),
      NodeRecorder.__init__ node kw = Ok base ->
      timesteps = None \/ timesteps = Some 0 ->
      days = None \/ days = Some 0 ->
      RMF.__init__ node timesteps days kw = Raise ValueError)
  /\ (forall (junk : nat -> nat -> float) (model : Model) (self : RMF.t),
         RMF.days self <> 0 -> 0 < delta_days model ->
         match RMF.setup junk model self with
         | Ok ready =>
             RMF.timesteps ready = RMF.days self / delta_days model
             /\ 0 < RMF.timesteps ready
             /\ RMF.position ready = 0
             /\ RMF._memory ready
                = np_zeros (ncomb model) (Z.to_nat (RMF.days self / delta_days model))
         | Raise e => e = ValueError /\ RMF.days self < delta_days model
         end).
Proof.
  split.
  - intros node kw base timesteps days Hbase Ht Hd. unfold RMF.__init__.
    rewrite Hbase. cbn [bind]. now destruct Ht as [-> | ->], Hd as [-> | ->].
  - intros junk model self Hdays Hdelta. unfold RMF.setup.
    destruct (RMF.days self =? 0) eqn:E0; [apply Z.eqb_eq in E0; congruence|].
    cbn [negb]. destruct (delta_days model =? 0) eqn:Ed; [apply Z.eqb_eq in Ed; lia|].
    cbn [bind].
    destruct (RMF.days self / delta_days model =? 0) eqn:Ez.
    + split; [reflexivity|]. apply Z.eqb_eq in Ez.
      apply Z.div_small_iff in Ez; lia.
    + destruct (RMF.days self / delta_days model <? 0) eqn:En.
      * split; [reflexivity|]. apply Z.ltb_lt in En.
        destruct (Z.lt_ge_cases (RMF.days self) 0) as [Hneg|Hpos]; [lia|].
        pose proof (Z.div_pos _ _ Hpos Hdelta). lia.
      * cbn. apply Z.eqb_neq in Ez. apply Z.ltb_ge in En.
        split; [reflexivity|]. split; [lia|]. split; reflexivity.
Qed.

Lemma RollingMeanFlowNodeRecorder_window_resolution_witness :
  RMF.days (example_rolling_days 7) <> 0
  /\ 0 < delta_days (single_scenario 5)
  /\ match RMF.setup no_junk (single_scenario 5) (example_rolling_days 7) with
     | Ok ready =>
         RMF.timesteps ready = 7 / 1
         /\ 0 < RMF.timesteps ready
         /\ RMF.position ready = 0
         /\ RMF._memory ready = np_zeros 1 (Z.to_nat (7 / 1))
     | Raise e => e = ValueError /\ 7 < 1
     end.
Proof.
  assert (H1 : RMF.days (example_rolling_days 7) <> 0) by discriminate.
  assert (H2 : 0 < delta_days (single_scenario 5)) by reflexivity.
  split; [exact H1|]. split; [exact H2|].
  exact (proj2 RollingMeanFlowNodeRecorder_window_resolution no_junk (single_scenario 5)
           (example_rolling_days 7) H1 H2).
Defined.

(** ** The columns of the targets of a deviation recorder *)

Module TargetFacts.
Module Dev := FlowDurationCurveDeviationRecorder.

Lemma setup_targets (model : Model) (self ready : Dev.t) :
Dev.setup model self = Ok ready ->
Dev._lower_target_fdc ready = Dev._lower_target_fdc self
/\ Dev._upper_target_fdc ready = Dev._upper_target_fdc self
/\ Dev.scenario ready = Dev.scenario self
/\ match Dev.scenario self with
   | Some s =>
       Z.of_nat (shape1 (Dev._lower_target_fdc self)) = Scenario.size s
       /\ Z.of_nat (shape1 (Dev._upper_target_fdc self)) = Scenario.size s
   | None =>
       ((shape1 (Dev._lower_target_fdc self) <= 1)%nat
        \/ shape1 (Dev._lower_target_fdc self) = ncomb model)
       /\ ((shape1 (Dev._upper_target_fdc self) <= 1)%nat
           \/ shape1 (Dev._upper_target_fdc self) = ncomb model)
   end.
Proof.
unfold Dev.setup, NumpyArrayNodeRecorder.setup. cbn [bind].
cbn [Dev.with_super Dev._lower_target_fdc Dev._upper_target_fdc Dev.scenario].
destruct (Dev.scenario self) as [s|] eqn:Hs.
- destruct (Z.of_nat (shape1 (Dev._lower_target_fdc self)) =? Scenario.size s) eqn:El;
    cbn [negb]; [|discriminate].
  destruct (Z.of_nat (shape1 (Dev._upper_target_fdc self)) =? Scenario.size s) eqn:Eu;
    cbn [negb]; [|discriminate].
  intros [= <-]. cbn. apply Z.eqb_eq in El, Eu. rewrite Hs. auto.
- destruct ((1 <? Z.of_nat (shape1 (Dev._lower_target_fdc self)))
            && negb (Z.of_nat (shape1 (Dev._lower_target_fdc self))
                     =? Z.of_nat (ncomb model))) eqn:El; [discriminate|].
  destruct ((1 <? Z.of_nat (shape1 (Dev._upper_target_fdc self)))
            && negb (Z.of_nat (shape1 (Dev._upper_target_fdc self))
                     =? Z.of_nat (ncomb model))) eqn:Eu; [discriminate|].
  intros [= <-]. cbn. rewrite Hs.
  apply andb_false_iff in El, Eu.
  repeat split; trivial.
  + destruct El as [El|El]; [left; apply Z.ltb_ge in El; lia|].
    right. apply negb_false_iff, Z.eqb_eq in El. lia.
  + destruct Eu as [Eu|Eu]; [left; apply Z.ltb_ge in Eu; lia|].
    right. apply negb_false_iff, Z.eqb_eq in Eu. lia.
Qed.

Lemma column_without_scenario (model : Model) (target : ndarray2) (sc : ScenarioIndex) :
wf_combinations model -> sc ∈ combinations model ->
shape1 target = 1%nat \/ shape1 target = ncomb model ->
is_Some (chosen_column None target sc).
Proof.
intros Hwf Hsc Hshape. apply list_elem_of_lookup_1 in Hsc as [i Hi].
assert (Hlt : (i < ncomb model)%nat) by (eapply lookup_lt_Some; eassumption).
unfold chosen_column. cbn [bind]. rewrite (Hwf i sc Hi).
destruct (Nat.eqb_spec (shape1 target) 1) as [E|E].
- rewrite E. now eexists.
- destruct Hshape as [Hshape|Hshape]; [congruence|].
  rewrite Hshape, py_index_nat by exact Hlt. now eexists.
Qed.

Lemma column_with_scenario (s : Scenario.t) (target : ndarray2) (sc : ScenarioIndex)
  (j : Z) :
vget (_indices sc) (Scenario.scenario_index s) = Ok j ->
0 <= j < Scenario.size s ->
Z.of_nat (shape1 target) = Scenario.size s ->
is_Some (chosen_column (Some s) target sc).
Proof.
intros Hj Hrange Hshape. unfold chosen_column. rewrite Hj. cbn [bind].
destruct (Nat.eqb_spec (shape1 target) 1) as [E|E].
- rewrite E. now eexists.
- rewrite <- (Z2Nat.id j) by lia. rewrite py_index_nat by lia. now eexists.
Qed.
End TargetFacts.

(** X17. The checks of [setup()] on the targets of a deviation recorder are
    what [finish()] needs: when [setup()] has accepted targets that have a
    column, every scenario combination finds its column in both, so
    [finish()] returns once the percentiles have been computed, in any
    later state of the recorder with these targets. *)
Theorem FlowDurationCurveDeviationRecorder_setup_guards_finish
    (np_percentile : percentile_fn) (junk : nat -> nat -> float) (model : Model)
    (self ready later : Dev.t) (fdc : ndarray2) :
  let lower := Dev._lower_target_fdc self in
  let upper := Dev._upper_target_fdc self in
  Dev.setup model self = Ok ready ->
  scenario_columns model (Dev.scenario self) ->
  shape1 lower <> 0%nat -> shape1 upper <> 0%nat ->
  well_shaped lower (shape0 lower) (shape1 lower) ->
  well_shaped upper (shape0 lower) (shape1 upper) ->
  Dev._lower_target_fdc later = lower ->
  Dev._upper_target_fdc later = upper ->
  Dev.scenario later = Dev.scenario self ->
  np_percentile
    (NumpyArrayNodeRecorder._data (FlowDurationCurveRecorder.super (Dev.super later)))
    (FlowDurationCurveRecorder._percentiles (Dev.super later)) = Ok fdc ->
  well_shaped fdc (shape0 lower) (ncomb model) ->
  (forall sc, sc ∈ combinations model ->
     is_Some (chosen_column (Dev.scenario self) lower sc)
     /\ is_Some (chosen_column (Dev.scenario self) upper sc))
  /\ exists finished,
       Dev.finish np_percentile junk model later = Ok finished
       /\ well_shaped (Dev._fdc_deviations finished) (shape0 lower) (ncomb model).
Proof.
  intros lower upper Hsetup Hmodel Hl0 Hu0 Hlower Hupper Hll Hlu Hls Hfdc Hshape.
  destruct (TargetFacts.setup_targets model self ready Hsetup) as (_ & _ & _ & Hchecked).
  fold lower upper in Hchecked.
  assert (Hcols : forall sc, sc ∈ combinations model ->
            is_Some (chosen_column (Dev.scenario self) lower sc)
            /\ is_Some (chosen_column (Dev.scenario self) upper sc)).
  { intros sc Hsc. destruct (Dev.scenario self) as [s|].
    - destruct Hchecked as [Hcl Hcu]. destruct (Hmodel sc Hsc) as (j & Hj & Hrange).
      split; eapply TargetFacts.column_with_scenario; eassumption.
    - destruct Hchecked as [Hcl Hcu].
      split; apply (TargetFacts.column_without_scenario model); trivial; lia. }
  split; [exact Hcols|].
  destruct (DeviationFacts.deviation_finish_ok np_percentile junk model later fdc)
    as (finished & Hfin & _ & Hfilled & _).
  - exact Hfdc.
  - now rewrite Hll.
  - now rewrite Hll.
  - now rewrite Hll, Hlu.
  - rewrite Hll, Hlu, Hls. exact Hcols.
  - exists finished. split; [exact Hfin|]. now rewrite Hll in Hfilled.
Qed.

Lemma FlowDurationCurveDeviationRecorder_setup_guards_finish_witness :
  exists ready,
    Dev.setup four_scenarios example_deviation_recorder = Ok ready
    /\ exists finished,
         Dev.finish single_row_percentile no_junk four_scenarios ready = Ok finished
         /\ well_shaped (Dev._fdc_deviations finished) 1 4.
Proof.
  destruct (Dev.setup four_scenarios example_deviation_recorder) as [ready|e] eqn:Hsetup;
    [|discriminate].
  exists ready. split; [reflexivity|]. injection Hsetup as <-.
  match goal with
  | |- exists finished, Dev.finish _ _ _ ?r = _ /\ _ =>
      refine (proj2 (FlowDurationCurveDeviationRecorder_setup_guards_finish
                       single_row_percentile no_junk four_scenarios
                       example_deviation_recorder r r (np_zeros 1 4)
                       eq_refl _ _ _ _ _ eq_refl eq_refl eq_refl eq_refl _))
  end.
  - intros i sc Hsc. destruct i as [|[|[|[|i]]]]; cbn in Hsc; try discriminate;
      now injection Hsc as <-.
  - discriminate.
  - discriminate.
  - repeat split; repeat constructor.
  - repeat split; repeat constructor.
  - repeat split; repeat constructor.
Defined.

(** ** Runs of the annual count recorder, one after the other *)

Lemma annual_run_counts (model : Model) (self : AC.t) (blocks : list year_block) :
  wf_combinations model ->
  length (AC._count self) = ncomb model ->
  length (AC._current_max self) = ncomb model ->
  years_change (-1) blocks -> blocks <> [] ->
  Z.of_nat (length blocks) < 2 ^ 31 ->
  exists finished,
    run AC.with_param AC.after AC.reset AC.finish model (calendar blocks) self
    = Ok finished
    /\ AC.threshold finished = AC.threshold self
    /\ length (AC._count finished) = ncomb model
    /\ length (AC._current_max finished) = ncomb model
    /\ values model (IsAnnualCountIndexParameterRecorder finished)
       = Ok (map (fun i => float_of_Z
                             (Z.of_nat (years_reaching model (AC.threshold self) i blocks)))
               (seq 0 (ncomb model))).
Proof.
  intros Hwf Hlc Hlm Hyears Hne Hlen.
  set (fresh := {| AC.super := AC.super self;
                   AC.threshold := AC.threshold self;
                   AC._count := replicate (ncomb model) 0;
                   AC._current_year := -1;
                   AC._current_max := replicate (ncomb model) 0 |}).
  assert (Hreset : AC.reset self = Ok fresh).
  { unfold AC.reset, fresh. now rewrite Hlc, Hlm. }
  assert (Hfresh : annual_state model fresh (fun _ => 0) (fun _ => 0) (-1)).
  { unfold annual_state, fresh. cbn. rewrite <- replicate_as_map. auto. }
  destruct (AnnualCountFacts.all_years model Hwf blocks 0%nat fresh _ _ _ Hfresh Hyears)
    as (after_run & count' & current_max' & y' & Hrun & Hth & Hst' & Hlast & Hsum).
  { intros i. cbn. unfold pending_year. cbn.
    change (2 ^ 31) with 2147483648 in Hlen. lia. }
  destruct (AnnualCountFacts.annual_finish_ok
              (end_of_run model (length (calendar blocks))) after_run
              count' current_max' y' Hst') as (finished & Hfin & Hthf & Hst'').
  exists finished. split.
  { unfold run. rewrite Hreset. cbn [bind]. rewrite Hrun. cbn [bind]. exact Hfin. }
  destruct Hst'' as (Hc & Hm & _).
  change (ncomb (end_of_run model (length (calendar blocks)))) with (ncomb model) in Hc, Hm.
  split; [now rewrite Hthf, Hth|].
  split; [now rewrite Hc, length_map, length_seq|].
  split; [now rewrite Hm, length_map, length_seq|].
  cbn [values]. unfold AC.values. f_equal.
  rewrite Hc, map_map. apply map_ext_in. intros i _. f_equal.
  destruct (Hsum i) as [H0 Heq]. rewrite Hth.
  change (AC.threshold fresh) with (AC.threshold self) in *.
  unfold pending_year in Heq. cbn in Heq.
  replace (y' =? -1) with false in Heq
    by (symmetry; apply Z.eqb_neq; apply Hlast; exact Hne).
  pose proof (Nat2Z.is_nonneg (years_reaching model (AC.threshold self) i blocks)).
  assert (Z.of_nat (years_reaching model (AC.threshold self) i blocks)
          <= Z.of_nat (length blocks)).
  { unfold years_reaching. apply inj_le. apply length_filter. }
  change (2 ^ 31) with 2147483648 in Hlen.
  destruct (AC.threshold self <=? current_max' i).
  - rewrite AnnualCountFacts.wrap_int_small by lia. lia.
  - lia.
Qed.

(** X18. The counts of an [AnnualCountIndexParameterRecorder] start again
    with every run: after a first run over whole years, a second run
    returns the number of years of the second run whose maximum reached the
    threshold, and nothing of the first. *)
Theorem AnnualCountIndexParameterRecorder_run_after_run
    (model : Model) (self : AC.t) (first second : list year_block) :
  wf_combinations model ->
  years_change (-1) first -> first <> [] -> Z.of_nat (length first) < 2 ^ 31 ->
  years_change (-1) second -> second <> [] -> Z.of_nat (length second) < 2 ^ 31 ->
  exists ready once twice,
    AC.setup model self = Ok ready
    /\ run AC.with_param AC.after AC.reset AC.finish model (calendar first) ready = Ok once
    /\ run AC.with_param AC.after AC.reset AC.finish model (calendar second) once
       = Ok twice
    /\ values model (IsAnnualCountIndexParameterRecorder twice)
       = Ok (map (fun i => float_of_Z
                             (Z.of_nat (years_reaching model (AC.threshold self) i second)))
               (seq 0 (ncomb model))).
Proof.
  intros Hwf Hy1 Hn1 Hl1 Hy2 Hn2 Hl2.
  set (ready := {| AC.super := AC.super self;
                   AC.threshold := AC.threshold self;
                   AC._count := replicate (ncomb model) 0;
                   AC._current_year := AC._current_year self;
                   AC._current_max := replicate (ncomb model) 0 |}).
  destruct (annual_run_counts model ready first Hwf) as (once & Hrun1 & Hth1 & Hc1 & Hm1 & _);
    try assumption; try (cbn; apply length_replicate).
  destruct (annual_run_counts model once second Hwf Hc1 Hm1 Hy2 Hn2 Hl2)
    as (twice & Hrun2 & _ & _ & _ & Hv2).
  exists ready, once, twice. split; [reflexivity|]. split; [exact Hrun1|].
  split; [exact Hrun2|]. rewrite Hv2, Hth1. reflexivity.
Qed.

Lemma AnnualCountIndexParameterRecorder_run_after_run_witness :
  exists ready once twice,
    AC.setup one_scenario (example_annual_count 2) = Ok ready
    /\ run AC.with_param AC.after AC.reset AC.finish one_scenario
         (calendar example_years) ready = Ok once
    /\ run AC.with_param AC.after AC.reset AC.finish one_scenario
         (calendar (take 1 example_years)) once = Ok twice
    /\ values one_scenario (IsAnnualCountIndexParameterRecorder once) = Ok [2%float]
    /\ values one_scenario (IsAnnualCountIndexParameterRecorder twice) = Ok [0%float].
Proof.
  destruct (AnnualCountIndexParameterRecorder_run_after_run one_scenario
              (example_annual_count 2) example_years (take 1 example_years))
    as (ready & once & twice & H1 & H2 & H3 & H4).
  - exact one_scenario_wf.
  - cbn. repeat split; discriminate.
  - discriminate.
  - cbn. lia.
  - cbn. repeat split; discriminate.
  - discriminate.
  - cbn. lia.
  - exists ready, once, twice. split; [exact H1|]. split; [exact H2|]. split; [exact H3|].
    split; [|rewrite H4; reflexivity].
    injection H1 as <-. revert H2. cbv. now intros [= <-].
Defined.

(** ** One timestep of the time series of a storage node or of a parameter *)

Module NS := NumpyArrayAbstractStorageRecorder.

(** X19. One [after()] of a time-series recorder of a storage node or of a
    parameter replaces the row of the current timestep and nothing else. The
    row holds, scenario by scenario, the proportional volume when
    [proportional] is set and the volume otherwise
    ([NumpyArrayStorageRecorder]), the level ([NumpyArrayLevelRecorder]),
    the area ([NumpyArrayAreaRecorder]), the values of the parameter
    ([NumpyArrayParameterRecorder]). *)
Theorem time_series_after_writes_row (model : Model) (k nts : nat) :
  index (current model) = Z.of_nat k -> (k < nts)%nat ->
  (forall self : NumpyArrayStorageRecorder.t,
      let base := NumpyArrayStorageRecorder.super self in
      let node := StorageRecorder._node (NS.super base) in
      let source := if NumpyArrayStorageRecorder.proportional self
                    then _current_pc node else _volume node in
      well_shaped (NS._data base) nts (ncomb model) ->
      length source = ncomb model ->
      exists self',
        NumpyArrayStorageRecorder.after model self = Ok self'
        /\ NS._data (NumpyArrayStorageRecorder.super self')
           = mk_ndarray2 (ncomb model) (<[k := source]> (rows (NS._data base))))
  /\ (forall self : NumpyArrayLevelRecorder.t,
         let node := StorageRecorder._node (NS.super self) in
         well_shaped (NS._data self) nts (ncomb model) ->
         exists self',
           NumpyArrayLevelRecorder.after model self = Ok self'
           /\ NS._data self'
              = mk_ndarray2 (ncomb model)
                  (<[k := map (get_level node) (combinations model)]>
                     (rows (NS._data self))))
  /\ (forall self : NumpyArrayAreaRecorder.t,
         let node := StorageRecorder._node (NS.super self) in
         well_shaped (NS._data self) nts (ncomb model) ->
         exists self',
           NumpyArrayAreaRecorder.after model self = Ok self'
           /\ NS._data self'
              = mk_ndarray2 (ncomb model)
                  (<[k := map (get_area node) (combinations model)]>
                     (rows (NS._data self))))
  /\ (forall self : NumpyArrayParameterRecorder.t,
         let source :=
           get_all_values (ParameterRecorder._param (NumpyArrayParameterRecorder.super self)) in
         well_shaped (NumpyArrayParameterRecorder._data self) nts (ncomb model) ->
         length source = ncomb model ->
         exists self',
           NumpyArrayParameterRecorder.after model self = Ok self'
           /\ NumpyArrayParameterRecorder._data self'
              = mk_ndarray2 (ncomb model)
                  (<[k := source]> (rows (NumpyArrayParameterRecorder._data self)))).
Proof.
  intros Hk Hlt. split; [|split; [|split]].
  - intros self base node source (Hs & Hl & Hrows) Hsrc.
    unfold NumpyArrayStorageRecorder.after. fold base. fold node. rewrite Hk.
    destruct (lookup_lt_is_Some_2 (rows (NS._data base)) k ltac:(lia)) as [row Hrow].
    assert (Hlen : length row = ncomb model).
    { rewrite Forall_forall in Hrows. apply Hrows. eapply list_elem_of_lookup_2. eassumption. }
    unfold for_range.
    rewrite (for_loop_ext _
               (fun i m => mset m (Z.of_nat k) (Z.of_nat i) (default nan (source !! i)))).
    + fold (for_range (shape1 (NS._data base))
              (fun i m => mset m (Z.of_nat k) (Z.of_nat i) (default nan (source !! i)))
              (NS._data base)).
      rewrite (ArrayFacts.fill_row_range _ _ k _ row Hrow) by congruence. cbn [bind].
      eexists. split; [reflexivity|]. cbn.
      rewrite Hs, <- Hsrc, map_seq_lookup. reflexivity.
    + intros i s Hi.
      destruct (lookup_lt_is_Some_2 source i ltac:(lia)) as [x Hx].
      rewrite Hx. cbn [from_option id]. subst source.
      destruct (NumpyArrayStorageRecorder.proportional self);
        now rewrite (vget_nat _ i x Hx).
  - intros self node (Hs & Hl & Hrows).
    unfold NumpyArrayLevelRecorder.after. fold node. rewrite Hk.
    destruct (lookup_lt_is_Some_2 (rows (NS._data self)) k ltac:(lia)) as [row Hrow].
    assert (Hlen : length row = ncomb model).
    { rewrite Forall_forall in Hrows. apply Hrows. eapply list_elem_of_lookup_2. eassumption. }
    rewrite (fill_row (get_level node) (combinations model) _ k row Hrow Hlen).
    cbn [bind]. eexists. split; [reflexivity|]. cbn. now rewrite Hs.
  - intros self node (Hs & Hl & Hrows).
    unfold NumpyArrayAreaRecorder.after. fold node. rewrite Hk.
    destruct (lookup_lt_is_Some_2 (rows (NS._data self)) k ltac:(lia)) as [row Hrow].
    assert (Hlen : length row = ncomb model).
    { rewrite Forall_forall in Hrows. apply Hrows. eapply list_elem_of_lookup_2. eassumption. }
    rewrite (fill_row (get_area node) (combinations model) _ k row Hrow Hlen).
    cbn [bind]. eexists. split; [reflexivity|]. cbn. now rewrite Hs.
  - intros self source (Hs & Hl & Hrows) Hsrc.
    unfold NumpyArrayParameterRecorder.after. fold source. rewrite Hk.
    rewrite mset_row_ok by (unfold shape0; lia || congruence). cbn [bind].
    eexists. split; [reflexivity|]. cbn. now rewrite Hs.
Qed.

Lemma time_series_after_writes_row_witness :
  index (current two_scenarios) = Z.of_nat 0
  /\ (0 < 1)%nat
  /\ (exists self',
         NumpyArrayStorageRecorder.after two_scenarios (example_storage_series true)
         = Ok self'
         /\ NS._data (NumpyArrayStorageRecorder.super self')
            = mk_ndarray2 2 [[0.5; 0.75]]%float)
  /\ (exists self',
         NumpyArrayStorageRecorder.after two_scenarios (example_storage_series false)
         = Ok self'
         /\ NS._data (NumpyArrayStorageRecorder.super self')
            = mk_ndarray2 2 [[5; 9]]%float).
Proof.
  assert (H1 : index (current two_scenarios) = Z.of_nat 0) by reflexivity.
  assert (H2 : (0 < 1)%nat) by lia.
  split; [exact H1|]. split; [exact H2|].
  pose proof (proj1 (time_series_after_writes_row two_scenarios 0 1 H1 H2)) as H.
  split.
  - apply (H (example_storage_series true)).
    + repeat split; repeat constructor.
    + reflexivity.
  - apply (H (example_storage_series false)).
    + repeat split; repeat constructor.
    + reflexivity.
Defined.
